(** * intedact: univariate EDA summaries

    A shallow embedding of [intedact/univariate_summaries.py] and the
    properties of its summary table and of its five orchestrators.

    Conventions of the embedding:
    - a number (Python int, numpy int64 or float) is an exact rational:
      the finite float64 values, with no rounding, overflow or infinity;
      what is stated of the order statistics is stated for columns whose
      values lie in a range where no float64 operation overflows;
      NaN, NaT and None are the missing cell;
    - a column has no dtype of its own: it is numeric, of timestamps or
      of objects by the values it holds, and statements that depend on the
      dtype of an empty column are made for columns of one kind;
    - a Timestamp and a Timedelta are integer counts of nanoseconds;
    - a DataFrame is an ordered list of rows, each row a finite map from
      column name to value, an absent key being a missing cell;
    - DataFrame objects live in a store indexed by references, so that
      [data.copy()], in-place updates and aliasing are explicit;
    - a Python exception is a [Raise] result; the world it was raised in
      is kept. *)

From Stdlib Require Import ZArith QArith Qround Qminmax Qabs Lqa Lia String Ascii.
From stdpp Require Import base option list sorting gmap strings.

Local Open Scope string_scope.
Local Open Scope list_scope.

(** ** Exceptions and fallible results *)

(** [Dangling] is not a Python exception: it is the result of reading a
    reference that denotes no object, which no Python program can do. *)
Inductive exn : Type :=
| KeyError | TypeError | AttributeError | ValueError | Dangling.

Inductive result (A : Type) : Type :=
| Ok (a : A)
| Raise (e : exn).
Arguments Ok {A} a.
Arguments Raise {A} e.

#[global] Instance result_ret : MRet result := fun _ a => Ok a.
#[global] Instance result_bind : MBind result := fun _ _ k m =>
  match m with
  | Ok a => k a
  | Raise e => Raise e
  end.

(** ** Values and cells *)

(** A set is iterated like the list of its elements and is as unhashable
    as a list, so it is a [KList] here. *)
Inductive seq_kind : Type := KList | KTuple.

#[warnings="-register-all"]
Inductive value : Type :=
| VNum (q : Q)
| VTime (t : Z)
| VDelta (d : Z)
| VStr (s : string)
| VSeq (k : seq_kind) (l : list value).

Definition cell : Type := option value.

Definition seq_kind_eqb (a b : seq_kind) : bool :=
  match a, b with
  | KList, KList | KTuple, KTuple => true
  | _, _ => false
  end.

(** Python [==] on values. *)
Fixpoint value_eqb (a b : value) : bool :=
  match a, b with
  | VNum p, VNum q => Qeq_bool p q
  | VTime s, VTime t => Z.eqb s t
  | VDelta s, VDelta t => Z.eqb s t
  | VStr s, VStr t => String.eqb s t
  | VSeq k l, VSeq k' l' =>
      seq_kind_eqb k k' &&
      (fix all2 (l l' : list value) : bool :=
         match l, l' with
         | [], [] => true
         | x :: l, y :: l' => value_eqb x y && all2 l l'
         | _, _ => false
         end) l l'
  | _, _ => false
  end.

(** Whether [hash(v)] succeeds. *)
Fixpoint hashable (v : value) : bool :=
  match v with
  | VSeq KList _ => false
  | VSeq KTuple l => forallb hashable l
  | _ => true
  end.

(** The order used for sorting a column: numbers, times and strings by
    their own order; pandas raises on a column that mixes kinds, here the
    kinds are ranked so that the order stays total. *)
Definition kind_rank (v : value) : nat :=
  match v with
  | VNum _ => 0 | VTime _ => 1 | VDelta _ => 2 | VStr _ => 3 | VSeq _ _ => 4
  end.

Definition value_leb (a b : value) : bool :=
  match a, b with
  | VNum p, VNum q => Qle_bool p q
  | VTime s, VTime t => Z.leb s t
  | VDelta s, VDelta t => Z.leb s t
  | VStr s, VStr t => String.leb s t
  | _, _ => Nat.leb (kind_rank a) (kind_rank b)
  end.

(** Missing cells sort last, as [sort_values] places them. *)
Definition cell_leb (a b : cell) : bool :=
  match a, b with
  | _, None => true
  | None, Some _ => false
  | Some x, Some y => value_leb x y
  end.

(** ** DataFrames *)

Record DataFrame : Type := mkFrame {
  col_names : list string;
  rows : list (gmap string value)
}.

(** [data.shape[0]] *)
Definition shape0 (data : DataFrame) : Z := Z.of_nat (length (rows data)).

(** [data[column]] *)
Definition getitem (data : DataFrame) (column : string) : result (list cell) :=
  if decide (column ∈ col_names data)
  then Ok ((fun r : gmap string value => r !! column) <$> rows data)
  else Raise KeyError.

(** ** Series operations *)

Definition isnull (c : cell) : bool :=
  match c with None => true | Some _ => false end.

(** [s.isnull().sum()] *)
Definition isnull_sum (s : list cell) : Z :=
  Z.of_nat (length (List.filter isnull s)).

(** [s.dropna()] *)
Definition observed (s : list cell) : list value := omap id s.

(** The distinct elements, in order of first appearance. *)
Fixpoint dedup {A} (eqb : A -> A -> bool) (l : list A) : list A :=
  match l with
  | [] => []
  | x :: l => x :: List.filter (fun y => negb (eqb x y)) (dedup eqb l)
  end.

(** [s.nunique()]: hashing an unhashable value raises. *)
Definition nunique (s : list cell) : result Z :=
  if forallb hashable (observed s)
  then Ok (Z.of_nat (length (dedup value_eqb (observed s))))
  else Raise TypeError.

(** numpy's scalar division: a zero divisor gives NaN, not an error. *)
Definition np_div (a b : Z) : cell :=
  if Z.eqb b 0 then None else Some (VNum (inject_Z a / inject_Z b)).

Definition int_cell (z : Z) : cell := Some (VNum (inject_Z z)).

(** ** Numeric series *)

(** Numbers, timestamps and timedeltas all support order statistics;
    they are computed on rationals and converted back. *)
Inductive num_kind : Type := NKNum | NKTime | NKDelta.

Definition num_kind_eqb (a b : num_kind) : bool :=
  match a, b with
  | NKNum, NKNum | NKTime, NKTime | NKDelta, NKDelta => true
  | _, _ => false
  end.

Definition as_number (v : value) : option (num_kind * Q) :=
  match v with
  | VNum q => Some (NKNum, q)
  | VTime t => Some (NKTime, inject_Z t)
  | VDelta d => Some (NKDelta, inject_Z d)
  | _ => None
  end.

(** The integer part, towards zero, as the conversion of a float to
    int64 takes it. *)
Definition Qtruncate (q : Q) : Z := Z.quot (Qnum q) (Zpos (Qden q)).

Definition of_number (k : num_kind) (q : Q) : value :=
  match k with
  | NKNum => VNum q
  | NKTime => VTime (Qtruncate q)
  | NKDelta => VDelta (Qtruncate q)
  end.

Definition as_kind (k : num_kind) (v : value) : option Q :=
  match as_number v with
  | Some (k', q) => if num_kind_eqb k k' then Some q else None
  | None => None
  end.

(** The observed values of a numeric, datetime or timedelta series; any
    other series makes the numeric reductions raise.  A series without
    an observed value is taken as numeric: pandas goes by its dtype, and
    on an empty series of objects or of timestamps [describe] has no
    [min] to [std], so that the selection on line 80 raises [KeyError];
    the statements on "continuous" summaries are made for columns of
    numbers. *)
Definition numeric_values (s : list cell) : result (num_kind * list Q) :=
  match observed s with
  | [] => Ok (NKNum, [])
  | v :: vs =>
      match as_number v with
      | None => Raise TypeError
      | Some (k, q) =>
          match mapM (as_kind k) vs with
          | Some qs => Ok (k, q :: qs)
          | None => Raise TypeError
          end
      end
  end.

#[global] Instance Qle_dec (x y : Q) : Decision (x <= y)%Q.
Proof.
  destruct (Qle_bool x y) eqn:E.
  - left. by apply Qle_bool_iff.
  - right. intros H. apply Qle_bool_iff in H. congruence.
Defined.

(** Linear interpolation between the two order statistics around
    position [(n - 1) * q] of the sorted values [xs], in exact arithmetic:
    numpy computes [lo + (hi - lo) * f] in float64, rounding each step and
    overflowing when [hi - lo] is beyond the largest float. *)
Definition interpolate (xs : list Q) (q : Q) : option Q :=
  match xs with
  | [] => None
  | x0 :: _ =>
      let h := (inject_Z (Z.of_nat (length xs) - 1) * q)%Q in
      let i := Z.to_nat (Qfloor h) in
      let lo := nth i xs x0 in
      let hi := nth (S i) xs lo in
      Some (lo + (hi - lo) * (h - inject_Z (Qfloor h)))%Q
  end.

(** The middle of the sorted values [xs], the mean of the two middle
    ones when there are evenly many, in exact arithmetic. *)
Definition middle (xs : list Q) : option Q :=
  match xs with
  | [] => None
  | x0 :: _ =>
      let n := length xs in
      if Nat.even n
      then Some ((nth (n / 2 - 1) xs x0 + nth (n / 2) xs x0) / 2)%Q
      else Some (nth (n / 2) xs x0)
  end.

Definition list_min (xs : list Q) : option Q :=
  match xs with
  | [] => None
  | x :: xs => Some (foldl Qmin x xs)
  end.

Definition list_max (xs : list Q) : option Q :=
  match xs with
  | [] => None
  | x :: xs => Some (foldl Qmax x xs)
  end.

Definition Qsum (xs : list Q) : Q := foldr Qplus 0%Q xs.

Definition list_mean (xs : list Q) : option Q :=
  match xs with
  | [] => None
  | _ => Some (Qsum xs / inject_Z (Z.of_nat (length xs)))%Q
  end.

(** What the code takes from libraries and from modules of the package
    that are not at hand. *)
Class Externals : Type := {
  (** numpy's square root *)
  sqrt : Q -> Q;
  (** nltk's tokenizer and English stop words *)
  word_tokenize : string -> list string;
  stop_words : list string;
  (** pandas' [.dt] accessors on a timestamp *)
  dt_month_name : Z -> string;
  dt_day : Z -> Z;
  dt_year : Z -> Z;
  dt_hour : Z -> Z;
  dt_day_name : Z -> string;
  (** [data_utils.compute_time_deltas]: the deltas between successive
      observations and the unit they are in *)
  compute_time_deltas : list cell -> string -> result (list cell * string);
  (** a chart producer, by name, applied to a frame and a column: what
      it leaves in the frame it was handed, unless it raises *)
  chart : string -> string -> DataFrame -> result DataFrame
}.

(** The sample standard deviation ([ddof = 1]). *)
Definition list_std `{Externals} (xs : list Q) : option Q :=
  match list_mean xs with
  | None => None
  | Some m =>
      if (length xs <=? 1)%nat then None
      else Some (sqrt (Qsum ((fun x => (x - m) * (x - m))%Q <$> xs)
                       / inject_Z (Z.of_nat (length xs) - 1)))%Q
  end.

Definition reduce (f : list Q -> option Q) (s : list cell) : result cell :=
  '(k, xs) ← numeric_values s;
  Ok (of_number k <$> f xs).

(** [s.min()], [s.max()], [s.median()], [s.quantile(q)] *)
Definition series_min : list cell -> result cell := reduce list_min.
Definition series_max : list cell -> result cell := reduce list_max.
Definition median : list cell -> result cell :=
  reduce (fun xs => middle (merge_sort Qle xs)).
Definition quantile (s : list cell) (q : Q) : result cell :=
  reduce (fun xs => interpolate (merge_sort Qle xs) q) s.

(** Subtraction of two scalars: a difference of timestamps is a
    timedelta. *)
Definition cell_sub (a b : cell) : result cell :=
  match a, b with
  | None, _ | _, None => Ok None
  | Some (VNum p), Some (VNum q) => Ok (Some (VNum (p - q)))
  | Some (VTime s), Some (VTime t) => Ok (Some (VDelta (s - t)))
  | Some (VDelta s), Some (VDelta t) => Ok (Some (VDelta (s - t)))
  | _, _ => Raise TypeError
  end.

(** ** Summary tables *)

(** A small DataFrame of statistics: row labels and named columns, in
    order. *)
Record Table : Type := mkTable {
  t_index : list string;
  t_columns : list (string * list cell)
}.

Fixpoint alist_get {A} (k : string) (l : list (string * A)) : option A :=
  match l with
  | [] => None
  | (k', v) :: l => if String.eqb k k' then Some v else alist_get k l
  end.

Fixpoint alist_set {A} (k : string) (v : A) (l : list (string * A))
    : list (string * A) :=
  match l with
  | [] => [(k, v)]
  | (k', v') :: l =>
      if String.eqb k k' then (k, v) :: l else (k', v') :: alist_set k v l
  end.

(** [t[name] = c] for a scalar [c] *)
Definition table_set (t : Table) (name : string) (c : cell) : Table :=
  mkTable (t_index t)
    (alist_set name (replicate (length (t_index t)) c) (t_columns t)).

(** [t[names]] *)
Definition select_columns (t : Table) (names : list string) : result Table :=
  cols ← mapM (fun n => match alist_get n (t_columns t) with
                        | Some c => Ok (n, c)
                        | None => Raise KeyError
                        end) names;
  Ok (mkTable (t_index t) cols).

(** [t.rename({old: new}, axis="columns")] *)
Definition rename_column (old new : string) (t : Table) : Table :=
  mkTable (t_index t)
    ((fun '(n, c) => (if String.eqb n old then new else n, c)) <$> t_columns t).

(** [pd.concat([t1, t2], axis=1)] of two tables with the same index *)
Definition concat_columns (t1 t2 : Table) : Table :=
  mkTable (t_index t1) (t_columns t1 ++ t_columns t2).

(** [pd.concat(ts, axis=0)]: the rows one after the other, over the
    union of the columns, a column a table lacks being missing there *)
Definition concat_rows (ts : list Table) : Table :=
  let names := dedup String.eqb (ts ≫= fun t => fst <$> t_columns t) in
  mkTable (ts ≫= t_index)
    ((fun n => (n, ts ≫= fun t =>
                     default (replicate (length (t_index t)) None)
                             (alist_get n (t_columns t)))) <$> names).

(** The field [name] of a one-row table. *)
Definition field (t : Table) (name : string) : option cell :=
  alist_get name (t_columns t) ≫= head.

(** [pd.DataFrame(s.describe()).T] for the series named [name].  pandas
    reports no standard deviation for timestamps. *)
Definition describe `{Externals} (name : string) (s : list cell)
    : result Table :=
  '(k, xs) ← numeric_values s;
  let num (o : option Q) : list cell := [of_number k <$> o] in
  let sorted := merge_sort Qle xs in
  let count := ("count", [int_cell (Z.of_nat (length xs))]) in
  let mean := ("mean", num (list_mean xs)) in
  let std := ("std", num (list_std xs)) in
  let order_stats :=
    [("min", num (list_min xs));
     ("25%", num (interpolate sorted (1 # 4)));
     ("50%", num (interpolate sorted (1 # 2)));
     ("75%", num (interpolate sorted (3 # 4)));
     ("max", num (list_max xs))] in
  Ok (mkTable [name]
        match k with
        | NKTime => count :: mean :: order_stats
        | _ => count :: mean :: std :: order_stats
        end).

(** Lines 55 to 86 of [compute_univariate_summary_table]: the statistics
    of the trimmed frame, which these lines only read. *)
Definition summary_table `{Externals} (data : DataFrame)
    (column data_type : string) : result Table :=
  col ← getitem data column;
  let count_missing := isnull_sum col in
  let perc_missing := np_div (100 * count_missing) (shape0 data) in
  let count_obs := (shape0 data - count_missing)%Z in
  count_levels ← nunique col;
  let counts_table :=
    mkTable [column]
      [("count_observed", [int_cell count_obs]);
       ("count_unique", [int_cell count_levels]);
       ("count_missing", [int_cell count_missing]);
       ("percent_missing", [perc_missing])] in
  if String.eqb data_type "datetime" then
    v_min ← series_min col;
    let counts_table := table_set counts_table "min" v_min in
    v_25 ← quantile col (1 # 4);
    let counts_table := table_set counts_table "25%" v_25 in
    v_median ← median col;
    let counts_table := table_set counts_table "median" v_median in
    v_75 ← quantile col (3 # 4);
    let counts_table := table_set counts_table "75%" v_75 in
    v_max ← series_max col;
    let counts_table := table_set counts_table "max" v_max in
    hi ← quantile col (3 # 4);
    lo ← quantile col (1 # 4);
    iqr ← cell_sub hi lo;
    Ok (table_set counts_table "iqr" iqr)
  else if String.eqb data_type "continuous" || String.eqb data_type "datetime"
  then
    stats_table ← describe column col;
    hi ← quantile col (3 # 4);
    lo ← quantile col (1 # 4);
    iqr ← cell_sub hi lo;
    let stats_table := table_set stats_table "iqr" iqr in
    stats_table ← select_columns stats_table
      ["min"; "25%"; "50%"; "mean"; "75%"; "max"; "std"; "iqr"];
    let stats_table := rename_column "50%" "median" stats_table in
    Ok (concat_columns counts_table stats_table)
  else Ok counts_table.

(** ** The world: DataFrame objects, figures, palette and screen *)

Inductive shown : Type :=
| Displayed (t : Table)   (* display(table) *)
| PltShow.                (* plt.show() *)

Record world : Type := mkWorld {
  frames : gmap nat DataFrame;      (* the DataFrame objects, by reference *)
  figures : nat;                    (* number of figures created *)
  palette : list (option string);   (* arguments of sns.set_palette, latest first *)
  screen : list shown               (* what was displayed, latest first *)
}.

Definition M (A : Type) : Type := world -> result A * world.

#[global] Instance M_ret : MRet M := fun _ a w => (Ok a, w).
#[global] Instance M_bind : MBind M := fun _ _ k m w =>
  match m w with
  | (Ok a, w') => k a w'
  | (Raise e, w') => (Raise e, w')
  end.

Definition lift {A} (r : result A) : M A := fun w => (r, w).

Definition deref (r : nat) : M DataFrame := fun w =>
  match frames w !! r with
  | Some d => (Ok d, w)
  | None => (Raise Dangling, w)
  end.

(** A new DataFrame object. *)
Definition alloc (d : DataFrame) : M nat := fun w =>
  let r := fresh (dom (frames w)) in
  (Ok r, mkWorld (<[r := d]> (frames w)) (figures w) (palette w) (screen w)).

(** An update in place of the object behind [r]. *)
Definition store (r : nat) (d : DataFrame) : M unit := fun w =>
  (Ok tt, mkWorld (<[r := d]> (frames w)) (figures w) (palette w) (screen w)).

(** [sns.set_palette(p)] *)
Definition set_palette (p : option string) : M unit := fun w =>
  (Ok tt, mkWorld (frames w) (figures w) (p :: palette w) (screen w)).

(** [plt.figure(...)], [plt.subplots(...)] or a ggplot's [draw()]: the
    handle of a new figure. *)
Definition new_figure : M nat := fun w =>
  (Ok (figures w), mkWorld (frames w) (S (figures w)) (palette w) (screen w)).

Definition show (s : shown) : M unit := fun w =>
  (Ok tt, mkWorld (frames w) (figures w) (palette w) (s :: screen w)).

Definition when (b : bool) (m : M unit) : M unit :=
  if b then m else mret tt.

(** [data.copy()] *)
Definition copy (data : nat) : M nat :=
  d ← deref data; alloc d.

(** [data[column]] through a reference *)
Definition getcol (data : nat) (column : string) : M (list cell) :=
  d ← deref data; lift (getitem d column).

(** A call of the chart producer [producer] on the frame [data]. *)
Definition plot `{Externals} (producer : string) (data : nat)
    (column : string) : M unit :=
  d ← deref data;
  d' ← lift (chart producer column d);
  store data d'.

(** ** Frame operations *)

Definition set_cell (name : string) (c : cell) (r : gmap string value)
    : gmap string value :=
  match c with
  | Some v => <[name := v]> r
  | None => delete name r
  end.

(** [data[name] = cells], a series too short being missing below *)
Definition set_column (name : string) (cells : list cell) (d : DataFrame)
    : DataFrame :=
  mkFrame
    (if decide (name ∈ col_names d) then col_names d else col_names d ++ [name])
    (zip_with (set_cell name)
       (cells ++ replicate (length (rows d) - length cells) None) (rows d)).

Definition setcol (data : nat) (name : string) (cells : list cell) : M unit :=
  d ← deref data; store data (set_column name cells d).

(** [data.dropna(subset=[column])] *)
Definition dropna (column : string) (d : DataFrame) : result DataFrame :=
  if decide (column ∈ col_names d)
  then Ok (mkFrame (col_names d)
             (List.filter (fun r : gmap string value =>
                             negb (isnull (r !! column))) (rows d)))
  else Raise KeyError.

(** [data.iloc[k:, :]] *)
Definition iloc_from (k : nat) (d : DataFrame) : DataFrame :=
  mkFrame (col_names d) (drop k (rows d)).

(** [pd.DataFrame({name: values})] *)
Definition frame_of_column (name : string) (values : list value) : DataFrame :=
  mkFrame [name] ((fun v => {[name := v]}) <$> values).

(** [pd.Categorical(s, categories)]: a value outside the categories is
    missing. *)
Definition categorical (categories : list value) (s : list cell) : list cell :=
  (fun c : cell =>
     match c with
     | Some v => if existsb (value_eqb v) categories then Some v else None
     | None => None
     end) <$> s.

Definition row_le (column : string) (r1 r2 : gmap string value) : Prop :=
  Is_true (cell_leb (r1 !! column) (r2 !! column)).

#[global] Instance row_le_dec column r1 r2 : Decision (row_le column r1 r2).
Proof. unfold row_le. apply _. Defined.

Definition trim_rows (column : string) (lower_trim upper_trim : nat)
    (rs : list (gmap string value)) : list (gmap string value) :=
  let sorted := merge_sort (row_le column) rs in
  take (length sorted - upper_trim - lower_trim) (drop lower_trim sorted).

Definition trim_frame (column : string) (lower_trim upper_trim : nat)
    (d : DataFrame) : DataFrame :=
  mkFrame (col_names d) (trim_rows column lower_trim upper_trim (rows d)).

(** Modelled from the spec: [data_utils.trim_values] is not part of the
    sources at hand.  The rows are sorted by the column and the
    [lower_trim] smallest and [upper_trim] largest are dropped; the result
    is a new frame and the argument is left alone.  When the two counts
    together reach the number of rows, no row remains. *)
Definition trim_values (data : nat) (column : string)
    (lower_trim upper_trim : nat) : M nat :=
  d ← deref data;
  if decide (column ∈ col_names d)
  then alloc (trim_frame column lower_trim upper_trim d)
  else lift (Raise KeyError).

Definition compute_univariate_summary_table `{Externals} (data : nat)
    (column data_type : string) (lower_trim upper_trim : nat) : M Table :=
  data ← trim_values data column lower_trim upper_trim;
  d ← deref data;
  lift (summary_table d column data_type).

(** ** Python values of a series, element by element *)

#[global] Instance result_fmap : FMap result := fun _ _ f m =>
  match m with
  | Ok a => Ok (f a)
  | Raise e => Raise e
  end.

(** [s.apply(f)]: [f] is called on every element, missing ones too. *)
Definition series_apply (f : cell -> result cell) (s : list cell)
    : result (list cell) :=
  mapM f s.

Definition num_cell (n : nat) : cell := int_cell (Z.of_nat n).

(** [lambda x: len(x)] *)
Definition py_len (c : cell) : result cell :=
  match c with
  | Some (VStr s) => Ok (num_cell (String.length s))
  | Some (VSeq _ l) => Ok (num_cell (length l))
  | _ => Raise TypeError
  end.

(** [for i in e]: a sequence gives its elements, a string its
    characters, anything else is not iterable. *)
Definition py_iter (c : cell) : result (list value) :=
  match c with
  | Some (VSeq _ l) => Ok l
  | Some (VStr s) =>
      Ok ((fun a => VStr (String a EmptyString)) <$> list_ascii_of_string s)
  | _ => Raise TypeError
  end.

(** [itertools.combinations(coll, 2)] *)
Fixpoint combinations2 {A} (l : list A) : list (A * A) :=
  match l with
  | [] => []
  | x :: l => ((fun y => (x, y)) <$> l) ++ combinations2 l
  end.

Definition count_of (v : value) (vs : list value) : nat :=
  length (List.filter (value_eqb v) vs).

Definition more_frequent (a b : value * nat) : Prop := (snd b <= snd a)%nat.

#[global] Instance more_frequent_dec a b : Decision (more_frequent a b).
Proof. unfold more_frequent. apply _. Defined.

(** [s.value_counts()]: the distinct observed values with their number
    of occurrences, the most frequent first.  Unlike [nunique], it counts
    values that cannot be hashed as well, so it always returns.  The order
    among values of the same count is the one that pandas' sort leaves;
    here it is the one of [merge_sort], and nothing below is stated of
    it. *)
Definition value_counts (s : list cell) : result (list (value * nat)) :=
  let vs := observed s in
  Ok (merge_sort more_frequent
        ((fun v => (v, count_of v vs)) <$> dedup value_eqb vs)).

(** [list(counts.sort_values(ascending=False).index)[:top][::-1]]; the
    order among equal counts is again the one of the sort. *)
Definition top_order (top : nat) (counts : list (value * nat)) : list value :=
  reverse (take top
    (fst <$> merge_sort more_frequent counts)).

(** [entries = [i for e in data[column] for i in e]] *)
Definition flat_entries (s : list cell) : result (list value) :=
  (fun ls : list (list value) => List.concat ls) <$> mapM py_iter s.

(** [pairs = [comb for coll in data[column] for comb in combinations(coll, 2)]] *)
Definition pair_entries (s : list cell) : result (list value) :=
  (fun ls : list (list value) =>
     ls ≫= fun l => (fun p : value * value => VSeq KTuple [fst p; snd p])
                      <$> combinations2 l)
  <$> mapM py_iter s.

(** ** Text *)

Definition lower_ascii (a : ascii) : ascii :=
  let n := nat_of_ascii a in
  if ((65 <=? n) && (n <=? 90))%nat then ascii_of_nat (n + 32) else a.

(** [w.lower()], on ASCII *)
Fixpoint lower (s : string) : string :=
  match s with
  | EmptyString => EmptyString
  | String a s => String (lower_ascii a) (lower s)
  end.

Definition alnum_ascii (a : ascii) : bool :=
  let n := nat_of_ascii a in
  (((48 <=? n) && (n <=? 57)) || ((65 <=? n) && (n <=? 90))
   || ((97 <=? n) && (n <=? 122)))%nat.

(** [w.isalnum()], on ASCII: false on the empty string *)
Definition isalnum (s : string) : bool :=
  match s with
  | EmptyString => false
  | _ => forallb alnum_ascii (list_ascii_of_string s)
  end.

Definition of_tokens (ws : list string) : value := VSeq KList (VStr <$> ws).

Definition as_tokens (c : cell) : result (list string) :=
  match c with
  | Some (VSeq _ l) =>
      mapM (fun v => match v with VStr w => Ok w | _ => Raise AttributeError end) l
  | _ => Raise TypeError
  end.

(** [lambda x: [w for w in word_tokenize(x)]] *)
Definition tokenize `{Externals} (c : cell) : result cell :=
  match c with
  | Some (VStr x) => Ok (Some (of_tokens (word_tokenize x)))
  | _ => Raise TypeError
  end.

(** A comprehension over the tokens of a document. *)
Definition on_tokens (f : list string -> list string) (c : cell) : result cell :=
  ws ← as_tokens c; Ok (Some (of_tokens (f ws))).

(** [[w.lower() for w in x]] *)
Definition lower_all (x : list string) : list string := lower <$> x.

(** [[w for w in x if w.lower() not in stop_words]] *)
Definition drop_stop `{Externals} (x : list string) : list string :=
  List.filter (fun w => negb (bool_decide (lower w ∈ stop_words))) x.

(** [[w for w in x if w.isalnum()]] *)
Definition drop_punct (x : list string) : list string :=
  List.filter isalnum x.

(** [len(set([x for y in data["tokens"] for x in y]))] *)
Definition vocab_size (s : list cell) : result cell :=
  (fun ls : list (list string) => num_cell (length (dedup String.eqb (List.concat ls))))
  <$> mapM as_tokens s.

(** ** Timestamps *)

(** [s.dt.f()]: only a datetime series has the accessor. *)
Definition dt_apply (f : Z -> value) (s : list cell) : result (list cell) :=
  mapM (fun c : cell =>
          match c with
          | None => Ok None
          | Some (VTime t) => Ok (Some (f t))
          | Some _ => Raise AttributeError
          end) s.

(** [list(calendar.month_name)[1:]] and [list(calendar.day_name)] *)
Definition month_names : list value :=
  VStr <$> ["January"; "February"; "March"; "April"; "May"; "June"; "July";
            "August"; "September"; "October"; "November"; "December"].
Definition day_names : list value :=
  VStr <$> ["Monday"; "Tuesday"; "Wednesday"; "Thursday"; "Friday";
            "Saturday"; "Sunday"].

(** [np.arange(a, b, 1)] *)
Definition arange (a b : nat) : list value :=
  (fun n => VNum (inject_Z (Z.of_nat n))) <$> seq a (b - a).

(** [np.arange(0, m + 1)] for the scalar [m]: NaN gives no length. *)
Definition arange_upto (m : cell) : result (list value) :=
  match m with
  | Some (VNum q) => Ok (arange 0 (Z.to_nat (Qceiling (q + 1))))
  | Some _ => Raise TypeError
  | None => Raise ValueError
  end.

(** ** The orchestrators

    The options that only style a chart (figure size, font size, bins,
    transform, label rotation and the like) are passed on to the chart
    producers and change nothing else; they are left out. *)

(** What a call returns: nothing, a figure, or a table and a figure. *)
Inductive retval : Type :=
| RNone
| RFigure (fig : nat)
| RPair (table : Table) (fig : nat).

Definition FLIP_LEVEL_MINIMUM : Z := 5.

Definition discrete_univariate_summary `{Externals} (data : nat)
    (column : string) (color_palette : option string)
    (flip_axis : option bool) (interactive : bool) : M retval :=
  data ← copy data;
  flip_axis ← match flip_axis with
              | None =>
                  col ← getcol data column;
                  n ← lift (nunique col);
                  mret (FLIP_LEVEL_MINIMUM <? n)%Z
              | Some b => mret b
              end;
  _ ← (if negb (bool_decide (color_palette = Some ""))
       then set_palette color_palette
       else set_palette (Some "tab10"));
  summary_table ← compute_univariate_summary_table data column "discrete" 0 0;
  fig ← new_figure;
  _ ← plot "countplot" data column;
  _ ← when interactive (_ ← show (Displayed summary_table); show PltShow);
  mret (RPair summary_table fig).

Definition continuous_univariate_summary `{Externals} (data : nat)
    (column : string) (color_palette : option string)
    (lower_trim upper_trim : nat) (interactive : bool) : M retval :=
  data ← copy data;
  _ ← (if negb (bool_decide (color_palette = Some ""))
       then set_palette color_palette
       else set_palette (Some "tab10"));
  table ← compute_univariate_summary_table data column "continuous"
            lower_trim upper_trim;
  f ← new_figure;
  _ ← plot "histogram" data column;
  _ ← plot "boxplot" data column;
  _ ← when interactive (_ ← show (Displayed table); show PltShow);
  mret (RPair table f).

(** [delta_table.index = [label]] *)
Definition with_index (label : string) (t : Table) : Table :=
  mkTable [label] (t_columns t).

Definition datetime_univariate_summary `{Externals} (data : nat)
    (column : string) (color_palette : option string) (delta_units : string)
    (lower_trim upper_trim : nat) (interactive : bool) : M retval :=
  data ← copy data;
  data ← trim_values data column lower_trim upper_trim;
  _ ← (if negb (bool_decide (color_palette = Some ""))
       then set_palette color_palette
       else set_palette (Some "tab10"));
  (* extra columns with datetime attributes *)
  col ← getcol data column;
  month ← lift (dt_apply (fun t => VStr (dt_month_name t)) col);
  _ ← setcol data "Month" month;
  col ← getcol data column;
  day ← lift (dt_apply (fun t => VNum (inject_Z (dt_day t))) col);
  _ ← setcol data "Day of Month" day;
  col ← getcol data column;
  year ← lift (dt_apply (fun t => VNum (inject_Z (dt_year t))) col);
  _ ← setcol data "Year" year;
  col ← getcol data column;
  hour ← lift (dt_apply (fun t => VNum (inject_Z (dt_hour t))) col);
  _ ← setcol data "Hour" hour;
  col ← getcol data column;
  weekday ← lift (dt_apply (fun t => VStr (dt_day_name t)) col);
  _ ← setcol data "Day of Week" weekday;
  (* time deltas *)
  col ← getcol data column;
  '(deltas, delta_units) ← lift (compute_time_deltas col delta_units);
  _ ← setcol data "deltas" deltas;
  (* summary table *)
  table ← compute_univariate_summary_table data column "datetime" 0 0;
  d ← deref data;
  tail ← alloc (iloc_from 1 d);
  delta_table ← compute_univariate_summary_table tail "deltas" "continuous" 0 0;
  let delta_table :=
    with_index ("Time Deltas (" ++ delta_units ++ ")") delta_table in
  let table := concat_rows [table; delta_table] in
  _ ← when interactive (show (Displayed table));
  fig ← new_figure;
  _ ← plot "time_series_countplot" data column;
  _ ← plot "histogram" data "deltas";
  _ ← plot "boxplot" data "deltas";
  col ← getcol data "Month";
  _ ← setcol data "Month" (categorical month_names col);
  _ ← plot "countplot" data "Month";
  col ← getcol data "Day of Month";
  _ ← setcol data "Day of Month" (categorical (arange 1 32) col);
  _ ← plot "countplot" data "Day of Month";
  col ← getcol data "Day of Week";
  _ ← setcol data "Day of Week" (categorical day_names col);
  _ ← plot "countplot" data "Day of Week";
  col ← getcol data "Hour";
  _ ← setcol data "Hour" (categorical (arange 0 24) col);
  _ ← plot "countplot" data "Hour";
  _ ← when interactive (show PltShow);
  mret (RPair table fig).

(** Lines 544 to 553 of [text_univariate_summary]: the tokens of every
    document, left in the column "tokens". *)
Definition tokenize_documents `{Externals} (data : nat) (column : string)
    (remove_punct remove_stop lower_case : bool) : M unit :=
  col ← getcol data column;
  tokens ← lift (series_apply tokenize col);
  _ ← setcol data "tokens" tokens;
  _ ← when lower_case
        (col ← getcol data "tokens";
         tokens ← lift (series_apply (on_tokens lower_all) col);
         setcol data "tokens" tokens);
  _ ← when remove_stop
        (col ← getcol data "tokens";
         tokens ← lift (series_apply (on_tokens drop_stop) col);
         setcol data "tokens" tokens);
  when remove_punct
    (col ← getcol data "tokens";
     tokens ← lift (series_apply (on_tokens drop_punct) col);
     setcol data "tokens" tokens).

Definition text_univariate_summary `{Externals} (data : nat)
    (column : string) (color_palette : option string)
    (compute_ngrams remove_punct remove_stop lower_case interactive : bool)
    : M retval :=
  _ ← (if negb (bool_decide (color_palette = Some ""))
       then set_palette color_palette
       else set_palette (Some "tab10"));
  data ← copy data;
  d ← deref data;
  d ← lift (dropna column d);
  data ← alloc d;
  (* number of characters per document *)
  col ← getcol data column;
  chars ← lift (series_apply py_len col);
  _ ← setcol data "# Characters / Document" chars;
  (* tokenize the text *)
  _ ← tokenize_documents data column remove_punct remove_stop lower_case;
  col ← getcol data "tokens";
  counts ← lift (series_apply py_len col);
  _ ← setcol data "# Tokens / Document" counts;
  (* summary table *)
  table ← compute_univariate_summary_table data column "discrete" 0 0;
  col ← getcol data "tokens";
  vocab ← lift (vocab_size col);
  let table := table_set table "vocab_size" vocab in
  tokens_table ← compute_univariate_summary_table data
                   "# Tokens / Document" "continuous" 0 0;
  char_table ← compute_univariate_summary_table data
                 "# Characters / Document" "continuous" 0 0;
  let table := concat_rows [table; tokens_table; char_table] in
  _ ← when interactive (show (Displayed table));
  fig ← new_figure;
  _ ← when compute_ngrams
        (_ ← plot "plot_ngrams:tokens" data "tokens";
         _ ← plot "plot_ngrams:bigrams" data "tokens";
         plot "plot_ngrams:trigrams" data "tokens");
  _ ← plot "histogram" data "# Tokens / Document";
  _ ← plot "histogram" data "# Characters / Document";
  col ← getcol data column;
  counts ← lift (value_counts col);
  tmp ← alloc (frame_of_column "# Obs / Document"
                 ((fun p : value * nat => VNum (inject_Z (Z.of_nat (snd p))))
                  <$> counts));
  _ ← plot "boxplot" tmp "# Obs / Document";
  _ ← when interactive (show PltShow);
  mret (RFigure fig).

(** [frame.dropna()] of a frame with the single column [name] *)
Definition dropna_frame (name : string) (frame : nat) : M nat :=
  d ← deref frame; d ← lift (dropna name d); alloc d.

(** Lines 652 to 658 of [list_univariate_eda]: the frame of the entries
    of all lists, restricted to the [top_entries] most common ones. *)
Definition common_entries (data : nat) (column : string) (top_entries : nat)
    : M nat :=
  col ← getcol data column;
  entries ← lift (flat_entries col);
  singletons ← alloc (frame_of_column "single" entries);
  col ← getcol singletons "single";
  counts ← lift (value_counts col);
  let order := top_order top_entries counts in
  _ ← setcol singletons "single" (categorical order col);
  dropna_frame "single" singletons.

(** Lines 671 to 677 of [list_univariate_eda]: the same for the pairs of
    entries within each list. *)
Definition common_pairs (data : nat) (column : string) (top_entries : nat)
    : M nat :=
  col ← getcol data column;
  pairs ← lift (pair_entries col);
  pairs ← alloc (frame_of_column "pair" pairs);
  col ← getcol pairs "pair";
  counts ← lift (value_counts col);
  let order := top_order top_entries counts in
  _ ← setcol pairs "pair" (categorical order col);
  dropna_frame "pair" pairs.

Definition list_univariate_eda `{Externals} (data : nat) (column : string)
    (top_entries : nat) : M retval :=
  data ← copy data;
  (* handle missing data *)
  col ← getcol data column;
  let num_missing := isnull_sum col in
  d ← deref data;
  let perc_missing := np_div num_missing (shape0 d) in
  d ← lift (dropna column d);
  _ ← store data d;
  fig ← new_figure;
  _ ← plot "geom_blank" data column;
  (* most common entries *)
  singletons ← common_entries data column top_entries;
  _ ← plot "geom_bar" singletons "single";
  (* most common pairs *)
  pairs ← common_pairs data column top_entries;
  _ ← plot "geom_bar" pairs "pair";
  (* number of entries per observation *)
  col ← getcol data column;
  lens ← lift (series_apply py_len col);
  _ ← setcol data "num_entries" lens;
  col ← getcol data "num_entries";
  _ ← lift (series_max col);
  _ ← plot "geom_histogram" data "num_entries";
  (* the ticks of the histogram, lines 698 and 699 *)
  col ← getcol data "num_entries";
  most ← lift (series_max col);
  _ ← lift (arange_upto most);
  col ← getcol data "num_entries";
  most ← lift (series_max col);
  _ ← lift (arange_upto most);
  (* observations per unique list *)
  col ← getcol data column;
  counts ← lift (value_counts col);
  tmp ← alloc (frame_of_column "obs"
                 ((fun p : value * nat => VNum (inject_Z (Z.of_nat (snd p))))
                  <$> counts));
  _ ← plot "geom_boxplot" tmp "obs";
  _ ← show PltShow;
  mret RNone.

(** ** Definitions used in the statements *)


(** The world after [store r d], and after [alloc d]. *)
Definition set_frame (r : nat) (d : DataFrame) (w : world) : world :=
  mkWorld (<[r := d]> (frames w)) (figures w) (palette w) (screen w).

Definition allocated (d : DataFrame) (w : world) : world :=
  set_frame (fresh (dom (frames w))) d w.

(** [wp m Q w]: from the world [w] the computation [m] returns, with a
    value and a world that satisfy [Q]. *)
Definition wp {A} (m : M A) (Q : A -> world -> Prop) (w : world) : Prop :=
  match m w with
  | (Ok a, w') => Q a w'
  | (Raise _, _) => False
  end.

(** [keeps s0 m Q]: whether it returns or raises, [m] leaves the frames
    of [s0] as they are; a value it returns satisfies [Q]. *)
Definition keeps (s0 : gmap nat DataFrame) {A} (m : M A) (Q : A -> Prop) : Prop :=
  forall w, s0 ⊆ frames w ->
    s0 ⊆ frames (snd (m w)) /\ forall a, fst (m w) = Ok a -> Q a.

(** [quiet m]: [m] does not call [sns.set_palette]. *)
Definition quiet {A} (m : M A) : Prop :=
  forall w, palette (snd (m w)) = palette w.

(** The palette that a call with the option [color_palette] sets. *)
Definition palette_argument (color_palette : option string) : option string :=
  if bool_decide (color_palette = Some "") then Some "tab10" else color_palette.

(** A cell that is missing or holds a value of the kind [k]. *)
Definition cell_kind (k : num_kind) (c : cell) : Prop :=
  match c with
  | Some v => is_Some (as_kind k v)
  | None => True
  end.

#[global] Instance cell_kind_dec k c : Decision (cell_kind k c).
Proof. destruct c; simpl; apply _. Defined.

(** The frame has the column and every value in it is of the kind [k]. *)
Definition kind_column (k : num_kind) (d : DataFrame) (column : string) : Prop :=
  column ∈ col_names d /\
  Forall (fun row : gmap string value => cell_kind k (row !! column)) (rows d).

#[global] Instance kind_column_dec k d column : Decision (kind_column k d column).
Proof. unfold kind_column. apply _. Defined.

(** The documents of a text column, when every cell holds a string. *)
Definition documents (d : DataFrame) (column : string) : option (list string) :=
  mapM (fun row : gmap string value =>
          match row !! column with
          | Some (VStr x) => Some x
          | _ => None
          end) (rows d).

(** The tokens that are kept of the document [x]. *)
Definition kept_tokens `{Externals} (remove_punct remove_stop lower_case : bool)
    (x : string) : list string :=
  let ws := word_tokenize x in
  let ws := if lower_case then lower_all ws else ws in
  let ws := if remove_stop then drop_stop ws else ws in
  if remove_punct then drop_punct ws else ws.

(** The chart producers return and leave the frame they are handed as it
    is. *)
Definition charts_leave_frames `{Externals} : Prop :=
  forall producer column d, chart producer column d = Ok d.

(** The frame has the column and every value in it can be hashed. *)
Definition hashable_column (d : DataFrame) (column : string) : Prop :=
  column ∈ col_names d /\
  Forall (fun row : gmap string value =>
            match row !! column with
            | Some v => hashable v = true
            | None => True
            end) (rows d).

(** [neutral m]: [m] returns and leaves every frame as it is. *)
Definition neutral {A} (m : M A) : Prop :=
  forall w, exists a w', m w = (Ok a, w') /\ frames w' = frames w.

(** [compute_time_deltas] returns, with numbers for deltas. *)
Definition deltas_are_numbers `{Externals} : Prop :=
  forall s units, exists deltas units',
    compute_time_deltas s units = Ok (deltas, units') /\
    Forall (cell_kind NKNum) deltas.

(** The columns that [datetime_univariate_summary] adds to its copy. *)
Definition derived_columns : list string :=
  ["Month"; "Day of Month"; "Year"; "Hour"; "Day of Week"; "deltas"].

(** The state between two steps of [tokenize_documents]: the column
    "tokens" holds [g x] for every document [x]. *)
Definition tokens_are (g : string -> list string) (docs : list string)
    (data : nat) (w : world) : Prop :=
  exists d, frames w !! data = Some d /\
            length (rows d) = length docs /\
            getitem d "tokens" = Ok ((fun x => Some (of_tokens (g x))) <$> docs).




(** The fields of the summary of a continuous column, and the count
    fields that every summary starts with. *)
Definition count_fields : list string :=
  ["count_observed"; "count_unique"; "count_missing"; "percent_missing"].

Definition continuous_fields : list string :=
  count_fields ++ ["min"; "25%"; "median"; "mean"; "75%"; "max"; "std"; "iqr"].

(** A table with the single row [label]: every column holds one cell. *)
Definition one_row (label : string) (t : Table) : Prop :=
  t_index t = [label] /\
  Forall (fun c : string * list cell => length (snd c) = 1%nat) (t_columns t).

(** [silent m]: [m] displays nothing, whether it returns or raises. *)
Definition silent {A} (m : M A) : Prop :=
  forall w, screen (snd (m w)) = screen w.

(** [displays m Q]: what [m] has put on the screen, the latest first,
    satisfies [Q] together with the outcome of [m]. *)
Definition displays {A} (m : M A) (Q : result A -> list shown -> Prop) : Prop :=
  forall w, exists l, screen (snd (m w)) = l ++ screen w /\ Q (fst (m w)) l.

(** An interactive call that returns has displayed a table and then the
    figure; the table is the one it returns, if it returns one.  A call
    that raises has displayed the table at most. *)
Definition table_then_figure (r : result retval) (l : list shown) : Prop :=
  match r with
  | Ok (RPair t _) => l = [PltShow; Displayed t]
  | Ok (RFigure _) => exists t, l = [PltShow; Displayed t]
  | Ok RNone => False
  | Raise _ => l = [] \/ exists t, l = [Displayed t]
  end.

(** [list_univariate_eda] shows its figure when it returns, and nothing
    when it raises. *)
Definition figure_only (r : result retval) (l : list shown) : Prop :=
  match r with
  | Ok _ => l = [PltShow]
  | Raise _ => l = []
  end.

(** Two worlds that differ on the screen at most. *)
Definition same_but_screen (w1 w2 : world) : Prop :=
  frames w1 = frames w2 /\ figures w1 = figures w2 /\ palette w1 = palette w2.

(** [alike m1 m2]: from worlds that differ on the screen at most, [m1]
    and [m2] have the same outcome (the value returned or the exception
    raised) and leave worlds that differ on the screen at most. *)
Definition alike {A} (m1 m2 : M A) : Prop :=
  forall w1 w2, same_but_screen w1 w2 ->
    fst (m1 w1) = fst (m2 w2) /\ same_but_screen (snd (m1 w1)) (snd (m2 w2)).

(** The fields of the table of [datetime_univariate_summary]: those of
    the summary of the timestamps, then the two that the summary of the
    deltas alone has. *)
Definition datetime_table_fields : list string :=
  count_fields ++ ["min"; "25%"; "median"; "75%"; "max"; "iqr"; "mean"; "std"].

(** [wlp m Q w]: if [m] returns from the world [w], the value and the
    world satisfy [Q]; so [wlp m (fun _ _ => False) w] says that [m] raises. *)
Definition wlp {A} (m : M A) (Q : A -> world -> Prop) (w : world) : Prop :=
  match m w with
  | (Ok a, w') => Q a w'
  | (Raise _, _) => True
  end.

(** Some row of the frame holds a Python list in the column. *)
Definition holds_a_list (d : DataFrame) (column : string) : Prop :=
  Exists (fun row : gmap string value =>
            exists l, row !! column = Some (VSeq KList l)) (rows d).

(** The frame has the column and every cell in it is a string or
    missing. *)
Definition text_column (d : DataFrame) (column : string) : Prop :=
  column ∈ col_names d /\
  Forall (fun row : gmap string value =>
            match row !! column with
            | Some (VStr _) | None => True
            | Some _ => False
            end) (rows d).

#[global] Instance text_column_dec d column : Decision (text_column d column).
Proof.
  unfold text_column. apply and_dec; [apply _|]. apply Forall_dec.
  intros row. destruct (row !! column) as [[]|]; apply _.
Defined.

(** The columns that [text_univariate_summary] adds to its copy. *)
Definition text_columns : list string :=
  ["# Characters / Document"; "tokens"; "# Tokens / Document"].

(** A value that [list_univariate_eda] can take: a tuple that can be
    hashed, or a string (which is iterated by character). *)
Definition hashable_sequence (v : value) : bool :=
  match v with
  | VSeq _ _ => hashable v
  | VStr _ => true
  | _ => false
  end.

(** The frame has the column and every cell in it is missing or a
    hashable sequence. *)
Definition sequence_column (d : DataFrame) (column : string) : Prop :=
  column ∈ col_names d /\
  Forall (fun row : gmap string value =>
            match row !! column with
            | Some v => hashable_sequence v = true
            | None => True
            end) (rows d).

#[global] Instance sequence_column_dec d column :
  Decision (sequence_column d column).
Proof.
  unfold sequence_column. apply and_dec; [apply _|]. apply Forall_dec.
  intros row. destruct (row !! column); apply _.
Defined.

(** [raises e m w]: from the world [w] the computation [m] raises [e]. *)
Definition raises {A} (e : exn) (m : M A) (w : world) : Prop :=
  exists w', m w = (Raise e, w').

(** Some row of the frame holds a timestamp in the column. *)
Definition holds_a_time (d : DataFrame) (column : string) : Prop :=
  Exists (fun row : gmap string value =>
            match row !! column with
            | Some (VTime _) => True
            | _ => False
            end) (rows d).

#[global] Instance holds_a_time_dec d column : Decision (holds_a_time d column).
Proof.
  unfold holds_a_time. apply Exists_dec.
  intros row. destruct (row !! column) as [[]|]; apply _.
Defined.

(** The calendar columns that [datetime_univariate_summary] writes
    before it reads the timestamps again. *)
Definition calendar_columns : list string :=
  ["Month"; "Day of Month"; "Year"; "Hour"].

(** No cell of the column is missing. *)
Definition no_missing (d : DataFrame) (column : string) : Prop :=
  Forall (fun row : gmap string value => is_Some (row !! column)) (rows d).

(** The rows of the table that [text_univariate_summary] displays. *)
Definition text_table_rows (column : string) : list string :=
  [column; "# Tokens / Document"; "# Characters / Document"].

(** The values of the column fit the data type: numbers for
    "continuous", timestamps or numbers for "datetime"; any column fits
    another data type, for which the counts alone are taken. *)
Definition fits (data_type : string) (d : DataFrame) (column : string) : Prop :=
  if String.eqb data_type "datetime"
  then kind_column NKTime d column \/ kind_column NKNum d column
  else if String.eqb data_type "continuous"
  then kind_column NKNum d column
  else True.

#[global] Instance fits_dec data_type d column : Decision (fits data_type d column).
Proof.
  unfold fits. destruct (String.eqb data_type "datetime"); [apply _|].
  destruct (String.eqb data_type "continuous"); apply _.
Defined.

(** A bound under which no step of the interpolation of a quantile
    overflows in float64: the difference of two such numbers is below the
    largest float. *)
Definition float_safe : Q := inject_Z (2 ^ 1022).

(** Every number of the column is within [float_safe] of zero. *)
Definition in_float_range (d : DataFrame) (column : string) : Prop :=
  Forall (fun row : gmap string value =>
            match row !! column with
            | Some (VNum q) => (Qabs q <= float_safe)%Q
            | _ => True
            end) (rows d).

#[global] Instance in_float_range_dec d column :
  Decision (in_float_range d column).
Proof.
  unfold in_float_range. apply Forall_dec.
  intros row. destruct (row !! column) as [[]|]; apply _.
Defined.

(** The removal of stop words as the specification words it: a token
    goes when its lower-case form is one of the stop words, whatever the
    case it is written in; the others stay, in their order. *)
Fixpoint spec_without_stop_words (stop : list string) (ws : list string)
    : list string :=
  match ws with
  | [] => []
  | w :: ws =>
      if existsb (String.eqb (lower w)) stop
      then spec_without_stop_words stop ws
      else w :: spec_without_stop_words stop ws
  end.

(** The tokens that the specification leaves of a document when stop
    words are removed: lower-cased first if asked for, and without the
    tokens that are not alphanumeric if asked for. *)
Definition spec_tokens_left `{Externals} (remove_punct lower_case : bool)
    (x : string) : list string :=
  let ws := word_tokenize x in
  let ws := if lower_case then List.map lower ws else ws in
  let ws := spec_without_stop_words stop_words ws in
  if remove_punct then List.filter isalnum ws else ws.

(** Some row of the frame holds a string in the column. *)
Definition holds_a_string (d : DataFrame) (column : string) : Prop :=
  Exists (fun row : gmap string value =>
            match row !! column with
            | Some (VStr _) => True
            | _ => False
            end) (rows d).

#[global] Instance holds_a_string_dec d column :
  Decision (holds_a_string d column).
Proof.
  unfold holds_a_string. apply Exists_dec.
  intros row. destruct (row !! column) as [[]|]; apply _.
Defined.

(** Some row of the frame holds a value in the column. *)
Definition holds_a_value (d : DataFrame) (column : string) : Prop :=
  Exists (fun row : gmap string value => is_Some (row !! column)) (rows d).

#[global] Instance holds_a_value_dec d column :
  Decision (holds_a_value d column).
Proof. unfold holds_a_value. apply _. Defined.
(** ** Sample inputs *)

(** A tokenizer that splits on spaces. *)
Fixpoint split_on (sep : ascii) (acc : string) (s : string) : list string :=
  match s with
  | EmptyString => [acc]
  | String a s =>
      if Ascii.eqb a sep then acc :: split_on sep EmptyString s
      else split_on sep (acc ++ String a EmptyString) s
  end.

(** Collaborators that do the least: charts leave their frame alone and
    every delta is one second. *)
Definition sample_externals : Externals := {|
  sqrt := fun q => q;
  word_tokenize := split_on " " "";
  stop_words := ["the"; "a"; "is"];
  dt_month_name := fun _ => "January";
  dt_day := fun _ => 1%Z;
  dt_year := fun _ => 1970%Z;
  dt_hour := fun _ => 0%Z;
  dt_day_name := fun _ => "Thursday";
  compute_time_deltas := fun s _ => Ok ((fun _ => Some (VNum 1)) <$> s, "seconds");
  chart := fun _ _ d => Ok d
|}.

Definition num (z : Z) : value := VNum (inject_Z z).

(** A frame with the single column [name]. *)
Definition frame_of_cells (name : string) (cells : list cell) : DataFrame :=
  mkFrame [name] ((fun c : cell => set_cell name c ∅) <$> cells).

(** A world holding one frame, at reference 0. *)
Definition world_of (d : DataFrame) : world := mkWorld {[0%nat := d]} 0 [] [].

(** The column [1, 2, 2, 3, 3, 3, None]. *)
Definition example_column : list cell :=
  [Some (num 1); Some (num 2); Some (num 2); Some (num 3); Some (num 3);
   Some (num 3); None].

(** The column [1, 2, 3], and its summary as discrete when the smallest
    value is trimmed. *)
Definition three_rows : DataFrame :=
  frame_of_cells "x" [Some (num 1); Some (num 2); Some (num 3)].

Definition trimmed_summary : Table :=
  mkTable ["x"]
    [("count_observed", [int_cell 2]); ("count_unique", [int_cell 2]);
     ("count_missing", [int_cell 0]); ("percent_missing", [np_div 0 2])].

(** A column of three timestamps and a missing one. *)
Definition sample_times : DataFrame :=
  frame_of_cells "d" [Some (VTime 5); Some (VTime 1); Some (VTime 9); None].

(** The list-valued column [[1, 2], [2, 3]]. *)
Definition list_column : list cell :=
  [Some (VSeq KList [num 1; num 2]); Some (VSeq KList [num 2; num 3])].

(** The tuple [(a, b)]. *)
Definition pair_of (a b : Z) : value := VSeq KTuple [num a; num b].

(** Two documents. *)
Definition sample_texts : DataFrame :=
  frame_of_cells "t" [Some (VStr "The cat is here"); Some (VStr "a Dog")].

(** The column [(1, 2), (2, 3)] of tuples. *)
Definition tuple_column : list cell :=
  [Some (pair_of 1 2); Some (pair_of 2 3)].

(** The summary of [example_column] as discrete. *)
Definition example_summary : Table :=
  mkTable ["x"]
    [("count_observed", [int_cell 6]); ("count_unique", [int_cell 3]);
     ("count_missing", [int_cell 1]); ("percent_missing", [np_div 100 7])].

(** A column name that [three_rows] does not have. *)
Definition no_such_column : string := "y".

(** The table that [datetime_univariate_summary] returns on
    [sample_times]. *)
Definition sample_datetime_table : Table :=
  match fst (datetime_univariate_summary (H := sample_externals)
               0 "d" None "auto" 0 0 false (world_of sample_times)) with
  | Ok (RPair t _) => t
  | _ => mkTable [] []
  end.

(** A frame whose column "l" holds the lists [[1, 2], [2, 3]]. *)
Definition list_frame : DataFrame := frame_of_cells "l" list_column.

(** Three documents, one of them missing. *)
Definition sample_documents : DataFrame :=
  frame_of_cells "t" [Some (VStr "The cat is here"); None; Some (VStr "a Dog")].

(** A frame whose column "l" holds the tuples [(1, 2), (2, 3)] and a
    missing cell. *)
Definition tuple_frame : DataFrame :=
  frame_of_cells "l" (tuple_column ++ [None]).

(** Timestamps in a column that is named "Year". *)
Definition year_times : DataFrame :=
  frame_of_cells "Year" [Some (VTime 5); Some (VTime 1); None].

(** The world after [text_univariate_summary] has run, interactively, on
    [sample_documents]. *)
Definition sample_text_world : world :=
  snd (text_univariate_summary (H := sample_externals) 0 "t" None true true true
         false true (world_of sample_documents)).

(** * Properties *)

(** ** Order statistics *)

#[global] Instance Qle_trans' : Transitive Qle.
Proof. intros x y z. apply Qle_trans. Qed.
#[global] Instance Qle_total' : Total Qle.
Proof. intros x y. destruct (Qlt_le_dec x y); [left; by apply Qlt_le_weak | by right]. Qed.







(** ** Trimming *)

Lemma trim_rows_length column lo up rs :
  length (trim_rows column lo up rs) = (length rs - (lo + up))%nat.
Proof.
  unfold trim_rows. rewrite length_take, length_drop.
  rewrite (Permutation_length (merge_sort_Permutation _ rs)). lia.
Qed.

Lemma trim_rows_elem_of column lo up rs r :
  r ∈ trim_rows column lo up rs -> r ∈ rs.
Proof.
  unfold trim_rows. intros Hr.
  rewrite <- (merge_sort_Permutation (row_le column) rs).
  eapply subseteq_drop, subseteq_take, Hr.
Qed.


(** ** Running the summary-table builder *)

Lemma trim_values_run w r d column lo up :
  frames w !! r = Some d -> column ∈ col_names d ->
  trim_values r column lo up w
  = (Ok (fresh (dom (frames w))), allocated (trim_frame column lo up d) w).
Proof.
  intros Hr Hc. unfold trim_values, mbind, M_bind, deref. rewrite Hr.
  by rewrite decide_True.
Qed.

Lemma compute_run `{Externals} w r d column data_type lo up :
  frames w !! r = Some d -> column ∈ col_names d ->
  compute_univariate_summary_table r column data_type lo up w
  = (summary_table (trim_frame column lo up d) column data_type,
     allocated (trim_frame column lo up d) w).
Proof.
  intros Hr Hc. unfold compute_univariate_summary_table, mbind, M_bind.
  rewrite (trim_values_run _ _ _ _ _ _ Hr Hc).
  unfold deref, allocated; simpl. by rewrite lookup_insert_eq.
Qed.

Lemma compute_returns_inv `{Externals} w r d column data_type lo up t :
  frames w !! r = Some d ->
  fst (compute_univariate_summary_table r column data_type lo up w) = Ok t ->
  column ∈ col_names d /\
  summary_table (trim_frame column lo up d) column data_type = Ok t.
Proof.
  intros Hr. destruct (decide (column ∈ col_names d)) as [Hc|Hc].
  - rewrite (compute_run _ _ _ _ _ _ _ Hr Hc). simpl. done.
  - unfold compute_univariate_summary_table, trim_values, mbind, M_bind, deref.
    rewrite Hr. rewrite decide_False by done. simpl. done.
Qed.

(** ** The count fields *)

Lemma observed_length (s : list cell) :
  (Z.of_nat (length s) - isnull_sum s = Z.of_nat (length (observed s)))%Z.
Proof.
  unfold isnull_sum, observed. induction s as [|[v|] s IH]; cbn in *; lia.
Qed.

Lemma getitem_length d column col :
  getitem d column = Ok col -> length col = length (rows d).
Proof.
  unfold getitem. case_decide; [|done]. intros [= <-]. by rewrite length_fmap.
Qed.

Ltac bind_inv H :=
  match type of H with
  | (mbind _ ?m) = Ok _ =>
      let E := fresh "E" in destruct m eqn:E; simpl in H; [|discriminate H]
  | (match ?m with _ => _ end) = Ok _ =>
      let E := fresh "E" in destruct m eqn:E; simpl in H; try discriminate H
  end.

Lemma summary_table_counts `{Externals} d column data_type t :
  summary_table d column data_type = Ok t ->
  exists col u,
    getitem d column = Ok col /\ nunique col = Ok u /\
    field t "count_observed" = Some (int_cell (shape0 d - isnull_sum col)) /\
    field t "count_unique" = Some (int_cell u) /\
    field t "count_missing" = Some (int_cell (isnull_sum col)) /\
    field t "percent_missing" = Some (np_div (100 * isnull_sum col) (shape0 d)).
Proof.
  unfold summary_table. intros Ht.
  destruct (getitem d column) as [col|] eqn:Ecol; [|discriminate]. simpl in Ht.
  destruct (nunique col) as [u|] eqn:Eu; [|discriminate]. simpl in Ht.
  exists col, u. split; [done|]. split; [done|].
  destruct (String.eqb data_type "datetime").
  - repeat bind_inv Ht. injection Ht as <-. done.
  - destruct (String.eqb data_type "continuous" || false).
    + repeat bind_inv Ht. injection Ht as <-. done.
    + injection Ht as <-. done.
Qed.

(** ** Running a sequence step by step *)

Lemma bind_run {A B} (m : M A) (k : A -> M B) w a w' :
  m w = (Ok a, w') -> (m ≫= k) w = k a w'.
Proof. intros Hm. unfold mbind, M_bind. by rewrite Hm. Qed.

Lemma bind_raise {A B} (m : M A) (k : A -> M B) w e w' :
  m w = (Raise e, w') -> (m ≫= k) w = (Raise e, w').
Proof. intros Hm. unfold mbind, M_bind. by rewrite Hm. Qed.

Lemma getitem_missing d column :
  column ∉ col_names d -> getitem d column = Raise KeyError.
Proof. intros Hc. unfold getitem. by rewrite decide_False. Qed.

Lemma copy_run w r d :
  frames w !! r = Some d ->
  copy r w = (Ok (fresh (dom (frames w))), allocated d w).
Proof. intros Hr. unfold copy, mbind, M_bind, deref. by rewrite Hr. Qed.

Lemma getcol_allocated d w column :
  getcol (fresh (dom (frames w))) column (allocated d w)
  = (getitem d column, allocated d w).
Proof.
  unfold getcol, mbind, M_bind, deref, allocated, lift; simpl.
  rewrite lookup_insert_eq. by destruct (getitem d column).
Qed.

Lemma palette_run (color_palette : option string) w :
  (if negb (bool_decide (color_palette = Some ""))
   then set_palette color_palette
   else set_palette (Some "tab10")) w
  = (Ok tt, mkWorld (frames w) (figures w)
              (palette_argument color_palette :: palette w) (screen w)).
Proof. unfold palette_argument. by destruct (bool_decide _). Qed.

Lemma trim_values_missing w r d column lo up :
  frames w !! r = Some d -> column ∉ col_names d ->
  trim_values r column lo up w = (Raise KeyError, w).
Proof.
  intros Hr Hc. unfold trim_values, mbind, M_bind, deref. rewrite Hr.
  by rewrite decide_False.
Qed.

Lemma compute_missing `{Externals} w r d column data_type lo up :
  frames w !! r = Some d -> column ∉ col_names d ->
  compute_univariate_summary_table r column data_type lo up w
  = (Raise KeyError, w).
Proof.
  intros Hr Hc. unfold compute_univariate_summary_table.
  apply bind_raise. by apply (trim_values_missing _ _ d).
Qed.

Lemma lookup_fresh_allocated d w :
  frames (allocated d w) !! fresh (dom (frames w)) = Some d.
Proof. unfold allocated; simpl. apply lookup_insert_eq. Qed.

(** ** The counts balance (C2) *)

(** C2, as stated, fails once values are trimmed: for the column
    [1, 2, 3] with one value trimmed from below, [count_observed] is 2 and
    [count_missing] is 0, while the input has 3 rows. *)
Lemma counts_do_not_add_up_to_input_rows :
  exists t,
    fst (compute_univariate_summary_table (H := sample_externals)
           0 "x" "discrete" 1 0 (world_of three_rows)) = Ok t /\
    field t "count_observed" = Some (int_cell 2) /\
    field t "count_missing" = Some (int_cell 0) /\
    (2 + 0)%Z <> shape0 three_rows.
Proof. vm_compute. eexists. repeat split; try reflexivity. discriminate. Qed.

(** C2, amended: whenever [compute_univariate_summary_table] returns a
    table, [count_observed + count_missing] is the number of rows that
    are left after trimming, that is the number of rows of the input less
    [lower_trim + upper_trim] (and no less than zero); without trimming it
    is the number of rows of the input. *)
Theorem counts_balance `{Externals} w r d column data_type lo up t :
  frames w !! r = Some d ->
  fst (compute_univariate_summary_table r column data_type lo up w) = Ok t ->
  exists o m,
    field t "count_observed" = Some (int_cell o) /\
    field t "count_missing" = Some (int_cell m) /\
    (o + m)%Z = Z.of_nat (length (rows d) - (lo + up)) /\
    (lo = 0%nat -> up = 0%nat -> (o + m)%Z = shape0 d).
Proof.
  intros Hr Ht.
  destruct (compute_returns_inv _ _ _ _ _ _ _ _ Hr Ht) as [_ Hs].
  destruct (summary_table_counts _ _ _ _ Hs) as (col & u & _ & _ & Ho & _ & Hm & _).
  eexists _, _. split; [exact Ho|]. split; [exact Hm|].
  assert (Hsum : (shape0 (trim_frame column lo up d) - isnull_sum col + isnull_sum col
                  = Z.of_nat (length (rows d) - (lo + up)))%Z).
  { unfold shape0, trim_frame; simpl. rewrite trim_rows_length. lia. }
  split; [exact Hsum|].
  intros -> ->. rewrite Hsum. unfold shape0. f_equal. lia.
Qed.

(** [counts_balance] at the column [1, 2, 3] with one value trimmed. *)
Lemma counts_balance_witness :
  exists o m,
    field trimmed_summary "count_observed" = Some (int_cell o) /\
    field trimmed_summary "count_missing" = Some (int_cell m) /\
    (o + m)%Z = Z.of_nat (length (rows three_rows) - (1 + 0)) /\
    (1%nat = 0%nat -> 0%nat = 0%nat -> (o + m)%Z = shape0 three_rows).
Proof.
  apply (counts_balance (H := sample_externals) (world_of three_rows)
           0%nat three_rows "x" "discrete" 1 0 trimmed_summary).
  - reflexivity.
  - vm_compute. reflexivity.
Defined.

(** ** The worked example (C3) *)

(** C3: for the column [1, 2, 2, 3, 3, 3, None], as discrete and without
    trimming, the table has [count_observed = 6], [count_unique = 3],
    [count_missing = 1] and [percent_missing = 100 / 7], which is 14.3 to
    one decimal place. *)
Theorem example_discrete_summary `{Externals} w r :
  frames w !! r = Some (frame_of_cells "x" example_column) ->
  exists t p,
    fst (compute_univariate_summary_table r "x" "discrete" 0 0 w) = Ok t /\
    field t "count_observed" = Some (int_cell 6) /\
    field t "count_unique" = Some (int_cell 3) /\
    field t "count_missing" = Some (int_cell 1) /\
    field t "percent_missing" = Some (Some (VNum p)) /\
    (p == 100 / 7)%Q /\ (14.25 <= p)%Q /\ (p < 14.35)%Q.
Proof.
  intros Hr. rewrite (compute_run _ _ _ _ _ _ _ Hr) by (by apply list_elem_of_here).
  eexists _, _. split; [vm_compute; reflexivity|].
  repeat split; try reflexivity; vm_compute; congruence.
Qed.

(** [example_discrete_summary] in a world that holds only this frame. *)
Lemma example_discrete_summary_witness :
  exists t p,
    fst (compute_univariate_summary_table (H := sample_externals)
           0 "x" "discrete" 0 0 (world_of (frame_of_cells "x" example_column)))
      = Ok t /\
    field t "count_observed" = Some (int_cell 6) /\
    field t "count_unique" = Some (int_cell 3) /\
    field t "count_missing" = Some (int_cell 1) /\
    field t "percent_missing" = Some (Some (VNum p)) /\
    (p == 100 / 7)%Q /\ (14.25 <= p)%Q /\ (p < 14.35)%Q.
Proof.
  apply (example_discrete_summary (H := sample_externals)). reflexivity.
Defined.

(** ** Trimming everything away (C5) *)




(** ** Columns of one numeric kind *)

Lemma kind_column_trim k d column lo up :
  kind_column k d column -> kind_column k (trim_frame column lo up d) column.
Proof.
  intros [Hc Hall]. split; [done|]. simpl.
  rewrite Forall_forall in Hall |- *.
  intros row Hrow. eapply Hall, trim_rows_elem_of, Hrow.
Qed.

Lemma kind_column_getitem k d column :
  kind_column k d column ->
  exists col, getitem d column = Ok col /\ Forall (cell_kind k) col.
Proof.
  intros [Hc Hall]. unfold getitem. rewrite decide_True by done.
  eexists. split; [done|]. by rewrite Forall_fmap.
Qed.

Lemma cell_kind_observed k col :
  Forall (cell_kind k) col -> Forall (fun v => is_Some (as_kind k v)) (observed col).
Proof.
  unfold observed. induction 1 as [|[v|] col Hc _ IH]; cbn; auto.
Qed.

Lemma as_kind_number k v q : as_kind k v = Some q -> as_number v = Some (k, q).
Proof.
  unfold as_kind. destruct (as_number v) as [[k' q']|]; [|done].
  destruct k, k'; simpl; congruence.
Qed.

Lemma as_kind_hashable k v : is_Some (as_kind k v) -> hashable v = true.
Proof. intros [q Hq]. apply as_kind_number in Hq. by destruct v. Qed.

Lemma kind_nunique k col :
  Forall (cell_kind k) col ->
  nunique col = Ok (Z.of_nat (length (dedup value_eqb (observed col)))).
Proof.
  intros Hall%cell_kind_observed. unfold nunique.
  replace (forallb hashable (observed col)) with true; [done|].
  symmetry. apply forallb_forall. intros v Hv%list_elem_of_In.
  rewrite Forall_forall in Hall. eapply as_kind_hashable, Hall, Hv.
Qed.

Lemma kind_numeric_values k col :
  Forall (cell_kind k) col ->
  exists k' xs,
    numeric_values col = Ok (k', xs) /\
    length xs = length (observed col) /\
    (xs <> [] -> k' = k) /\ (xs = [] -> k' = NKNum).
Proof.
  intros Hall%cell_kind_observed. unfold numeric_values.
  destruct (observed col) as [|v vs]; [by exists NKNum, []|].
  apply Forall_cons in Hall as [[q Hq] Hvs].
  rewrite (as_kind_number _ _ _ Hq).
  assert (Hm : is_Some (mapM (as_kind k) vs)) by (by apply mapM_is_Some).
  destruct Hm as [qs Hqs]. rewrite Hqs.
  exists k, (q :: qs). split; [done|]. split; [|done].
  simpl. f_equal. symmetry. eapply length_mapM, Hqs.
Qed.

Lemma cell_sub_kind k (a b : option Q) :
  exists c, cell_sub (of_number k <$> a) (of_number k <$> b) = Ok c.
Proof. destruct k, a, b; simpl; eauto. Qed.

(** ** Datetime columns (C4) *)

Definition datetime_fields : list string :=
  ["count_observed"; "count_unique"; "count_missing"; "percent_missing";
   "min"; "25%"; "median"; "75%"; "max"; "iqr"].

Lemma summary_table_datetime_columns `{Externals} d column t :
  summary_table d column "datetime" = Ok t ->
  fst <$> t_columns t = datetime_fields.
Proof.
  unfold summary_table. intros Ht. simpl in Ht.
  repeat bind_inv Ht. injection Ht as <-. reflexivity.
Qed.

Lemma summary_table_datetime_returns `{Externals} k d column :
  kind_column k d column -> exists t, summary_table d column "datetime" = Ok t.
Proof.
  intros Hk. destruct (kind_column_getitem _ _ _ Hk) as (col & Hcol & Hall).
  destruct (kind_numeric_values _ _ Hall) as (k' & xs & Hxs & _).
  unfold summary_table, series_min, series_max, median, quantile, reduce.
  rewrite Hcol. simpl. rewrite (kind_nunique _ _ Hall). simpl.
  rewrite Hxs. simpl.
  destruct (cell_sub_kind k' (interpolate (merge_sort Qle xs) (3 # 4))
              (interpolate (merge_sort Qle xs) (1 # 4))) as [c ->].
  simpl. eauto.
Qed.

(** C4: for the data type "datetime", a returned table has the four count
    fields and min, 25%, median, 75%, max and iqr, in this order, and
    nothing else: no mean and no standard deviation; and on a column of
    timestamps the call does return a table. *)
Theorem datetime_summary_fields `{Externals} w r d column lo up :
  frames w !! r = Some d ->
  (forall t,
     fst (compute_univariate_summary_table r column "datetime" lo up w) = Ok t ->
     fst <$> t_columns t = datetime_fields /\
     field t "mean" = None /\ field t "std" = None) /\
  (kind_column NKTime d column ->
   exists t,
     fst (compute_univariate_summary_table r column "datetime" lo up w) = Ok t).
Proof.
  intros Hr. split.
  - intros t Ht.
    destruct (compute_returns_inv _ _ _ _ _ _ _ _ Hr Ht) as [_ Hs].
    pose proof (summary_table_datetime_columns _ _ _ Hs) as Hcols.
    split; [done|]. unfold field.
    destruct t as [ix cols]; simpl in *.
    do 11 (destruct cols as [|[? ?] cols]; try discriminate Hcols).
    injection Hcols as -> -> -> -> -> -> -> -> -> ->. done.
  - intros Hk. rewrite (compute_run _ _ _ _ _ _ _ Hr (proj1 Hk)). simpl.
    eapply summary_table_datetime_returns, kind_column_trim, Hk.
Qed.

(** [datetime_summary_fields] at a column of three timestamps. *)
Lemma datetime_summary_fields_witness :
  (forall t,
     fst (compute_univariate_summary_table (H := sample_externals)
            0 "d" "datetime" 0 0 (world_of sample_times)) = Ok t ->
     fst <$> t_columns t = datetime_fields /\
     field t "mean" = None /\ field t "std" = None) /\
  (exists t,
     fst (compute_univariate_summary_table (H := sample_externals)
            0 "d" "datetime" 0 0 (world_of sample_times)) = Ok t).
Proof.
  destruct (datetime_summary_fields (H := sample_externals)
              (world_of sample_times) 0%nat sample_times "d" 0 0 eq_refl)
    as [Ha Hb].
  split; [exact Ha|]. apply Hb.
  apply (bool_decide_unpack _). vm_compute. exact I.
Defined.

(** ** Continuous columns (C6) *)














(** ** The list example (C7) *)

(** C7: for the list-valued column [[1, 2], [2, 3]] the entries are 1, 2,
    2, 3, with frequencies 1:1, 2:2, 3:1, and the pairs within a list are
    (1, 2) and (2, 3), once each; these are the frames that
    [list_univariate_eda] builds for its two bar charts. *)
Theorem list_example_frequencies :
  flat_entries list_column = Ok [num 1; num 2; num 2; num 3] /\
  pair_entries list_column = Ok [pair_of 1 2; pair_of 2 3] /\
  (exists counts,
     value_counts (Some <$> [num 1; num 2; num 2; num 3]) = Ok counts /\
     counts ≡ₚ [(num 1, 1%nat); (num 2, 2%nat); (num 3, 1%nat)]) /\
  (exists counts,
     value_counts (Some <$> [pair_of 1 2; pair_of 2 3]) = Ok counts /\
     counts ≡ₚ [(pair_of 1 2, 1%nat); (pair_of 2 3, 1%nat)]) /\
  (exists r w d,
     common_entries 0 "l" 10 (world_of (frame_of_cells "l" list_column))
       = (Ok r, w) /\
     frames w !! r = Some d /\
     getitem d "single" = Ok (Some <$> [num 1; num 2; num 2; num 3])) /\
  (exists r w d,
     common_pairs 0 "l" 10 (world_of (frame_of_cells "l" list_column))
       = (Ok r, w) /\
     frames w !! r = Some d /\
     getitem d "pair" = Ok (Some <$> [pair_of 1 2; pair_of 2 3])).
Proof.
  split; [reflexivity|]. split; [reflexivity|].
  split; [|split; [|split]].
  - eexists. split; [vm_compute; reflexivity|].
    change ([(VNum 2, 2%nat); (VNum 3, 1%nat); (VNum 1, 1%nat)]
            ≡ₚ [(VNum 1, 1%nat); (VNum 2, 2%nat); (VNum 3, 1%nat)]).
    apply perm_trans with [(VNum 2, 2%nat); (VNum 1, 1%nat); (VNum 3, 1%nat)].
    + apply perm_skip, perm_swap.
    + apply perm_swap.
  - eexists. split; [vm_compute; reflexivity|].
    first [reflexivity | apply perm_swap].
  - eexists _, _, _. split; [vm_compute; reflexivity|].
    split; vm_compute; reflexivity.
  - eexists _, _, _. split; [vm_compute; reflexivity|].
    split; vm_compute; reflexivity.
Qed.

(** ** The caller's frames are left alone (C8) *)

Section Keeps.
Context (s0 : gmap nat DataFrame).

Lemma keeps_weaken {A} (m : M A) (Q Q' : A -> Prop) :
  keeps s0 m Q -> (forall a, Q a -> Q' a) -> keeps s0 m Q'.
Proof. intros Hm HQ w Hw. destruct (Hm w Hw). split; auto. Qed.

Lemma keeps_ret {A} (a : A) (Q : A -> Prop) : Q a -> keeps s0 (mret a) Q.
Proof. intros HQ w Hw. split; [done|]. by intros ? [= <-]. Qed.

Lemma keeps_ret_True {A} (a : A) : keeps s0 (mret a) (fun _ => True).
Proof. by apply keeps_ret. Qed.

Lemma keeps_lift {A} (r : result A) : keeps s0 (lift r) (fun _ => True).
Proof. intros w Hw. split; done. Qed.

Lemma keeps_raise {A} (e : exn) (Q : A -> Prop) : keeps s0 (lift (Raise e)) Q.
Proof. intros w Hw. split; done. Qed.

Lemma keeps_bind {A B} (m : M A) (k : A -> M B) (Q : A -> Prop) (Q' : B -> Prop) :
  keeps s0 m Q -> (forall a, Q a -> keeps s0 (k a) Q') -> keeps s0 (m ≫= k) Q'.
Proof.
  intros Hm Hk w Hw. destruct (Hm w Hw) as [Hw' HQ].
  unfold mbind, M_bind. destruct (m w) as [[a|e] w']; simpl in *.
  - by apply (Hk a (HQ a eq_refl)).
  - split; done.
Qed.

Lemma keeps_deref r : keeps s0 (deref r) (fun _ => True).
Proof. intros w Hw. unfold deref. by destruct (frames w !! r). Qed.

Lemma keeps_alloc d : keeps s0 (alloc d) (fun r => r ∉ dom s0).
Proof.
  intros w Hw. simpl.
  assert (Hf : fresh (dom (frames w)) ∉ dom s0).
  { intros Hin. apply (is_fresh (dom (frames w))).
    by apply (subseteq_dom _ _ Hw). }
  split.
  - apply insert_subseteq_r; [|done]. by apply not_elem_of_dom.
  - by intros ? [= <-].
Qed.

Lemma keeps_store r d : r ∉ dom s0 -> keeps s0 (store r d) (fun _ => True).
Proof.
  intros Hr w Hw. simpl. split; [|done].
  apply insert_subseteq_r; [|done]. by apply not_elem_of_dom.
Qed.

Lemma keeps_set_palette p : keeps s0 (set_palette p) (fun _ => True).
Proof. intros w Hw. by split. Qed.

Lemma keeps_new_figure : keeps s0 new_figure (fun _ => True).
Proof. intros w Hw. by split. Qed.

Lemma keeps_show s : keeps s0 (show s) (fun _ => True).
Proof. intros w Hw. by split. Qed.

Lemma keeps_when b m :
  keeps s0 m (fun _ => True) -> keeps s0 (when b m) (fun _ => True).
Proof. destruct b; [done|]. intros _. by apply keeps_ret. Qed.

End Keeps.

Ltac keeps_call := fail.

(** One step of a sequence: the first computation by a rule of its own,
    then the rest, knowing what the rule says of the value. *)
Ltac keeps_step :=
  first
    [ keeps_call
    | lazymatch goal with
      | |- keeps _ (mbind _ _) _ =>
          eapply keeps_bind; [|intros ? ?; cbv beta in *]
      | |- keeps _ (mret _) _ =>
          first [apply keeps_ret_True | by apply keeps_ret]
      | |- keeps _ (lift (Raise _)) _ => apply keeps_raise
      | |- keeps _ (lift _) _ => apply keeps_lift
      | |- keeps _ (deref _) _ => apply keeps_deref
      | |- keeps _ (alloc _) _ => apply keeps_alloc
      | |- keeps _ (store _ _) _ => by apply keeps_store
      | |- keeps _ (set_palette _) _ => apply keeps_set_palette
      | |- keeps _ new_figure _ => apply keeps_new_figure
      | |- keeps _ (show _) _ => apply keeps_show
      | |- keeps _ (when _ _) _ => apply keeps_when
      | |- keeps _ (if ?b then _ else _) _ => destruct b
      | |- keeps _ (match ?x with _ => _ end) _ => destruct x
      end ].

Ltac keeps_all := cbv zeta; repeat keeps_step.

Lemma keeps_copy s0 r : keeps s0 (copy r) (fun r' => r' ∉ dom s0).
Proof. unfold copy. keeps_all. Qed.

Lemma keeps_getcol s0 r c : keeps s0 (getcol r c) (fun _ => True).
Proof. unfold getcol. keeps_all. Qed.

Lemma keeps_setcol s0 r n cells :
  r ∉ dom s0 -> keeps s0 (setcol r n cells) (fun _ => True).
Proof. intros Hr. unfold setcol. keeps_all. Qed.

Lemma keeps_plot `{Externals} s0 p r c :
  r ∉ dom s0 -> keeps s0 (plot p r c) (fun _ => True).
Proof. intros Hr. unfold plot. keeps_all. Qed.

Lemma keeps_trim_values s0 r c lo up :
  keeps s0 (trim_values r c lo up) (fun r' => r' ∉ dom s0).
Proof. unfold trim_values. keeps_all. Qed.

Lemma keeps_dropna_frame s0 name r :
  keeps s0 (dropna_frame name r) (fun r' => r' ∉ dom s0).
Proof. unfold dropna_frame. keeps_all. Qed.

Ltac keeps_call ::=
  lazymatch goal with
  | |- keeps _ (copy _) _ => apply keeps_copy
  | |- keeps _ (getcol _ _) _ => apply keeps_getcol
  | |- keeps _ (setcol _ _ _) _ => by apply keeps_setcol
  | |- keeps _ (plot _ _ _) _ => by apply keeps_plot
  | |- keeps _ (trim_values _ _ _ _) _ => apply keeps_trim_values
  | |- keeps _ (dropna_frame _ _) _ => apply keeps_dropna_frame
  end.

Lemma keeps_compute `{Externals} s0 r c dt lo up :
  keeps s0 (compute_univariate_summary_table r c dt lo up) (fun _ => True).
Proof. unfold compute_univariate_summary_table. keeps_all. Qed.

Lemma keeps_tokenize_documents `{Externals} s0 r c rp rs lc :
  r ∉ dom s0 -> keeps s0 (tokenize_documents r c rp rs lc) (fun _ => True).
Proof. intros Hr. unfold tokenize_documents. keeps_all. Qed.

Lemma keeps_common_entries s0 r c top :
  keeps s0 (common_entries r c top) (fun r' => r' ∉ dom s0).
Proof. unfold common_entries. keeps_all. Qed.

Lemma keeps_common_pairs s0 r c top :
  keeps s0 (common_pairs r c top) (fun r' => r' ∉ dom s0).
Proof. unfold common_pairs. keeps_all. Qed.

Ltac keeps_call ::=
  lazymatch goal with
  | |- keeps _ (copy _) _ => apply keeps_copy
  | |- keeps _ (getcol _ _) _ => apply keeps_getcol
  | |- keeps _ (setcol _ _ _) _ => by apply keeps_setcol
  | |- keeps _ (plot _ _ _) _ => by apply keeps_plot
  | |- keeps _ (trim_values _ _ _ _) _ => apply keeps_trim_values
  | |- keeps _ (dropna_frame _ _) _ => apply keeps_dropna_frame
  | |- keeps _ (compute_univariate_summary_table _ _ _ _ _) _ =>
      apply keeps_compute
  | |- keeps _ (tokenize_documents _ _ _ _ _) _ =>
      by apply keeps_tokenize_documents
  | |- keeps _ (common_entries _ _ _) _ => apply keeps_common_entries
  | |- keeps _ (common_pairs _ _ _) _ => apply keeps_common_pairs
  end.

Lemma keeps_discrete `{Externals} s0 r c cp fa i :
  keeps s0 (discrete_univariate_summary r c cp fa i) (fun _ => True).
Proof. unfold discrete_univariate_summary. keeps_all. Qed.

Lemma keeps_continuous `{Externals} s0 r c cp lo up i :
  keeps s0 (continuous_univariate_summary r c cp lo up i) (fun _ => True).
Proof. unfold continuous_univariate_summary. keeps_all. Qed.

Lemma keeps_datetime `{Externals} s0 r c cp du lo up i :
  keeps s0 (datetime_univariate_summary r c cp du lo up i) (fun _ => True).
Proof. unfold datetime_univariate_summary. keeps_all. Qed.

Lemma keeps_text `{Externals} s0 r c cp ng rp rs lc i :
  keeps s0 (text_univariate_summary r c cp ng rp rs lc i) (fun _ => True).
Proof. unfold text_univariate_summary. keeps_all. Qed.

Lemma keeps_list `{Externals} s0 r c top :
  keeps s0 (list_univariate_eda r c top) (fun _ => True).
Proof. unfold list_univariate_eda. keeps_all. Qed.

(** C8: a DataFrame object that exists before a call of any of the six
    public functions is the same after it, whether the call returns or
    raises; this holds of the caller's frame in particular, and whatever
    the chart producers do to the frame they are handed.  (The
    orchestrators work on [data.copy()]; the summary-table builder only
    reads, [trim_values], modelled from the spec, giving it a new frame.) *)
Theorem callers_frames_unchanged `{Externals} (w : world) (r : nat) (d : DataFrame) :
  frames w !! r = Some d ->
  (forall data column data_type lower_trim upper_trim,
     frames (snd (compute_univariate_summary_table data column data_type
                    lower_trim upper_trim w)) !! r = Some d) /\
  (forall data column color_palette flip_axis interactive,
     frames (snd (discrete_univariate_summary data column color_palette
                    flip_axis interactive w)) !! r = Some d) /\
  (forall data column color_palette lower_trim upper_trim interactive,
     frames (snd (continuous_univariate_summary data column color_palette
                    lower_trim upper_trim interactive w)) !! r = Some d) /\
  (forall data column color_palette delta_units lower_trim upper_trim interactive,
     frames (snd (datetime_univariate_summary data column color_palette
                    delta_units lower_trim upper_trim interactive w)) !! r
     = Some d) /\
  (forall data column color_palette compute_ngrams remove_punct remove_stop
          lower_case interactive,
     frames (snd (text_univariate_summary data column color_palette
                    compute_ngrams remove_punct remove_stop lower_case
                    interactive w)) !! r = Some d) /\
  (forall data column top_entries,
     frames (snd (list_univariate_eda data column top_entries w)) !! r = Some d).
Proof.
  intros Hr.
  assert (Hkeep : forall A (m : M A),
            keeps (frames w) m (fun _ => True) -> frames (snd (m w)) !! r = Some d).
  { intros A m Hm. destruct (Hm w (reflexivity _)) as [Hsub _].
    eapply lookup_weaken; [exact Hr|exact Hsub]. }
  repeat split; intros; apply Hkeep.
  - apply keeps_compute.
  - apply keeps_discrete.
  - apply keeps_continuous.
  - apply keeps_datetime.
  - apply keeps_text.
  - apply keeps_list.
Qed.

(** [callers_frames_unchanged] in a world that holds one frame. *)
Lemma callers_frames_unchanged_witness :
  (forall data column data_type lower_trim upper_trim,
     frames (snd (compute_univariate_summary_table (H := sample_externals)
                    data column data_type lower_trim upper_trim
                    (world_of three_rows))) !! 0%nat = Some three_rows) /\
  (forall data column color_palette flip_axis interactive,
     frames (snd (discrete_univariate_summary (H := sample_externals)
                    data column color_palette flip_axis interactive
                    (world_of three_rows))) !! 0%nat = Some three_rows) /\
  (forall data column color_palette lower_trim upper_trim interactive,
     frames (snd (continuous_univariate_summary (H := sample_externals)
                    data column color_palette lower_trim upper_trim interactive
                    (world_of three_rows))) !! 0%nat = Some three_rows) /\
  (forall data column color_palette delta_units lower_trim upper_trim interactive,
     frames (snd (datetime_univariate_summary (H := sample_externals)
                    data column color_palette delta_units lower_trim upper_trim
                    interactive (world_of three_rows))) !! 0%nat
     = Some three_rows) /\
  (forall data column color_palette compute_ngrams remove_punct remove_stop
          lower_case interactive,
     frames (snd (text_univariate_summary (H := sample_externals)
                    data column color_palette compute_ngrams remove_punct
                    remove_stop lower_case interactive
                    (world_of three_rows))) !! 0%nat = Some three_rows) /\
  (forall data column top_entries,
     frames (snd (list_univariate_eda (H := sample_externals)
                    data column top_entries (world_of three_rows))) !! 0%nat
     = Some three_rows).
Proof.
  apply (callers_frames_unchanged (H := sample_externals)
           (world_of three_rows) 0%nat three_rows).
  reflexivity.
Defined.

(** ** The palette (C9) *)

Lemma quiet_ret {A} (a : A) : quiet (mret a).
Proof. by intros w. Qed.

Lemma quiet_lift {A} (r : result A) : quiet (lift r).
Proof. by intros w. Qed.

Lemma quiet_bind {A B} (m : M A) (k : A -> M B) :
  quiet m -> (forall a, quiet (k a)) -> quiet (m ≫= k).
Proof.
  intros Hm Hk w. unfold mbind, M_bind. specialize (Hm w).
  destruct (m w) as [[a|e] w']; simpl in *; [|done].
  by rewrite Hk.
Qed.

Lemma quiet_deref r : quiet (deref r).
Proof. intros w. unfold deref. by destruct (frames w !! r). Qed.

Lemma quiet_alloc d : quiet (alloc d).
Proof. by intros w. Qed.

Lemma quiet_store r d : quiet (store r d).
Proof. by intros w. Qed.

Lemma quiet_new_figure : quiet new_figure.
Proof. by intros w. Qed.

Lemma quiet_show s : quiet (show s).
Proof. by intros w. Qed.

Lemma quiet_when b m : quiet m -> quiet (when b m).
Proof. destruct b; [done|]. intros _. apply quiet_ret. Qed.

Ltac quiet_call := fail.

Ltac quiet_step :=
  first
    [ quiet_call
    | lazymatch goal with
      | |- quiet (mbind _ _) => apply quiet_bind; [|intros ?]
      | |- quiet (mret _) => apply quiet_ret
      | |- quiet (lift _) => apply quiet_lift
      | |- quiet (deref _) => apply quiet_deref
      | |- quiet (alloc _) => apply quiet_alloc
      | |- quiet (store _ _) => apply quiet_store
      | |- quiet new_figure => apply quiet_new_figure
      | |- quiet (show _) => apply quiet_show
      | |- quiet (when _ _) => apply quiet_when
      | |- quiet (if ?b then _ else _) => destruct b
      | |- quiet (match ?x with _ => _ end) => destruct x
      end ].

Ltac quiet_all := cbv zeta; repeat quiet_step.

Lemma quiet_copy r : quiet (copy r).
Proof. unfold copy. quiet_all. Qed.

Lemma quiet_getcol r c : quiet (getcol r c).
Proof. unfold getcol. quiet_all. Qed.

Lemma quiet_setcol r n cells : quiet (setcol r n cells).
Proof. unfold setcol. quiet_all. Qed.

Lemma quiet_plot `{Externals} p r c : quiet (plot p r c).
Proof. unfold plot. quiet_all. Qed.

Lemma quiet_trim_values r c lo up : quiet (trim_values r c lo up).
Proof. unfold trim_values. quiet_all. Qed.

Lemma quiet_dropna_frame name r : quiet (dropna_frame name r).
Proof. unfold dropna_frame. quiet_all. Qed.

Ltac quiet_call ::=
  lazymatch goal with
  | |- quiet (copy _) => apply quiet_copy
  | |- quiet (getcol _ _) => apply quiet_getcol
  | |- quiet (setcol _ _ _) => apply quiet_setcol
  | |- quiet (plot _ _ _) => apply quiet_plot
  | |- quiet (trim_values _ _ _ _) => apply quiet_trim_values
  | |- quiet (dropna_frame _ _) => apply quiet_dropna_frame
  end.

Lemma quiet_compute `{Externals} r c dt lo up :
  quiet (compute_univariate_summary_table r c dt lo up).
Proof. unfold compute_univariate_summary_table. quiet_all. Qed.

Lemma quiet_tokenize_documents `{Externals} r c rp rs lc :
  quiet (tokenize_documents r c rp rs lc).
Proof. unfold tokenize_documents. quiet_all. Qed.

Ltac quiet_call ::=
  lazymatch goal with
  | |- quiet (copy _) => apply quiet_copy
  | |- quiet (getcol _ _) => apply quiet_getcol
  | |- quiet (setcol _ _ _) => apply quiet_setcol
  | |- quiet (plot _ _ _) => apply quiet_plot
  | |- quiet (trim_values _ _ _ _) => apply quiet_trim_values
  | |- quiet (dropna_frame _ _) => apply quiet_dropna_frame
  | |- quiet (compute_univariate_summary_table _ _ _ _ _) => apply quiet_compute
  | |- quiet (tokenize_documents _ _ _ _ _) => apply quiet_tokenize_documents
  end.

(** After the palette is set nothing sets it again. *)
Lemma palette_after {A} (m : M A) w :
  quiet m -> palette (snd (m w)) = palette w.
Proof. intros Hm. apply Hm. Qed.

Ltac palette_rest :=
  lazymatch goal with
  | |- palette (snd (?m ?w0)) = _ =>
      rewrite (palette_after m w0) by quiet_all; reflexivity
  end.

(** C9: each orchestrator that has the option calls [sns.set_palette]
    once, with [color_palette] itself unless that is the empty string and
    with "tab10" when it is; so with the default [None],
    [sns.set_palette(None)] is called, and the "tab10" branch is taken for
    the empty string only.  The palette is set whether the call then
    returns or raises: the text orchestrator sets it first of all, the
    continuous one right after the copy, the discrete one after the levels
    are counted for a [flip_axis] left at [None] (if that count raises,
    nothing is set), the datetime one after [trim_values] (modelled from
    the spec) has found the column. *)
Theorem palette_is_color_palette_unless_empty `{Externals}
    (w : world) (data : nat) (d : DataFrame) (column : string)
    (color_palette : option string) :
  frames w !! data = Some d ->
  (forall flip_axis interactive,
     palette (snd (discrete_univariate_summary data column color_palette
                     (Some flip_axis) interactive w))
     = palette_argument color_palette :: palette w) /\
  (forall interactive,
     palette (snd (discrete_univariate_summary data column color_palette
                     None interactive w))
     = match getitem d column ≫= nunique with
       | Ok _ => palette_argument color_palette :: palette w
       | Raise _ => palette w
       end) /\
  (forall lower_trim upper_trim interactive,
     palette (snd (continuous_univariate_summary data column color_palette
                     lower_trim upper_trim interactive w))
     = palette_argument color_palette :: palette w) /\
  (forall delta_units lower_trim upper_trim interactive,
     column ∈ col_names d ->
     palette (snd (datetime_univariate_summary data column color_palette
                     delta_units lower_trim upper_trim interactive w))
     = palette_argument color_palette :: palette w) /\
  (forall compute_ngrams remove_punct remove_stop lower_case interactive,
     palette (snd (text_univariate_summary data column color_palette
                     compute_ngrams remove_punct remove_stop lower_case
                     interactive w))
     = palette_argument color_palette :: palette w) /\
  palette_argument None = None /\
  (palette_argument color_palette <> color_palette <-> color_palette = Some "").
Proof.
  intros Hr. split; [|split; [|split; [|split; [|split; [|split]]]]].
  - intros fa i. unfold discrete_univariate_summary.
    rewrite (bind_run _ _ _ _ _ (copy_run _ _ _ Hr)).
    rewrite (bind_run (mret fa) _ _ fa _ eq_refl).
    rewrite (bind_run _ _ _ _ _ (palette_run color_palette _)).
    palette_rest.
  - intros i. unfold discrete_univariate_summary.
    rewrite (bind_run _ _ _ _ _ (copy_run _ _ _ Hr)).
    destruct (getitem d column) as [col|e] eqn:Hcol; simpl.
    + destruct (nunique col) as [n|e] eqn:Hn.
      * erewrite (bind_run (getcol _ column ≫= _) _ _ _ (allocated d w)).
        2:{ erewrite bind_run; [|by rewrite getcol_allocated, Hcol].
            erewrite bind_run; [|unfold lift; by rewrite Hn]. reflexivity. }
        rewrite (bind_run _ _ _ _ _ (palette_run color_palette _)).
        palette_rest.
      * erewrite (bind_raise (getcol _ column ≫= _) _ _ _ (allocated d w));
          [done|].
        erewrite bind_run; [|by rewrite getcol_allocated, Hcol].
        apply bind_raise. unfold lift. by rewrite Hn.
    + erewrite (bind_raise (getcol _ column ≫= _) _ _ _ (allocated d w));
        [done|].
      apply bind_raise. by rewrite getcol_allocated, Hcol.
  - intros lo up i. unfold continuous_univariate_summary.
    rewrite (bind_run _ _ _ _ _ (copy_run _ _ _ Hr)).
    rewrite (bind_run _ _ _ _ _ (palette_run color_palette _)).
    palette_rest.
  - intros du lo up i Hc. unfold datetime_univariate_summary.
    rewrite (bind_run _ _ _ _ _ (copy_run _ _ _ Hr)).
    rewrite (bind_run _ _ _ _ _
               (trim_values_run _ _ d column lo up
                  (lookup_fresh_allocated d w) Hc)).
    rewrite (bind_run _ _ _ _ _ (palette_run color_palette _)).
    palette_rest.
  - intros ng rp rs lc i. unfold text_univariate_summary.
    rewrite (bind_run _ _ _ _ _ (palette_run color_palette _)).
    palette_rest.
  - reflexivity.
  - unfold palette_argument. case_bool_decide as Hc.
    + subst. split; [done|]. intros _ [=].
    + split; [done|]. intros ->. done.
Qed.

(** [palette_is_color_palette_unless_empty] at the column [1, 2, 3] and
    the default palette. *)
Lemma palette_is_color_palette_unless_empty_witness :
  (forall flip_axis interactive,
     palette (snd (discrete_univariate_summary (H := sample_externals) 0 "x"
                     None (Some flip_axis) interactive (world_of three_rows)))
     = palette_argument None :: palette (world_of three_rows)) /\
  (forall interactive,
     palette (snd (discrete_univariate_summary (H := sample_externals) 0 "x"
                     None None interactive (world_of three_rows)))
     = match getitem three_rows "x" ≫= nunique with
       | Ok _ => palette_argument None :: palette (world_of three_rows)
       | Raise _ => palette (world_of three_rows)
       end) /\
  (forall lower_trim upper_trim interactive,
     palette (snd (continuous_univariate_summary (H := sample_externals) 0 "x"
                     None lower_trim upper_trim interactive
                     (world_of three_rows)))
     = palette_argument None :: palette (world_of three_rows)) /\
  (forall delta_units lower_trim upper_trim interactive,
     "x" ∈ col_names three_rows ->
     palette (snd (datetime_univariate_summary (H := sample_externals) 0 "x"
                     None delta_units lower_trim upper_trim interactive
                     (world_of three_rows)))
     = palette_argument None :: palette (world_of three_rows)) /\
  (forall compute_ngrams remove_punct remove_stop lower_case interactive,
     palette (snd (text_univariate_summary (H := sample_externals) 0 "x" None
                     compute_ngrams remove_punct remove_stop lower_case
                     interactive (world_of three_rows)))
     = palette_argument None :: palette (world_of three_rows)) /\
  palette_argument None = None /\
  (palette_argument None <> None <-> None = Some "").
Proof.
  apply (palette_is_color_palette_unless_empty (H := sample_externals)
           (world_of three_rows) 0%nat three_rows "x" None).
  reflexivity.
Defined.

(** ** Running a computation that returns *)

Lemma wp_elim {A} (m : M A) Q w :
  wp m Q w -> exists a w', m w = (Ok a, w') /\ Q a w'.
Proof. unfold wp. destruct (m w) as [[a|e] w']; [eauto|done]. Qed.

Lemma wp_mono {A} (m : M A) (Q Q' : A -> world -> Prop) w :
  wp m Q w -> (forall a w', Q a w' -> Q' a w') -> wp m Q' w.
Proof. unfold wp. destruct (m w) as [[a|e] w']; [auto|done]. Qed.

Lemma wp_ret {A} (a : A) (Q : A -> world -> Prop) w : Q a w -> wp (mret a) Q w.
Proof. done. Qed.

Lemma wp_bind {A B} (m : M A) (k : A -> M B) Q w :
  wp m (fun a w' => wp (k a) Q w') w -> wp (m ≫= k) Q w.
Proof. unfold wp, mbind, M_bind. by destruct (m w) as [[a|e] w']. Qed.

Lemma wp_lift {A} (r : result A) a (Q : A -> world -> Prop) w :
  r = Ok a -> Q a w -> wp (lift r) Q w.
Proof. by intros ->. Qed.

Lemma wp_deref r d (Q : DataFrame -> world -> Prop) w :
  frames w !! r = Some d -> Q d w -> wp (deref r) Q w.
Proof. intros Hr HQ. unfold wp, deref. by rewrite Hr. Qed.

Lemma wp_alloc d (Q : nat -> world -> Prop) w :
  Q (fresh (dom (frames w))) (allocated d w) -> wp (alloc d) Q w.
Proof. done. Qed.

Lemma wp_store r d (Q : unit -> world -> Prop) w :
  Q tt (set_frame r d w) -> wp (store r d) Q w.
Proof. done. Qed.

Lemma wp_getcol r c d col (Q : list cell -> world -> Prop) w :
  frames w !! r = Some d -> getitem d c = Ok col -> Q col w ->
  wp (getcol r c) Q w.
Proof.
  intros Hr Hc HQ. unfold getcol. apply wp_bind, (wp_deref _ d); [done|].
  by apply (wp_lift _ col).
Qed.

Lemma wp_setcol r n cells d (Q : unit -> world -> Prop) w :
  frames w !! r = Some d -> Q tt (set_frame r (set_column n cells d) w) ->
  wp (setcol r n cells) Q w.
Proof.
  intros Hr HQ. unfold setcol. apply wp_bind, (wp_deref _ d); [done|].
  by apply wp_store.
Qed.

Lemma lookup_set_frame r d w : frames (set_frame r d w) !! r = Some d.
Proof. apply lookup_insert_eq. Qed.

Lemma lookup_allocated d w :
  frames (allocated d w) !! fresh (dom (frames w)) = Some d.
Proof. apply lookup_insert_eq. Qed.

Lemma lookup_allocated_old d w r d' :
  frames w !! r = Some d' -> frames (allocated d w) !! r = Some d'.
Proof.
  intros Hr. unfold allocated, set_frame; simpl.
  rewrite lookup_insert_ne; [done|].
  intros <-. apply (is_fresh (dom (frames w))). by apply elem_of_dom.
Qed.

(** ** Columns that are set *)

Lemma set_column_rows name cells d :
  length (rows (set_column name cells d)) = length (rows d).
Proof.
  simpl. rewrite length_zip_with, length_app, length_replicate. lia.
Qed.

Lemma set_column_has name cells d : name ∈ col_names (set_column name cells d).
Proof.
  simpl. case_decide; [done|]. apply elem_of_app. right. apply list_elem_of_here.
Qed.

Lemma set_column_keeps name cells d c :
  c ∈ col_names d -> c ∈ col_names (set_column name cells d).
Proof.
  intros Hc. simpl. case_decide; [done|]. apply elem_of_app. by left.
Qed.

Lemma set_cell_lookup name c (r : gmap string value) :
  set_cell name c r !! name = c.
Proof. destruct c; simpl; [apply lookup_insert_eq|apply lookup_delete_eq]. Qed.

Lemma set_cell_lookup_ne name c (r : gmap string value) other :
  other <> name -> set_cell name c r !! other = r !! other.
Proof.
  intros Hne. destruct c; simpl; [by apply lookup_insert_ne|by apply lookup_delete_ne].
Qed.

Lemma zip_set_cell_lookup name cells (rs : list (gmap string value)) :
  length cells = length rs ->
  (fun r : gmap string value => r !! name) <$> zip_with (set_cell name) cells rs
  = cells.
Proof.
  revert rs. induction cells as [|c cells IH]; intros [|r rs] Hlen;
    simpl in *; try done.
  rewrite set_cell_lookup. f_equal. apply IH. lia.
Qed.

Lemma set_column_getitem name cells d :
  length cells = length (rows d) ->
  getitem (set_column name cells d) name = Ok cells.
Proof.
  intros Hlen. unfold getitem.
  rewrite decide_True by apply set_column_has. f_equal. simpl.
  rewrite Hlen, Nat.sub_diag. simpl. rewrite app_nil_r.
  by apply zip_set_cell_lookup.
Qed.

(** ** Stop words (C10) *)

Lemma mapM_cons_Ok {A B} (f : A -> result B) x l y k :
  f x = Ok y -> mapM f l = Ok k -> mapM f (x :: l) = Ok (y :: k).
Proof.
  intros Hx Hl.
  change (mapM f (x :: l)) with (f x ≫= fun y => mapM f l ≫= fun k => mret (y :: k)).
  by rewrite Hx, Hl.
Qed.

Lemma as_tokens_of_tokens ws : as_tokens (Some (of_tokens ws)) = Ok ws.
Proof.
  unfold as_tokens, of_tokens. induction ws as [|w ws IH]; [done|].
  rewrite fmap_cons. by apply mapM_cons_Ok.
Qed.

Lemma apply_on_tokens (f g : string -> list string) (h : list string -> list string)
    (docs : list string) :
  (forall x, f x = h (g x)) ->
  series_apply (on_tokens h) ((fun x => Some (of_tokens (g x))) <$> docs)
  = Ok ((fun x => Some (of_tokens (f x))) <$> docs).
Proof.
  intros Hf. unfold series_apply.
  induction docs as [|x docs IH]; [done|].
  rewrite !fmap_cons. apply mapM_cons_Ok; [|exact IH].
  unfold on_tokens. rewrite as_tokens_of_tokens. by rewrite Hf.
Qed.

Lemma apply_tokenize `{Externals} d column docs col :
  documents d column = Some docs -> getitem d column = Ok col ->
  series_apply tokenize col
  = Ok ((fun x => Some (of_tokens (word_tokenize x))) <$> docs).
Proof.
  unfold documents, getitem, series_apply. case_decide; [|done].
  intros Hdocs%mapM_Some_1 [= <-].
  induction Hdocs as [|r x rs docs Hr _ IH]; [done|].
  rewrite !fmap_cons. apply mapM_cons_Ok; [|exact IH].
  destruct (r !! column) as [[| | |y|]|]; try done. by injection Hr as ->.
Qed.

Lemma wp_token_step (f g : string -> list string) (h : list string -> list string)
    docs data (b : bool) w :
  (forall x, f x = if b then h (g x) else g x) ->
  tokens_are g docs data w ->
  wp (when b
        (col ← getcol data "tokens";
         tokens ← lift (series_apply (on_tokens h) col);
         setcol data "tokens" tokens))
     (fun _ w' => tokens_are f docs data w') w.
Proof.
  intros Hf (d & Hd & Hlen & Hcol). destruct b; simpl.
  - apply wp_bind. eapply wp_getcol; [done|done|].
    apply wp_bind. eapply wp_lift; [by apply (apply_on_tokens f g h)|].
    eapply wp_setcol; [done|].
    eexists. split; [apply lookup_set_frame|].
    split; [by rewrite set_column_rows|].
    apply set_column_getitem. by rewrite length_fmap.
  - apply wp_ret. exists d. repeat split; [done|done|].
    rewrite Hcol. f_equal. apply list_fmap_ext. intros _ x _. by rewrite Hf.
Qed.

Lemma wp_tokenize_documents `{Externals} w data d column docs rp rs lc :
  frames w !! data = Some d -> column ∈ col_names d ->
  documents d column = Some docs ->
  wp (tokenize_documents data column rp rs lc)
     (fun _ w' => tokens_are (kept_tokens rp rs lc) docs data w') w.
Proof.
  intros Hd Hc Hdocs. unfold tokenize_documents.
  assert (Hlen : length (rows d) = length docs)
    by (eapply length_mapM, Hdocs).
  destruct (getitem d column) as [col|] eqn:Hcol;
    [|unfold getitem in Hcol; by rewrite decide_True in Hcol].
  apply wp_bind. eapply wp_getcol; [done|done|].
  apply wp_bind. eapply wp_lift; [by eapply apply_tokenize|].
  apply wp_bind. eapply wp_setcol; [done|].
  apply wp_bind.
  eapply wp_mono;
    [apply (wp_token_step (fun x => if lc then lower_all (word_tokenize x)
                                    else word_tokenize x)
              word_tokenize lower_all docs data lc); [done|]|].
  { eexists. split; [apply lookup_set_frame|].
    split; [by rewrite set_column_rows|].
    apply set_column_getitem. by rewrite length_fmap. }
  intros [] w1 H1. cbv beta. apply wp_bind.
  eapply wp_mono;
    [apply (wp_token_step
              (fun x => let ws := if lc then lower_all (word_tokenize x)
                                  else word_tokenize x in
                        if rs then drop_stop ws else ws)
              (fun x => if lc then lower_all (word_tokenize x)
                        else word_tokenize x)
              drop_stop docs data rs); [done|exact H1]|].
  intros [] w2 H2. cbv beta.
  eapply wp_mono;
    [apply (wp_token_step (kept_tokens rp rs lc)
              (fun x => let ws := if lc then lower_all (word_tokenize x)
                                  else word_tokenize x in
                        if rs then drop_stop ws else ws)
              drop_punct docs data rp); [|exact H2]|].
  - intros x. unfold kept_tokens. cbv zeta. by destruct rp.
  - by intros [] w3 H3.
Qed.

(** *** The removal in the code and in the specification *)

Lemma existsb_eqb_elem_of (a : string) (stop : list string) :
  existsb (String.eqb a) stop = bool_decide (a ∈ stop).
Proof.
  induction stop as [|b stop IH]; [done|]. simpl. rewrite IH.
  destruct (String.eqb_spec a b) as [->|Hne]; simpl.
  - symmetry. apply bool_decide_eq_true. apply list_elem_of_here.
  - apply bool_decide_ext. rewrite elem_of_cons. tauto.
Qed.

Lemma drop_stop_spec `{Externals} ws :
  drop_stop ws = spec_without_stop_words stop_words ws.
Proof.
  unfold drop_stop. induction ws as [|w ws IH]; [done|].
  cbn [List.filter spec_without_stop_words].
  rewrite existsb_eqb_elem_of, IH.
  by destruct (bool_decide (lower w ∈ stop_words)).
Qed.

Lemma kept_tokens_spec `{Externals} rp lc x :
  kept_tokens rp true lc x = spec_tokens_left rp lc x.
Proof.
  unfold kept_tokens, spec_tokens_left. cbv zeta.
  by rewrite drop_stop_spec.
Qed.

Lemma spec_without_stop_words_elem (stop ws : list string) t :
  t ∈ spec_without_stop_words stop ws <-> t ∈ ws /\ lower t ∉ stop.
Proof.
  induction ws as [|w ws IH]; simpl.
  - rewrite elem_of_nil. tauto.
  - rewrite existsb_eqb_elem_of.
    destruct (bool_decide_reflect (lower w ∈ stop)) as [Hw|Hw].
    + rewrite IH, elem_of_cons. split; [tauto|].
      intros [[->|Ht] Hn]; [done|tauto].
    + rewrite !elem_of_cons, IH. split; [|tauto].
      intros [->|[Ht Hn]]; tauto.
Qed.

Lemma spec_tokens_left_elem `{Externals} rp lc x t :
  (t ∈ spec_tokens_left rp lc x)
  <-> (t ∈ (if lc then List.map lower (word_tokenize x) else word_tokenize x)) /\
      (lower t ∉ stop_words) /\
      (rp = true -> isalnum t = true).
Proof.
  unfold spec_tokens_left. cbv zeta. destruct rp.
  - rewrite list_elem_of_In, filter_In, <- list_elem_of_In.
    rewrite spec_without_stop_words_elem. tauto.
  - rewrite spec_without_stop_words_elem. split; [|tauto].
    intros [Ht Hn]. by repeat split.
Qed.

(** C10: with [remove_stop], lines 544 to 553 return and leave in the
    column "tokens", for every document, the tokens that the
    specification leaves of it ([spec_tokens_left]): a token stays exactly
    when its lower-case form is not a stop word (and, with [remove_punct],
    it is alphanumeric), in the order of the document.  So no token left
    has its lower-case form among the stop words, every other token is
    left, and without [lower_case] a stop word is removed in whatever case
    it is written. *)
Theorem stop_words_removed_in_any_case `{Externals} w data d column docs
    remove_punct lower_case :
  frames w !! data = Some d -> column ∈ col_names d ->
  documents d column = Some docs ->
  exists w' d',
    tokenize_documents data column remove_punct true lower_case w = (Ok tt, w') /\
    frames w' !! data = Some d' /\
    getitem d' "tokens"
    = Ok ((fun x => Some (of_tokens (spec_tokens_left remove_punct lower_case x)))
          <$> docs) /\
    (forall x t,
       (t ∈ spec_tokens_left remove_punct lower_case x)
       <-> (t ∈ (if lower_case then List.map lower (word_tokenize x)
                 else word_tokenize x)) /\
           (lower t ∉ stop_words) /\
           (remove_punct = true -> isalnum t = true)) /\
    (forall x t, t ∈ word_tokenize x -> lower t ∈ stop_words ->
                 t ∉ spec_tokens_left remove_punct false x).
Proof.
  intros Hd Hc Hdocs.
  destruct (wp_elim _ _ _ (wp_tokenize_documents _ _ _ _ _ remove_punct true
                             lower_case Hd Hc Hdocs))
    as ([] & w' & Hrun & d' & Hd' & _ & Htok).
  exists w', d'. split; [done|]. split; [done|]. split.
  - rewrite Htok. f_equal. apply list_fmap_ext. intros _ x _.
    by rewrite kept_tokens_spec.
  - split.
    + intros x t. apply spec_tokens_left_elem.
    + intros x t _ Hstop Hin. apply spec_tokens_left_elem in Hin. tauto.
Qed.

(** [stop_words_removed_in_any_case] at two documents, without
    [lower_case]. *)
Lemma stop_words_removed_in_any_case_witness :
  exists w' d',
    tokenize_documents (H := sample_externals) 0 "t" false true false
      (world_of sample_texts) = (Ok tt, w') /\
    frames w' !! 0%nat = Some d' /\
    getitem d' "tokens"
    = Ok ((fun x => Some (of_tokens
                            (spec_tokens_left (H := sample_externals) false false x)))
          <$> ["The cat is here"; "a Dog"]) /\
    (forall x t,
       (t ∈ spec_tokens_left (H := sample_externals) false false x)
       <-> (t ∈ word_tokenize (Externals := sample_externals) x) /\
           (lower t ∉ stop_words (Externals := sample_externals)) /\
           (false = true -> isalnum t = true)) /\
    (forall x t, t ∈ word_tokenize (Externals := sample_externals) x ->
                 lower t ∈ stop_words (Externals := sample_externals) ->
                 t ∉ spec_tokens_left (H := sample_externals) false false x).
Proof.
  apply (stop_words_removed_in_any_case (H := sample_externals)
           (world_of sample_texts) 0%nat sample_texts "t").
  - reflexivity.
  - apply list_elem_of_here.
  - reflexivity.
Defined.

(** ** What the orchestrators return (C1) *)

(** *** The shape of a returned value *)

Lemma keeps_discrete_pair `{Externals} s0 r c cp fa i :
  keeps s0 (discrete_univariate_summary r c cp fa i)
    (fun v => exists t f, v = RPair t f).
Proof. unfold discrete_univariate_summary. keeps_all. apply keeps_ret. eauto. Qed.

Lemma keeps_continuous_pair `{Externals} s0 r c cp lo up i :
  keeps s0 (continuous_univariate_summary r c cp lo up i)
    (fun v => exists t f, v = RPair t f).
Proof. unfold continuous_univariate_summary. keeps_all. apply keeps_ret. eauto. Qed.

Lemma keeps_datetime_pair `{Externals} s0 r c cp du lo up i :
  keeps s0 (datetime_univariate_summary r c cp du lo up i)
    (fun v => exists t f, v = RPair t f).
Proof. unfold datetime_univariate_summary. keeps_all. apply keeps_ret. eauto. Qed.

Lemma keeps_text_figure `{Externals} s0 r c cp ng rp rs lc i :
  keeps s0 (text_univariate_summary r c cp ng rp rs lc i)
    (fun v => exists f, v = RFigure f).
Proof. unfold text_univariate_summary. keeps_all. apply keeps_ret. eauto. Qed.

Lemma keeps_list_none `{Externals} s0 r c top :
  keeps s0 (list_univariate_eda r c top) (fun v => v = RNone).
Proof. unfold list_univariate_eda. keeps_all. Qed.

(** *** Steps that track one frame *)

Lemma neutral_ret {A} (a : A) : neutral (mret a).
Proof. intros w. by exists a, w. Qed.

Lemma neutral_bind {A B} (m : M A) (k : A -> M B) :
  neutral m -> (forall a, neutral (k a)) -> neutral (m ≫= k).
Proof.
  intros Hm Hk w. destruct (Hm w) as (a & w1 & Hrun & Hf).
  destruct (Hk a w1) as (b & w2 & Hrun2 & Hf2).
  exists b, w2. unfold mbind, M_bind. rewrite Hrun, Hrun2. by rewrite Hf2.
Qed.

Lemma neutral_set_palette p : neutral (set_palette p).
Proof. intros w. by eexists _, _. Qed.

Lemma neutral_new_figure : neutral new_figure.
Proof. intros w. by eexists _, _. Qed.

Lemma neutral_show s : neutral (show s).
Proof. intros w. by eexists _, _. Qed.

Lemma neutral_when b m : neutral m -> neutral (when b m).
Proof. destruct b; [done|]. intros _. apply neutral_ret. Qed.

Lemma neutral_palette cp :
  neutral (if negb (bool_decide (cp = Some ""))
           then set_palette cp else set_palette (Some "tab10")).
Proof. destruct (negb _); apply neutral_set_palette. Qed.

Lemma wp_neutral {A} (m : M A) (Q : A -> world -> Prop) w :
  neutral m -> (forall a w', frames w' = frames w -> Q a w') -> wp m Q w.
Proof.
  intros Hm HQ. destruct (Hm w) as (a & w' & Hrun & Hf).
  unfold wp. rewrite Hrun. by apply HQ.
Qed.

Lemma wp_copy r d (Q : nat -> world -> Prop) w :
  frames w !! r = Some d ->
  (forall data w', frames w' !! data = Some d -> Q data w') ->
  wp (copy r) Q w.
Proof.
  intros Hr HQ. unfold copy. apply wp_bind, (wp_deref _ d); [done|].
  apply wp_alloc, HQ, lookup_allocated.
Qed.

Lemma wp_alloc_at d data d0 (Q : nat -> world -> Prop) w :
  frames w !! data = Some d0 ->
  (forall r w', frames w' !! data = Some d0 -> frames w' !! r = Some d ->
                Q r w') ->
  wp (alloc d) Q w.
Proof.
  intros Hd HQ. apply wp_alloc, HQ; [by apply lookup_allocated_old|].
  apply lookup_allocated.
Qed.

Lemma wp_setcol_at data n cells d (Q : unit -> world -> Prop) w :
  frames w !! data = Some d ->
  (forall w', frames w' !! data = Some (set_column n cells d) -> Q tt w') ->
  wp (setcol data n cells) Q w.
Proof. intros Hd HQ. eapply wp_setcol; [done|]. apply HQ, lookup_set_frame. Qed.

Lemma wp_plot_at `{Externals} p data c d (Q : unit -> world -> Prop) w :
  charts_leave_frames -> frames w !! data = Some d ->
  (forall w', frames w' !! data = Some d -> Q tt w') ->
  wp (plot p data c) Q w.
Proof.
  intros Hch Hd HQ. unfold plot. apply wp_bind, (wp_deref _ d); [done|].
  apply wp_bind, (wp_lift _ d); [apply Hch|].
  apply wp_store, HQ, lookup_set_frame.
Qed.

Lemma wp_trim_at data c lo up d (Q : nat -> world -> Prop) w :
  frames w !! data = Some d -> c ∈ col_names d ->
  (forall data' w', frames w' !! data' = Some (trim_frame c lo up d) ->
                    Q data' w') ->
  wp (trim_values data c lo up) Q w.
Proof.
  intros Hd Hc HQ. unfold wp. rewrite (trim_values_run _ _ _ _ _ _ Hd Hc).
  apply HQ, lookup_allocated.
Qed.

Lemma wp_compute_at `{Externals} data c dt lo up d t (Q : Table -> world -> Prop) w :
  frames w !! data = Some d -> c ∈ col_names d ->
  summary_table (trim_frame c lo up d) c dt = Ok t ->
  (forall w', frames w ⊆ frames w' -> Q t w') ->
  wp (compute_univariate_summary_table data c dt lo up) Q w.
Proof.
  intros Hd Hc Ht HQ. unfold wp. rewrite (compute_run _ _ _ _ _ _ _ Hd Hc), Ht.
  apply HQ. apply insert_subseteq, not_elem_of_dom, is_fresh.
Qed.

(** *** Tables that are returned *)

Lemma hashable_column_trim d column lo up :
  hashable_column d column -> hashable_column (trim_frame column lo up d) column.
Proof.
  intros [Hc Hall]. split; [done|]. simpl.
  rewrite Forall_forall in Hall |- *.
  intros row Hrow. eapply Hall, trim_rows_elem_of, Hrow.
Qed.

Lemma hashable_column_nunique d column :
  hashable_column d column ->
  exists col u, getitem d column = Ok col /\ nunique col = Ok u.
Proof.
  intros [Hc Hall]. unfold getitem. rewrite decide_True by done.
  eexists _, _. split; [done|]. unfold nunique.
  replace (forallb hashable _) with true; [done|].
  symmetry. apply forallb_forall. intros v Hv%list_elem_of_In.
  unfold observed in Hv. apply list_elem_of_omap in Hv as (c & Hc' & Hcv).
  apply list_elem_of_fmap in Hc' as (row & -> & Hrow).
  rewrite Forall_forall in Hall. specialize (Hall row Hrow).
  simpl in Hcv. by rewrite Hcv in Hall.
Qed.

Lemma summary_table_discrete_returns `{Externals} d column :
  hashable_column d column -> exists t, summary_table d column "discrete" = Ok t.
Proof.
  intros (col & u & Hcol & Hu)%hashable_column_nunique.
  unfold summary_table. rewrite Hcol. simpl. rewrite Hu. simpl. eauto.
Qed.

Lemma kind_column_hashable k d column :
  kind_column k d column -> hashable_column d column.
Proof.
  intros [Hc Hall]. split; [done|].
  eapply Forall_impl; [exact Hall|]. intros row Hrow. simpl in Hrow.
  destruct (row !! column); [|done]. by eapply as_kind_hashable.
Qed.

Lemma summary_table_continuous_returns `{Externals} d column :
  kind_column NKNum d column -> exists t, summary_table d column "continuous" = Ok t.
Proof.
  intros Hk. destruct (kind_column_getitem _ _ _ Hk) as (col & Hcol & Hall).
  destruct (kind_numeric_values _ _ Hall) as (k' & xs & Hxs & _ & Hk1 & Hk2).
  assert (k' = NKNum) as -> by (destruct xs; [by apply Hk2 | by apply Hk1]).
  unfold summary_table, describe, quantile, reduce.
  rewrite Hcol; simpl. rewrite (kind_nunique _ _ Hall); simpl.
  rewrite Hxs; simpl.
  destruct (cell_sub_kind NKNum (interpolate (merge_sort Qle xs) (3 # 4))
              (interpolate (merge_sort Qle xs) (1 # 4))) as [c Hc].
  simpl in Hc. rewrite Hc. simpl. eauto.
Qed.

(** *** The discrete and the continuous orchestrator return a pair *)

Lemma wp_discrete `{Externals} w r d column cp fa i :
  charts_leave_frames -> frames w !! r = Some d -> hashable_column d column ->
  wp (discrete_univariate_summary r column cp fa i)
     (fun v _ => exists t f, v = RPair t f) w.
Proof.
  intros Hch Hr Hh. unfold discrete_univariate_summary.
  destruct (hashable_column_nunique _ _ Hh) as (col & u & Hcol & Hu).
  destruct (summary_table_discrete_returns _ _ (hashable_column_trim _ _ 0 0 Hh))
    as [t Ht].
  apply wp_bind, (wp_copy _ d); [done|]. intros data w1 H1.
  apply wp_bind.
  apply (wp_mono _ (fun _ w' => w' = w1)).
  { destruct fa; [by apply wp_ret|].
    apply wp_bind. eapply wp_getcol; [done|done|].
    apply wp_bind. eapply wp_lift; [done|]. by apply wp_ret. }
  intros flip ? ->.
  apply wp_bind, wp_neutral; [apply neutral_palette|].
  intros [] w2 H2. rewrite <- H2 in H1.
  apply wp_bind. eapply wp_compute_at; [done|apply Hh|done|].
  intros w3 H3. eapply lookup_weaken in H1; [|exact H3].
  apply wp_bind, wp_neutral; [apply neutral_new_figure|].
  intros fig w4 H4. rewrite <- H4 in H1.
  apply wp_bind. eapply wp_plot_at; [done|done|]. intros w5 H5.
  apply wp_bind, wp_neutral.
  { apply neutral_when, neutral_bind; [apply neutral_show|].
    intros _. apply neutral_show. }
  intros [] w6 _. apply wp_ret. eauto.
Qed.

Lemma wp_continuous `{Externals} w r d column cp lo up i :
  charts_leave_frames -> frames w !! r = Some d -> kind_column NKNum d column ->
  wp (continuous_univariate_summary r column cp lo up i)
     (fun v _ => exists t f, v = RPair t f) w.
Proof.
  intros Hch Hr Hk. unfold continuous_univariate_summary.
  destruct (summary_table_continuous_returns _ _ (kind_column_trim _ _ _ lo up Hk))
    as [t Ht].
  apply wp_bind, (wp_copy _ d); [done|]. intros data w1 H1.
  apply wp_bind, wp_neutral; [apply neutral_palette|].
  intros [] w2 H2. rewrite <- H2 in H1.
  apply wp_bind. eapply wp_compute_at; [done|apply Hk|done|].
  intros w3 H3. eapply lookup_weaken in H1; [|exact H3].
  apply wp_bind, wp_neutral; [apply neutral_new_figure|].
  intros fig w4 H4. rewrite <- H4 in H1.
  apply wp_bind. eapply wp_plot_at; [done|done|]. intros w5 H5.
  apply wp_bind. eapply wp_plot_at; [done|done|]. intros w6 H6.
  apply wp_bind, wp_neutral.
  { apply neutral_when, neutral_bind; [apply neutral_show|].
    intros _. apply neutral_show. }
  intros [] w7 _. apply wp_ret. eauto.
Qed.

(** *** The datetime orchestrator returns a pair *)

Lemma getitem_has d c :
  c ∈ col_names d ->
  getitem d c = Ok ((fun r : gmap string value => r !! c) <$> rows d).
Proof. intros Hc. unfold getitem. by rewrite decide_True. Qed.

Lemma kind_column_set_other k d column name cells :
  name <> column -> kind_column k d column ->
  kind_column k (set_column name cells d) column.
Proof.
  intros Hne [Hc Hall]. split; [by apply set_column_keeps|]. simpl.
  generalize (cells ++ replicate (length (rows d) - length cells) None).
  induction Hall as [|row rs Hrow _ IH]; intros [|c cs]; simpl; try constructor.
  - by rewrite set_cell_lookup_ne.
  - apply IH.
Qed.

Lemma kind_column_set_same k d name cells :
  Forall (cell_kind k) cells -> kind_column k (set_column name cells d) name.
Proof.
  intros Hall. split; [apply set_column_has|]. simpl.
  assert (Hpad : Forall (cell_kind k)
            (cells ++ replicate (length (rows d) - length cells) None)).
  { apply Forall_app. split; [done|]. by apply Forall_replicate. }
  revert Hpad. generalize (cells ++ replicate (length (rows d) - length cells) None).
  intros cs Hcs. revert cs Hcs.
  induction (rows d) as [|row rs IH]; intros [|c cs] Hcs; simpl; try constructor.
  - rewrite set_cell_lookup. by apply Forall_cons in Hcs as [? _].
  - apply IH. by apply Forall_cons in Hcs as [_ ?].
Qed.

Lemma kind_column_iloc k d column n :
  kind_column k d column -> kind_column k (iloc_from n d) column.
Proof.
  intros [Hc Hall]. split; [done|]. simpl.
  rewrite Forall_forall in Hall |- *. intros row Hrow.
  eapply Hall, subseteq_drop, Hrow.
Qed.

Lemma dt_apply_returns (f : Z -> value) col :
  Forall (cell_kind NKTime) col -> exists out, dt_apply f col = Ok out.
Proof.
  unfold dt_apply. induction 1 as [|c col Hc _ [out IH]]; [by exists []|].
  destruct c as [v|].
  - destruct Hc as [q Hq]. apply as_kind_number in Hq.
    destruct v; try done. eexists. by apply mapM_cons_Ok.
  - eexists. by apply mapM_cons_Ok.
Qed.

(** A calendar field of the timestamps becomes a column. *)
Lemma wp_dt_step {B} data column name f d (k : unit -> M B) Q w :
  frames w !! data = Some d -> kind_column NKTime d column ->
  (forall out w', frames w' !! data = Some (set_column name out d) ->
                  wp (k tt) Q w') ->
  wp (getcol data column ≫= fun col =>
      lift (dt_apply f col) ≫= fun out =>
      setcol data name out ≫= k) Q w.
Proof.
  intros Hd Hk HQ.
  destruct (kind_column_getitem _ _ _ Hk) as (col & Hcol & Hall).
  destruct (dt_apply_returns f col Hall) as [out Hout].
  apply wp_bind. eapply wp_getcol; [done|done|].
  apply wp_bind. eapply wp_lift; [done|].
  apply wp_bind. eapply wp_setcol_at; [done|]. apply HQ.
Qed.

(** A column is made categorical and charted. *)
Lemma wp_categorical_step `{Externals} {B} data name cats d (k : unit -> M B) Q w :
  charts_leave_frames ->
  frames w !! data = Some d -> name ∈ col_names d ->
  (forall cells w', frames w' !! data = Some (set_column name cells d) ->
                    wp (k tt) Q w') ->
  wp (getcol data name ≫= fun col =>
      setcol data name (categorical cats col) ≫= fun _ =>
      plot "countplot" data name ≫= k) Q w.
Proof.
  intros Hch Hd Hc HQ.
  apply wp_bind. eapply wp_getcol; [done|by apply getitem_has|].
  apply wp_bind. eapply wp_setcol_at; [done|]. intros w1 H1.
  apply wp_bind. eapply wp_plot_at; [done|done|]. apply HQ.
Qed.

Ltac has_column :=
  first [ assumption
        | apply set_column_has
        | apply set_column_keeps; has_column ].

Ltac other_column H :=
  let E := fresh in
  intros E; apply H; rewrite <- E; unfold derived_columns;
  repeat first [ apply list_elem_of_here | apply list_elem_of_further ].

Lemma wp_datetime `{Externals} w r d column cp du lo up i :
  charts_leave_frames -> deltas_are_numbers ->
  frames w !! r = Some d -> kind_column NKTime d column ->
  column ∉ derived_columns ->
  wp (datetime_univariate_summary r column cp du lo up i)
     (fun v _ => exists t f, v = RPair t f) w.
Proof.
  intros Hch Hdl Hr Hk Hfresh. unfold datetime_univariate_summary.
  apply wp_bind, (wp_copy _ d); [done|]. intros data0 w0 H0.
  apply wp_bind. eapply wp_trim_at; [done|apply Hk|]. intros data w1 H1.
  apply (kind_column_trim _ _ _ lo up) in Hk.
  set (d0 := trim_frame column lo up d) in *. clearbody d0. clear H0 data0 w0 Hr.
  apply wp_bind, wp_neutral; [apply neutral_palette|].
  intros [] w2 H2. rewrite <- H2 in H1. clear H2.
  eapply wp_dt_step; [done|done|]. intros month w3 H3.
  apply (kind_column_set_other _ _ _ "Month" month) in Hk; [|other_column Hfresh].
  eapply wp_dt_step; [done|done|]. intros day w4 H4.
  apply (kind_column_set_other _ _ _ "Day of Month" day) in Hk;
    [|other_column Hfresh].
  eapply wp_dt_step; [done|done|]. intros year w5 H5.
  apply (kind_column_set_other _ _ _ "Year" year) in Hk; [|other_column Hfresh].
  eapply wp_dt_step; [done|done|]. intros hour w6 H6.
  apply (kind_column_set_other _ _ _ "Hour" hour) in Hk; [|other_column Hfresh].
  eapply wp_dt_step; [done|done|]. intros weekday w7 H7.
  apply (kind_column_set_other _ _ _ "Day of Week" weekday) in Hk;
    [|other_column Hfresh].
  (* time deltas *)
  destruct (kind_column_getitem _ _ _ Hk) as (col & Hcol & Hall).
  destruct (Hdl col du) as (deltas & units & Hdeltas & Hnum).
  apply wp_bind. eapply wp_getcol; [done|done|].
  apply wp_bind. eapply wp_lift; [done|]. cbv beta iota.
  apply wp_bind. eapply wp_setcol_at; [done|]. intros w8 H8.
  apply (kind_column_set_other _ _ _ "deltas" deltas) in Hk; [|other_column Hfresh].
  set (d6 := set_column "deltas" deltas _) in *.
  assert (Hkd : kind_column NKNum d6 "deltas") by (by apply kind_column_set_same).
  (* summary tables *)
  destruct (summary_table_datetime_returns _ _ _ (kind_column_trim _ _ _ 0 0 Hk))
    as [t Ht].
  apply wp_bind. eapply wp_compute_at; [done|apply Hk|done|].
  intros w9 H9. eapply lookup_weaken in H8; [|exact H9].
  apply wp_bind, (wp_deref _ d6); [done|].
  apply wp_bind. eapply wp_alloc_at; [done|]. intros tail w10 H10 Htail.
  destruct (summary_table_continuous_returns _ _
              (kind_column_trim _ _ _ 0 0 (kind_column_iloc _ _ _ 1 Hkd)))
    as [t' Ht'].
  apply wp_bind. eapply wp_compute_at; [done|apply Hkd|done|].
  intros w11 H11. eapply lookup_weaken in H10; [|exact H11]. cbv zeta.
  apply wp_bind, wp_neutral; [apply neutral_when, neutral_show|].
  intros [] w12 H12. rewrite <- H12 in H10.
  apply wp_bind, wp_neutral; [apply neutral_new_figure|].
  intros fig w13 H13. rewrite <- H13 in H10.
  (* charts *)
  apply wp_bind. eapply wp_plot_at; [done|done|]. intros w14 H14.
  apply wp_bind. eapply wp_plot_at; [done|done|]. intros w15 H15.
  apply wp_bind. eapply wp_plot_at; [done|done|]. intros w16 H16.
  eapply wp_categorical_step; [done|done|subst d6; has_column|].
  intros c1 w17 H17.
  eapply wp_categorical_step; [done|done|subst d6; has_column|].
  intros c2 w18 H18.
  eapply wp_categorical_step; [done|done|subst d6; has_column|].
  intros c3 w19 H19.
  eapply wp_categorical_step; [done|done|subst d6; has_column|].
  intros c4 w20 H20.
  apply wp_bind, wp_neutral; [apply neutral_when, neutral_show|].
  intros [] w21 _. apply wp_ret. eauto.
Qed.

(** C1, as stated, fails for two of the five orchestrators:
    [text_univariate_summary] returns its figure alone and
    [list_univariate_eda] returns nothing. *)
Lemma text_and_list_return_no_pair :
  fst (text_univariate_summary (H := sample_externals)
         0 "t" None false true true true false (world_of sample_texts))
  = Ok (RFigure 0) /\
  fst (list_univariate_eda (H := sample_externals)
         0 "l" 10 (world_of (frame_of_cells "l" tuple_column)))
  = Ok RNone /\
  (forall t f, RFigure 0 <> RPair t f) /\ (forall t f, RNone <> RPair t f).
Proof. repeat split; try (vm_compute; reflexivity); discriminate. Qed.

(** C1, amended: [discrete_univariate_summary],
    [continuous_univariate_summary] and [datetime_univariate_summary]
    return a pair of a table and a figure, and nothing else: on a column
    of hashable values, of numbers and of timestamps respectively, when
    the chart producers return, the call returns such a pair.
    [list_univariate_eda] returns nothing. *)
Theorem three_orchestrators_return_a_pair `{Externals} w r d column :
  charts_leave_frames -> frames w !! r = Some d ->
  (forall cp fa i,
     (forall v, fst (discrete_univariate_summary r column cp fa i w) = Ok v ->
                exists t f, v = RPair t f) /\
     (hashable_column d column ->
      exists t f w',
        discrete_univariate_summary r column cp fa i w = (Ok (RPair t f), w'))) /\
  (forall cp lo up i,
     (forall v, fst (continuous_univariate_summary r column cp lo up i w) = Ok v ->
                exists t f, v = RPair t f) /\
     (kind_column NKNum d column ->
      exists t f w',
        continuous_univariate_summary r column cp lo up i w
        = (Ok (RPair t f), w'))) /\
  (forall cp du lo up i,
     (forall v, fst (datetime_univariate_summary r column cp du lo up i w) = Ok v ->
                exists t f, v = RPair t f) /\
     (kind_column NKTime d column -> column ∉ derived_columns ->
      deltas_are_numbers ->
      exists t f w',
        datetime_univariate_summary r column cp du lo up i w
        = (Ok (RPair t f), w'))) /\
  (forall top v, fst (list_univariate_eda r column top w) = Ok v -> v = RNone).
Proof.
  intros Hch Hr.
  assert (Hret : forall (m : M retval),
            wp m (fun v _ => exists t f, v = RPair t f) w ->
            exists t f w', m w = (Ok (RPair t f), w')).
  { intros m (v & w' & Hrun & t & f & ->)%wp_elim. eauto. }
  assert (Hshape : forall (m : M retval) (P : retval -> Prop),
            keeps ∅ m P -> forall v, fst (m w) = Ok v -> P v).
  { intros m P Hm. apply Hm, map_empty_subseteq. }
  split; [|split; [|split]].
  - intros cp fa i. split; [apply Hshape, keeps_discrete_pair|].
    intros Hh. by apply Hret, (wp_discrete _ _ d).
  - intros cp lo up i. split; [apply Hshape, keeps_continuous_pair|].
    intros Hk. by apply Hret, (wp_continuous _ _ d).
  - intros cp du lo up i. split; [apply Hshape, keeps_datetime_pair|].
    intros Hk Hc Hdl. by apply Hret, (wp_datetime _ _ d).
  - intros top. apply Hshape, keeps_list_none.
Qed.

Lemma sample_charts_leave_frames : charts_leave_frames (H := sample_externals).
Proof. intros p c d. reflexivity. Qed.

Lemma sample_deltas_are_numbers : deltas_are_numbers (H := sample_externals).
Proof.
  intros s units. eexists _, _. split; [reflexivity|].
  apply Forall_fmap, Forall_true. intros c. simpl. by eexists.
Qed.

(** [three_orchestrators_return_a_pair] at a column of timestamps. *)
Lemma three_orchestrators_return_a_pair_witness :
  (forall cp fa i,
     (forall v, fst (discrete_univariate_summary (H := sample_externals)
                       0 "d" cp fa i (world_of sample_times)) = Ok v ->
                exists t f, v = RPair t f) /\
     (hashable_column sample_times "d" ->
      exists t f w',
        discrete_univariate_summary (H := sample_externals)
          0 "d" cp fa i (world_of sample_times) = (Ok (RPair t f), w'))) /\
  (forall cp lo up i,
     (forall v, fst (continuous_univariate_summary (H := sample_externals)
                       0 "d" cp lo up i (world_of sample_times)) = Ok v ->
                exists t f, v = RPair t f) /\
     (kind_column NKNum sample_times "d" ->
      exists t f w',
        continuous_univariate_summary (H := sample_externals)
          0 "d" cp lo up i (world_of sample_times) = (Ok (RPair t f), w'))) /\
  (forall cp du lo up i,
     (forall v, fst (datetime_univariate_summary (H := sample_externals)
                       0 "d" cp du lo up i (world_of sample_times)) = Ok v ->
                exists t f, v = RPair t f) /\
     (kind_column NKTime sample_times "d" -> "d" ∉ derived_columns ->
      deltas_are_numbers (H := sample_externals) ->
      exists t f w',
        datetime_univariate_summary (H := sample_externals)
          0 "d" cp du lo up i (world_of sample_times) = (Ok (RPair t f), w'))) /\
  (forall top v,
     fst (list_univariate_eda (H := sample_externals)
            0 "d" top (world_of sample_times)) = Ok v -> v = RNone).
Proof.
  apply (three_orchestrators_return_a_pair (H := sample_externals)
           (world_of sample_times) 0%nat sample_times "d").
  - exact sample_charts_leave_frames.
  - reflexivity.
Defined.

(** The three orchestrators at work on sample columns. *)
Example discrete_sample_returns :
  exists t f,
    fst (discrete_univariate_summary (H := sample_externals)
           0 "x" None None true (world_of (frame_of_cells "x" example_column)))
    = Ok (RPair t f).
Proof. eexists _, _. vm_compute. reflexivity. Qed.

Example continuous_sample_returns :
  exists t f,
    fst (continuous_univariate_summary (H := sample_externals)
           0 "x" None 1 1 false (world_of (frame_of_cells "x" example_column)))
    = Ok (RPair t f).
Proof. eexists _, _. vm_compute. reflexivity. Qed.

Example datetime_sample_returns :
  exists t f,
    fst (datetime_univariate_summary (H := sample_externals)
           0 "d" None "auto" 0 0 false (world_of sample_times))
    = Ok (RPair t f).
Proof. eexists _, _. vm_compute. reflexivity. Qed.

(** Without [lower_case], "The" still goes as the stop word "the". *)
Example the_is_dropped :
  kept_tokens (H := sample_externals) false true false "The cat is here"
  = ["cat"; "here"].
Proof. vm_compute. reflexivity. Qed.

(** * Further properties *)

(** ** The layout of a summary table *)

Lemma mapM_Ok_inv {A B} (f : A -> result B) l k :
  mapM f l = Ok k -> Forall2 (fun x y => f x = Ok y) l k.
Proof.
  revert k. induction l as [|x l IH]; intros k Hk.
  - injection Hk as <-. constructor.
  - change (mapM f (x :: l))
      with (f x ≫= fun y => mapM f l ≫= fun k => mret (y :: k)) in Hk.
    destruct (f x) as [y|] eqn:Ey; [|discriminate]. simpl in Hk.
    destruct (mapM f l) as [k'|] eqn:Ek; [|discriminate]. simpl in Hk.
    injection Hk as <-. constructor; auto.
Qed.

Lemma select_columns_spec t names t' :
  select_columns t names = Ok t' ->
  t_index t' = t_index t /\
  Forall2 (fun n (c : string * list cell) =>
             fst c = n /\ alist_get n (t_columns t) = Some (snd c))
          names (t_columns t').
Proof.
  unfold select_columns. intros Hs.
  destruct (mapM _ names) as [cols|] eqn:Em; [|discriminate].
  simpl in Hs. injection Hs as <-. split; [done|]. simpl.
  apply mapM_Ok_inv in Em. eapply Forall2_impl; [exact Em|].
  intros n c Hc. simpl in Hc.
  destruct (alist_get n (t_columns t)); [|discriminate].
  by injection Hc as <-.
Qed.

Lemma alist_get_set_same {A} n (v : A) l : alist_get n (alist_set n v l) = Some v.
Proof.
  induction l as [|[k x] l IH]; simpl.
  - by rewrite String.eqb_refl.
  - destruct (String.eqb n k) eqn:E; simpl; rewrite ?String.eqb_refl, ?E; done.
Qed.

Lemma alist_get_set_other {A} n m (v : A) l :
  n <> m -> alist_get m (alist_set n v l) = alist_get m l.
Proof.
  intros Hne. induction l as [|[k x] l IH]; simpl.
  - apply String.eqb_neq in Hne. rewrite String.eqb_sym in Hne. by rewrite Hne.
  - destruct (String.eqb n k) eqn:E; simpl.
    + apply String.eqb_eq in E as <-.
      apply String.eqb_neq in Hne. rewrite String.eqb_sym in Hne. by rewrite Hne.
    + by rewrite IH.
Qed.

Lemma describe_spec `{Externals} name s t :
  describe name s = Ok t ->
  t_index t = [name] /\
  forall n cells, alist_get n (t_columns t) = Some cells -> length cells = 1%nat.
Proof.
  unfold describe. destruct (numeric_values s) as [[k xs]|]; [|discriminate].
  simpl. intros [= <-]. split; [done|]. intros n cells. simpl.
  destruct k; simpl;
    repeat (destruct (String.eqb n _); [by intros [= <-]|]); done.
Qed.

Lemma summary_table_one_row `{Externals} d column data_type t :
  summary_table d column data_type = Ok t -> one_row column t.
Proof.
  unfold summary_table. intros Ht.
  destruct (getitem d column) as [col|]; [|discriminate]. simpl in Ht.
  destruct (nunique col) as [u|]; [|discriminate]. simpl in Ht.
  destruct (String.eqb data_type "datetime").
  - repeat bind_inv Ht. injection Ht as <-. split; [done|].
    repeat constructor.
  - destruct (String.eqb data_type "continuous" || false).
    + destruct (describe column col) as [st|] eqn:Est; [|discriminate].
      simpl in Ht. repeat bind_inv Ht.
      match type of E2 with select_columns ?t0 _ = _ =>
        destruct (select_columns_spec _ _ _ E2) as [Hix Hcols] end.
      injection Ht as <-. split; [done|]. simpl.
      repeat (apply Forall_cons; split; [done|]).
      rewrite Forall_fmap.
      destruct (describe_spec _ _ _ Est) as [Hst Hlen].
      clear E2. induction Hcols as [|n [n' cells] ns cs [_ Hget] _ IH];
        constructor; [|done].
      simpl in Hget. assert (Hone : length cells = 1%nat).
      { destruct (String.eqb_spec "iqr" n) as [<-|Hne].
        - rewrite alist_get_set_same in Hget. injection Hget as <-.
          by rewrite Hst.
        - rewrite alist_get_set_other in Hget by done. by apply Hlen in Hget. }
      simpl. by destruct (String.eqb n' "50%").
    + injection Ht as <-. split; [done|]. repeat constructor.
Qed.

Lemma summary_table_continuous_columns `{Externals} d column t :
  summary_table d column "continuous" = Ok t ->
  fst <$> t_columns t = continuous_fields.
Proof.
  unfold summary_table. intros Ht. simpl in Ht.
  destruct (getitem d column) as [col|]; [|discriminate]. simpl in Ht.
  destruct (nunique col) as [u|]; [|discriminate]. simpl in Ht.
  destruct (describe column col) as [st|]; [|discriminate]. simpl in Ht.
  repeat bind_inv Ht.
  match type of E2 with select_columns ?t0 _ = _ =>
    destruct (select_columns_spec _ _ _ E2) as [_ Hcols] end.
  injection Ht as <-. simpl. unfold continuous_fields, count_fields. simpl.
  do 4 f_equal. clear E2.
  match goal with t' : Table |- _ => destruct t' as [ix cols] end.
  simpl in *.
  do 8 (destruct cols as [|[? ?] cols];
        [by inversion Hcols|];
        apply Forall2_cons in Hcols as [[Hn _] Hcols]; simpl in Hn; subst).
  apply Forall2_nil_inv_l in Hcols as ->. reflexivity.
Qed.

Lemma summary_table_other_columns `{Externals} d column data_type t :
  data_type <> "datetime" -> data_type <> "continuous" ->
  summary_table d column data_type = Ok t ->
  fst <$> t_columns t = count_fields.
Proof.
  intros H1%String.eqb_neq H2%String.eqb_neq. unfold summary_table. intros Ht.
  destruct (getitem d column) as [col|]; [|discriminate]. simpl in Ht.
  destruct (nunique col) as [u|]; [|discriminate]. simpl in Ht.
  rewrite H1, H2 in Ht. simpl in Ht. by injection Ht as <-.
Qed.

(** X1: the table that [compute_univariate_summary_table] returns has
    one row, labelled with the column: it is so for every data type and
    every trimming. *)
Theorem summary_has_one_row `{Externals} w r d column data_type lo up t :
  frames w !! r = Some d ->
  fst (compute_univariate_summary_table r column data_type lo up w) = Ok t ->
  one_row column t.
Proof.
  intros Hr Ht.
  destruct (compute_returns_inv _ _ _ _ _ _ _ _ Hr Ht) as [_ Hs].
  by eapply summary_table_one_row.
Qed.

(** [summary_has_one_row] at the column [1, 2, 3] with one value trimmed. *)
Lemma summary_has_one_row_witness : one_row "x" trimmed_summary.
Proof.
  apply (summary_has_one_row (H := sample_externals) (world_of three_rows)
           0%nat three_rows "x" "discrete" 1 0 trimmed_summary).
  - reflexivity.
  - vm_compute. reflexivity.
Defined.

(** X2: the fields of a returned table depend on the data type alone:
    for "continuous" they are the four counts and min, 25%, median, mean,
    75%, max, std, iqr, in this order (the 50% of [describe] under the name
    median); for any data type other than "continuous" and "datetime",
    known or not, they are the four counts. *)
Theorem summary_fields_by_data_type `{Externals} w r d column data_type lo up t :
  frames w !! r = Some d ->
  fst (compute_univariate_summary_table r column data_type lo up w) = Ok t ->
  (data_type = "continuous" -> fst <$> t_columns t = continuous_fields) /\
  (data_type <> "datetime" -> data_type <> "continuous" ->
   fst <$> t_columns t = count_fields).
Proof.
  intros Hr Ht.
  destruct (compute_returns_inv _ _ _ _ _ _ _ _ Hr Ht) as [_ Hs].
  split.
  - intros ->. by eapply summary_table_continuous_columns.
  - intros H1 H2. by eapply summary_table_other_columns.
Qed.

(** [summary_fields_by_data_type] at the column [1, 2, 3] with one value
    trimmed. *)
Lemma summary_fields_by_data_type_witness :
  ("discrete" = "continuous" ->
   fst <$> t_columns trimmed_summary = continuous_fields) /\
  ("discrete" <> "datetime" -> "discrete" <> "continuous" ->
   fst <$> t_columns trimmed_summary = count_fields).
Proof.
  apply (summary_fields_by_data_type (H := sample_externals)
           (world_of three_rows) 0%nat three_rows "x" "discrete" 1 0
           trimmed_summary).
  - reflexivity.
  - vm_compute. reflexivity.
Defined.

(** ** The counts *)

Lemma dedup_length {A} (eqb : A -> A -> bool) l :
  (length (dedup eqb l) <= length l)%nat.
Proof.
  induction l as [|x l IH]; simpl; [done|].
  pose proof (filter_length_le (fun y => negb (eqb x y)) (dedup eqb l)). lia.
Qed.

Lemma dedup_nil {A} (eqb : A -> A -> bool) l : dedup eqb l = [] -> l = [].
Proof. by destruct l. Qed.

(** X3: in a returned table the counts are consistent: [count_unique] is
    between 0 and [count_observed] and is 0 only when nothing is observed,
    [count_missing] is not negative, and [percent_missing] is NaN when no
    row is left and otherwise is [100 * count_missing] over the number of
    rows left, a number between 0 and 100. *)
Theorem counts_are_consistent `{Externals} w r d column data_type lo up t :
  frames w !! r = Some d ->
  fst (compute_univariate_summary_table r column data_type lo up w) = Ok t ->
  exists o u m,
    field t "count_observed" = Some (int_cell o) /\
    field t "count_unique" = Some (int_cell u) /\
    field t "count_missing" = Some (int_cell m) /\
    (0 <= u <= o)%Z /\ (0 <= m)%Z /\ (u = 0 <-> o = 0)%Z /\
    (((o + m = 0)%Z /\ field t "percent_missing" = Some None) \/
     ((0 < o + m)%Z /\
      exists p, field t "percent_missing" = Some (Some (VNum p)) /\
                (p == inject_Z (100 * m) / inject_Z (o + m))%Q /\
                (0 <= p)%Q /\ (p <= 100)%Q)).
Proof.
  intros Hr Ht.
  destruct (compute_returns_inv _ _ _ _ _ _ _ _ Hr Ht) as [_ Hs].
  destruct (summary_table_counts _ _ _ _ Hs)
    as (col & u & Hcol & Hu & Ho & Hfu & Hm & Hp).
  set (d' := trim_frame column lo up d) in *.
  pose proof (getitem_length _ _ _ Hcol) as Hlen.
  pose proof (observed_length col) as Hobs.
  assert (Hn : shape0 d' = Z.of_nat (length col)) by (unfold shape0; by rewrite Hlen).
  unfold nunique in Hu. destruct (forallb hashable (observed col)); [|discriminate].
  injection Hu as <-.
  pose proof (dedup_length value_eqb (observed col)) as Hdl.
  assert (Hm0 : (0 <= isnull_sum col)%Z) by (unfold isnull_sum; lia).
  eexists _, _, _. split; [exact Ho|]. split; [exact Hfu|]. split; [exact Hm|].
  rewrite Hn. split; [lia|]. split; [done|]. split.
  { split; intros H0; [|lia].
    assert (Hnil : dedup value_eqb (observed col) = [])
      by (apply length_zero_iff_nil; lia).
    apply dedup_nil in Hnil. rewrite Hnil in Hobs. simpl in Hobs. lia. }
  replace (Z.of_nat (length col) - isnull_sum col + isnull_sum col)%Z
    with (Z.of_nat (length col)) by lia.
  rewrite Hp, Hn. unfold np_div.
  destruct (Z.eqb_spec (Z.of_nat (length col)) 0) as [H0|H0]; [left; by split|].
  right. split; [lia|]. eexists. split; [reflexivity|]. split; [reflexivity|].
  assert (Hpos : (0 < inject_Z (Z.of_nat (length col)))%Q).
  { change 0%Q with (inject_Z 0). rewrite <- Zlt_Qlt. lia. }
  split.
  - apply Qle_shift_div_l; [done|]. rewrite Qmult_0_l.
    change 0%Q with (inject_Z 0). rewrite <- Zle_Qle. lia.
  - apply Qle_shift_div_r; [done|].
    change 100%Q with (inject_Z 100). rewrite <- inject_Z_mult, <- Zle_Qle. lia.
Qed.

(** [counts_are_consistent] at the column [1, 2, 2, 3, 3, 3, None]. *)
Lemma counts_are_consistent_witness :
  exists o u m,
    field example_summary "count_observed" = Some (int_cell o) /\
    field example_summary "count_unique" = Some (int_cell u) /\
    field example_summary "count_missing" = Some (int_cell m) /\
    (0 <= u <= o)%Z /\ (0 <= m)%Z /\ (u = 0 <-> o = 0)%Z /\
    (((o + m = 0)%Z /\ field example_summary "percent_missing" = Some None) \/
     ((0 < o + m)%Z /\
      exists p, field example_summary "percent_missing" = Some (Some (VNum p)) /\
                (p == inject_Z (100 * m) / inject_Z (o + m))%Q /\
                (0 <= p)%Q /\ (p <= 100)%Q)).
Proof.
  apply (counts_are_consistent (H := sample_externals)
           (world_of (frame_of_cells "x" example_column)) 0%nat
           (frame_of_cells "x" example_column) "x" "discrete" 0 0
           example_summary).
  - reflexivity.
  - vm_compute. reflexivity.
Defined.

(** ** What is displayed *)

Lemma silent_ret {A} (a : A) : silent (mret a).
Proof. by intros w. Qed.

Lemma silent_lift {A} (r : result A) : silent (lift r).
Proof. by intros w. Qed.

Lemma silent_bind {A B} (m : M A) (k : A -> M B) :
  silent m -> (forall a, silent (k a)) -> silent (m ≫= k).
Proof.
  intros Hm Hk w. unfold mbind, M_bind. specialize (Hm w).
  destruct (m w) as [[a|e] w']; simpl in *; [|done].
  by rewrite Hk.
Qed.

Lemma silent_deref r : silent (deref r).
Proof. intros w. unfold deref. by destruct (frames w !! r). Qed.

Lemma silent_alloc d : silent (alloc d).
Proof. by intros w. Qed.

Lemma silent_store r d : silent (store r d).
Proof. by intros w. Qed.

Lemma silent_new_figure : silent new_figure.
Proof. by intros w. Qed.

Lemma silent_set_palette p : silent (set_palette p).
Proof. by intros w. Qed.

Lemma silent_when_false m : silent (when false m).
Proof. apply silent_ret. Qed.

Lemma silent_when b m : silent m -> silent (when b m).
Proof. destruct b; [done|]. intros _. apply silent_ret. Qed.

Ltac silent_call := fail.

Ltac silent_step :=
  first
    [ silent_call
    | lazymatch goal with
      | |- silent (mbind _ _) => apply silent_bind; [|intros ?]
      | |- silent (mret _) => apply silent_ret
      | |- silent (lift _) => apply silent_lift
      | |- silent (deref _) => apply silent_deref
      | |- silent (alloc _) => apply silent_alloc
      | |- silent (store _ _) => apply silent_store
      | |- silent new_figure => apply silent_new_figure
      | |- silent (set_palette _) => apply silent_set_palette
      | |- silent (when false _) => apply silent_when_false
      | |- silent (when _ _) => apply silent_when
      | |- silent (if ?b then _ else _) => destruct b
      | |- silent (match ?x with _ => _ end) => destruct x
      end ].

Ltac silent_all := cbv zeta; repeat silent_step.

Lemma silent_copy r : silent (copy r).
Proof. unfold copy. silent_all. Qed.

Lemma silent_getcol r c : silent (getcol r c).
Proof. unfold getcol. silent_all. Qed.

Lemma silent_setcol r n cells : silent (setcol r n cells).
Proof. unfold setcol. silent_all. Qed.

Lemma silent_plot `{Externals} p r c : silent (plot p r c).
Proof. unfold plot. silent_all. Qed.

Lemma silent_trim_values r c lo up : silent (trim_values r c lo up).
Proof. unfold trim_values. silent_all. Qed.

Lemma silent_dropna_frame name r : silent (dropna_frame name r).
Proof. unfold dropna_frame. silent_all. Qed.

Ltac silent_call ::=
  lazymatch goal with
  | |- silent (copy _) => apply silent_copy
  | |- silent (getcol _ _) => apply silent_getcol
  | |- silent (setcol _ _ _) => apply silent_setcol
  | |- silent (plot _ _ _) => apply silent_plot
  | |- silent (trim_values _ _ _ _) => apply silent_trim_values
  | |- silent (dropna_frame _ _) => apply silent_dropna_frame
  end.

Lemma silent_compute `{Externals} r c dt lo up :
  silent (compute_univariate_summary_table r c dt lo up).
Proof. unfold compute_univariate_summary_table. silent_all. Qed.

Lemma silent_tokenize_documents `{Externals} r c rp rs lc :
  silent (tokenize_documents r c rp rs lc).
Proof. unfold tokenize_documents. silent_all. Qed.

Lemma silent_common_entries r c top : silent (common_entries r c top).
Proof. unfold common_entries. silent_all. Qed.

Lemma silent_common_pairs r c top : silent (common_pairs r c top).
Proof. unfold common_pairs. silent_all. Qed.

Ltac silent_call ::=
  lazymatch goal with
  | |- silent (copy _) => apply silent_copy
  | |- silent (getcol _ _) => apply silent_getcol
  | |- silent (setcol _ _ _) => apply silent_setcol
  | |- silent (plot _ _ _) => apply silent_plot
  | |- silent (trim_values _ _ _ _) => apply silent_trim_values
  | |- silent (dropna_frame _ _) => apply silent_dropna_frame
  | |- silent (compute_univariate_summary_table _ _ _ _ _) => apply silent_compute
  | |- silent (tokenize_documents _ _ _ _ _) => apply silent_tokenize_documents
  | |- silent (common_entries _ _ _) => apply silent_common_entries
  | |- silent (common_pairs _ _ _) => apply silent_common_pairs
  end.

(** X6: a call with [interactive=False] displays nothing: neither the
    table nor the figure, whether the call returns or raises. *)
Theorem not_interactive_displays_nothing `{Externals}
    (data : nat) (column : string) (color_palette : option string) :
  (forall flip_axis,
     silent (discrete_univariate_summary data column color_palette
               flip_axis false)) /\
  (forall lower_trim upper_trim,
     silent (continuous_univariate_summary data column color_palette
               lower_trim upper_trim false)) /\
  (forall delta_units lower_trim upper_trim,
     silent (datetime_univariate_summary data column color_palette
               delta_units lower_trim upper_trim false)) /\
  (forall compute_ngrams remove_punct remove_stop lower_case,
     silent (text_univariate_summary data column color_palette
               compute_ngrams remove_punct remove_stop lower_case false)).
Proof.
  split; [|split; [|split]]; intros.
  - unfold discrete_univariate_summary. silent_all.
  - unfold continuous_univariate_summary. silent_all.
  - unfold datetime_univariate_summary. silent_all.
  - unfold text_univariate_summary. silent_all.
Qed.

Lemma displays_ret {A} (a : A) (Q : result A -> list shown -> Prop) :
  Q (Ok a) [] -> displays (mret a) Q.
Proof. intros HQ w. by exists []. Qed.

(** After a computation that displays nothing. *)
Lemma displays_after {A B} (m : M A) (k : A -> M B)
    (Q : result B -> list shown -> Prop) :
  silent m -> (forall e, Q (Raise e) []) -> (forall a, displays (k a) Q) ->
  displays (m ≫= k) Q.
Proof.
  intros Hm HQ Hk w. unfold mbind, M_bind. specialize (Hm w).
  destruct (m w) as [[a|e] w']; simpl in *.
  - rewrite <- Hm. apply Hk.
  - exists []. by rewrite Hm.
Qed.

Lemma displays_show {B} (s : shown) (k : unit -> M B)
    (Q : result B -> list shown -> Prop) :
  displays (k tt) (fun r l => Q r (l ++ [s])) -> displays (show s ≫= k) Q.
Proof.
  intros Hk w. unfold mbind, M_bind; simpl.
  destruct (Hk (mkWorld (frames w) (figures w) (palette w) (s :: screen w)))
    as (l & Hl & HQ).
  exists (l ++ [s]). split; [|done]. by rewrite Hl, <- app_assoc.
Qed.

Lemma displays_assoc {A B C} (m : M A) (k1 : A -> M B) (k : B -> M C)
    (Q : result C -> list shown -> Prop) :
  displays (m ≫= fun a => k1 a ≫= k) Q -> displays ((m ≫= k1) ≫= k) Q.
Proof.
  intros Hm w. specialize (Hm w). unfold mbind, M_bind in *.
  by destruct (m w) as [[a|e] w'].
Qed.

Ltac displays_step :=
  lazymatch goal with
  | |- displays (mret _) _ => apply displays_ret
  | |- displays (mbind _ (when true ?m)) _ => change (when true m) with m
  | |- displays (mbind _ (show _)) _ => apply displays_show
  | |- displays (mbind _ (mbind _ (show _))) _ => apply displays_assoc
  | |- displays (mbind _ _) _ =>
      apply displays_after; [solve [silent_all]|by (intros; simpl; eauto)|intros ?]
  | |- displays (match ?x with _ => _ end) _ => destruct x
  end.

Ltac displays_all := cbv zeta; repeat displays_step.

(** X7: an interactive call that returns has displayed exactly two
    things, the table and then the figure; for the three orchestrators
    that return a table it is the table they return.  A call that raises
    has displayed nothing or the table alone. *)
Theorem interactive_displays_the_table `{Externals}
    (data : nat) (column : string) (color_palette : option string) :
  (forall flip_axis,
     displays (discrete_univariate_summary data column color_palette
                 flip_axis true) table_then_figure) /\
  (forall lower_trim upper_trim,
     displays (continuous_univariate_summary data column color_palette
                 lower_trim upper_trim true) table_then_figure) /\
  (forall delta_units lower_trim upper_trim,
     displays (datetime_univariate_summary data column color_palette
                 delta_units lower_trim upper_trim true) table_then_figure) /\
  (forall compute_ngrams remove_punct remove_stop lower_case,
     displays (text_univariate_summary data column color_palette
                 compute_ngrams remove_punct remove_stop lower_case true)
       table_then_figure).
Proof.
  split; [|split; [|split]]; intros.
  - unfold discrete_univariate_summary. displays_all. reflexivity.
  - unfold continuous_univariate_summary. displays_all. reflexivity.
  - unfold datetime_univariate_summary. displays_all. reflexivity.
  - unfold text_univariate_summary. displays_all. simpl. eauto.
Qed.

Lemma quiet_common_entries r c top : quiet (common_entries r c top).
Proof. unfold common_entries. quiet_all. Qed.

Lemma quiet_common_pairs r c top : quiet (common_pairs r c top).
Proof. unfold common_pairs. quiet_all. Qed.

(** X8: [list_univariate_eda] never sets the palette, and it shows its
    figure itself, once, at the very end: a call that raises has
    displayed nothing. *)
Theorem list_eda_shows_its_figure `{Externals}
    (data : nat) (column : string) (top_entries : nat) :
  quiet (list_univariate_eda data column top_entries) /\
  displays (list_univariate_eda data column top_entries) figure_only.
Proof.
  split.
  - unfold list_univariate_eda. cbv zeta.
    repeat first [apply quiet_common_entries | apply quiet_common_pairs
                 | quiet_step].
  - unfold list_univariate_eda. displays_all. reflexivity.
Qed.

(** ** The option [interactive] changes the screen only *)

Lemma alike_ret {A} (a : A) : alike (mret a) (mret a).
Proof. by intros w1 w2 Hw. Qed.

Lemma alike_lift {A} (r : result A) : alike (lift r) (lift r).
Proof. by intros w1 w2 Hw. Qed.

Lemma alike_bind {A B} (m1 m2 : M A) (k1 k2 : A -> M B) :
  alike m1 m2 -> (forall a, alike (k1 a) (k2 a)) ->
  alike (m1 ≫= k1) (m2 ≫= k2).
Proof.
  intros Hm Hk w1 w2 Hw. unfold mbind, M_bind.
  destruct (Hm w1 w2 Hw) as [Hr Hw'].
  destruct (m1 w1) as [[a|e] w1'], (m2 w2) as [[a'|e'] w2'];
    simpl in *; try discriminate.
  - injection Hr as <-. by apply Hk.
  - by injection Hr as <-.
Qed.

Lemma alike_deref r : alike (deref r) (deref r).
Proof.
  intros w1 w2 Hw. unfold deref. rewrite (proj1 Hw).
  by destruct (frames w2 !! r).
Qed.

Lemma alike_alloc d : alike (alloc d) (alloc d).
Proof.
  intros w1 w2 (Hf & ? & ?). unfold alloc, same_but_screen; simpl.
  by rewrite Hf.
Qed.

Lemma alike_store r d : alike (store r d) (store r d).
Proof.
  intros w1 w2 (Hf & ? & ?). unfold store, same_but_screen; simpl.
  by rewrite Hf.
Qed.

Lemma alike_set_palette p : alike (set_palette p) (set_palette p).
Proof.
  intros w1 w2 (? & ? & Hp). unfold set_palette, same_but_screen; simpl.
  by rewrite Hp.
Qed.

Lemma alike_new_figure : alike new_figure new_figure.
Proof.
  intros w1 w2 (? & Hf & ?). unfold new_figure, same_but_screen; simpl.
  by rewrite Hf.
Qed.

Lemma alike_when {b} (m1 m2 : M unit) :
  alike m1 m2 -> alike (when b m1) (when b m2).
Proof. destruct b; [done|]. intros _. apply alike_ret. Qed.

(** Displaying or not. *)
Lemma alike_when_show b1 b2 s : alike (when b1 (show s)) (when b2 (show s)).
Proof. intros w1 w2 Hw. by destruct b1, b2. Qed.

Lemma alike_when_show2 b1 b2 s s' :
  alike (when b1 (show s ≫= fun _ => show s'))
        (when b2 (show s ≫= fun _ => show s')).
Proof. intros w1 w2 Hw. by destruct b1, b2. Qed.

Ltac alike_step :=
  lazymatch goal with
  | |- alike (mbind _ _) (mbind _ _) => apply alike_bind; [|intros ?]
  | |- alike (mret _) (mret _) => apply alike_ret
  | |- alike (lift _) (lift _) => apply alike_lift
  | |- alike (deref _) (deref _) => apply alike_deref
  | |- alike (alloc _) (alloc _) => apply alike_alloc
  | |- alike (store _ _) (store _ _) => apply alike_store
  | |- alike (set_palette _) (set_palette _) => apply alike_set_palette
  | |- alike new_figure new_figure => apply alike_new_figure
  | |- alike (when _ (show _)) (when _ (show _)) => apply alike_when_show
  | |- alike (when _ (mbind _ (show _))) (when _ (mbind _ (show _))) =>
      apply alike_when_show2
  | |- alike (when _ _) (when _ _) => apply alike_when
  | |- alike (if ?b then _ else _) (if ?b then _ else _) => destruct b
  | |- alike (match ?x with _ => _ end) (match ?x with _ => _ end) =>
      destruct x
  end.

Ltac alike_all :=
  unfold tokenize_documents, compute_univariate_summary_table, copy, getcol,
    setcol, plot, trim_values;
  cbv zeta; repeat alike_step.

(** X9: the option [interactive] changes nothing but the screen: with
    it or without it a call returns the same value or raises the same
    exception, and leaves the same frames, the same number of figures
    and the same palette. *)
Theorem interactive_changes_the_screen_only `{Externals}
    (data : nat) (column : string) (color_palette : option string)
    (i1 i2 : bool) :
  (forall flip_axis,
     alike (discrete_univariate_summary data column color_palette flip_axis i1)
           (discrete_univariate_summary data column color_palette flip_axis i2)) /\
  (forall lower_trim upper_trim,
     alike (continuous_univariate_summary data column color_palette
              lower_trim upper_trim i1)
           (continuous_univariate_summary data column color_palette
              lower_trim upper_trim i2)) /\
  (forall delta_units lower_trim upper_trim,
     alike (datetime_univariate_summary data column color_palette
              delta_units lower_trim upper_trim i1)
           (datetime_univariate_summary data column color_palette
              delta_units lower_trim upper_trim i2)) /\
  (forall compute_ngrams remove_punct remove_stop lower_case,
     alike (text_univariate_summary data column color_palette
              compute_ngrams remove_punct remove_stop lower_case i1)
           (text_univariate_summary data column color_palette
              compute_ngrams remove_punct remove_stop lower_case i2)).
Proof.
  split; [|split; [|split]]; intros.
  - unfold discrete_univariate_summary. alike_all.
  - unfold continuous_univariate_summary. alike_all.
  - unfold datetime_univariate_summary. alike_all.
  - unfold text_univariate_summary. alike_all.
Qed.

(** ** A column that the frame does not have *)

(** X10: on a column that the frame does not have,
    [discrete_univariate_summary] (with [flip_axis=None]),
    [text_univariate_summary] and [list_univariate_eda] raise [KeyError]
    before any figure is created and without displaying anything; the
    first and the last have not touched the palette, the text orchestrator
    has set it already. *)
Theorem missing_column_raises_KeyError `{Externals} (w : world) (r : nat)
    (d : DataFrame) (column : string) :
  frames w !! r = Some d -> column ∉ col_names d ->
  (forall color_palette interactive,
     let o := discrete_univariate_summary r column color_palette None
                interactive w in
     fst o = Raise KeyError /\ figures (snd o) = figures w /\
     screen (snd o) = screen w /\ palette (snd o) = palette w) /\
  (forall color_palette compute_ngrams remove_punct remove_stop lower_case
          interactive,
     let o := text_univariate_summary r column color_palette compute_ngrams
                remove_punct remove_stop lower_case interactive w in
     fst o = Raise KeyError /\ figures (snd o) = figures w /\
     screen (snd o) = screen w /\
     palette (snd o) = palette_argument color_palette :: palette w) /\
  (forall top_entries,
     let o := list_univariate_eda r column top_entries w in
     fst o = Raise KeyError /\ figures (snd o) = figures w /\
     screen (snd o) = screen w /\ palette (snd o) = palette w).
Proof.
  intros Hr Hc. split; [|split]; intros.
  - assert (o = (Raise KeyError, allocated d w)) as ->; [|done].
    subst o. unfold discrete_univariate_summary.
    rewrite (bind_run _ _ _ _ _ (copy_run _ _ _ Hr)).
    apply bind_raise, bind_raise.
    by rewrite getcol_allocated, (getitem_missing _ _ Hc).
  - set (w1 := mkWorld (frames w) (figures w)
                  (palette_argument color_palette :: palette w) (screen w)).
    assert (o = (Raise KeyError, allocated d w1)) as ->; [|done].
    subst o. unfold text_univariate_summary.
    rewrite (bind_run _ _ _ _ _ (palette_run color_palette w)).
    rewrite (bind_run _ _ _ _ _ (copy_run w1 r d Hr)).
    rewrite (bind_run (deref _) _ _ d (allocated d w1))
      by (unfold deref; by rewrite lookup_fresh_allocated).
    apply bind_raise. unfold lift, dropna. by rewrite decide_False.
  - assert (o = (Raise KeyError, allocated d w)) as ->; [|done].
    subst o. unfold list_univariate_eda.
    rewrite (bind_run _ _ _ _ _ (copy_run _ _ _ Hr)).
    apply bind_raise.
    by rewrite getcol_allocated, (getitem_missing _ _ Hc).
Qed.

(** [missing_column_raises_KeyError] at the frame [three_rows], which has
    no column "y". *)
Lemma missing_column_raises_KeyError_witness :
  (forall color_palette interactive,
     let o := discrete_univariate_summary (H := sample_externals) 0
                no_such_column color_palette None interactive
                (world_of three_rows) in
     fst o = Raise KeyError /\ figures (snd o) = figures (world_of three_rows) /\
     screen (snd o) = screen (world_of three_rows) /\
     palette (snd o) = palette (world_of three_rows)) /\
  (forall color_palette compute_ngrams remove_punct remove_stop lower_case
          interactive,
     let o := text_univariate_summary (H := sample_externals) 0
                no_such_column color_palette compute_ngrams
                remove_punct remove_stop lower_case interactive
                (world_of three_rows) in
     fst o = Raise KeyError /\ figures (snd o) = figures (world_of three_rows) /\
     screen (snd o) = screen (world_of three_rows) /\
     palette (snd o)
     = palette_argument color_palette :: palette (world_of three_rows)) /\
  (forall top_entries,
     let o := list_univariate_eda (H := sample_externals) 0 no_such_column
                top_entries (world_of three_rows) in
     fst o = Raise KeyError /\ figures (snd o) = figures (world_of three_rows) /\
     screen (snd o) = screen (world_of three_rows) /\
     palette (snd o) = palette (world_of three_rows)).
Proof.
  apply (missing_column_raises_KeyError (H := sample_externals)
           (world_of three_rows) 0%nat three_rows no_such_column).
  - reflexivity.
  - apply (bool_decide_unpack _). vm_compute. exact I.
Defined.

(** X11: the summary-table builder, and the orchestrators that call it
    or [trim_values] first, raise [KeyError] on a column that the frame
    does not have, before any figure is created and without displaying
    anything.  (The lookup that fails first is the one of [trim_values],
    modelled from the spec; the builder's own [data[column]] on line 55
    would fail next.) *)
Theorem missing_column_raises_in_builder `{Externals} (w : world) (r : nat)
    (d : DataFrame) (column : string) :
  frames w !! r = Some d -> column ∉ col_names d ->
  (forall data_type lower_trim upper_trim,
     fst (compute_univariate_summary_table r column data_type
            lower_trim upper_trim w) = Raise KeyError) /\
  (forall color_palette flip_axis interactive,
     let o := discrete_univariate_summary r column color_palette
                (Some flip_axis) interactive w in
     fst o = Raise KeyError /\ figures (snd o) = figures w /\
     screen (snd o) = screen w) /\
  (forall color_palette lower_trim upper_trim interactive,
     let o := continuous_univariate_summary r column color_palette
                lower_trim upper_trim interactive w in
     fst o = Raise KeyError /\ figures (snd o) = figures w /\
     screen (snd o) = screen w) /\
  (forall color_palette delta_units lower_trim upper_trim interactive,
     let o := datetime_univariate_summary r column color_palette delta_units
                lower_trim upper_trim interactive w in
     fst o = Raise KeyError /\ figures (snd o) = figures w /\
     screen (snd o) = screen w).
Proof.
  intros Hr Hc. split; [|split; [|split]]; intros.
  - by rewrite (compute_missing _ _ d).
  - set (w1 := allocated d w).
    set (w2 := mkWorld (frames w1) (figures w1)
                  (palette_argument color_palette :: palette w1) (screen w1)).
    assert (o = (Raise KeyError, w2)) as ->; [|done].
    subst o. unfold discrete_univariate_summary.
    rewrite (bind_run _ _ _ _ _ (copy_run _ _ _ Hr)).
    rewrite (bind_run (mret flip_axis) _ w1 flip_axis w1 eq_refl).
    rewrite (bind_run _ _ _ _ _ (palette_run color_palette w1)).
    apply bind_raise, (compute_missing _ _ d); [|done].
    apply lookup_fresh_allocated.
  - set (w1 := allocated d w).
    set (w2 := mkWorld (frames w1) (figures w1)
                  (palette_argument color_palette :: palette w1) (screen w1)).
    assert (o = (Raise KeyError, w2)) as ->; [|done].
    subst o. unfold continuous_univariate_summary.
    rewrite (bind_run _ _ _ _ _ (copy_run _ _ _ Hr)).
    rewrite (bind_run _ _ _ _ _ (palette_run color_palette w1)).
    apply bind_raise, (compute_missing _ _ d); [|done].
    apply lookup_fresh_allocated.
  - assert (o = (Raise KeyError, allocated d w)) as ->; [|done].
    subst o. unfold datetime_univariate_summary.
    rewrite (bind_run _ _ _ _ _ (copy_run _ _ _ Hr)).
    apply bind_raise, (trim_values_missing _ _ d); [|done].
    apply lookup_fresh_allocated.
Qed.

(** [missing_column_raises_in_builder] at the frame [three_rows], which
    has no column "y". *)
Lemma missing_column_raises_in_builder_witness :
  (forall data_type lower_trim upper_trim,
     fst (compute_univariate_summary_table (H := sample_externals) 0
            no_such_column data_type lower_trim upper_trim
            (world_of three_rows)) = Raise KeyError) /\
  (forall color_palette flip_axis interactive,
     let o := discrete_univariate_summary (H := sample_externals) 0
                no_such_column color_palette (Some flip_axis) interactive
                (world_of three_rows) in
     fst o = Raise KeyError /\ figures (snd o) = figures (world_of three_rows) /\
     screen (snd o) = screen (world_of three_rows)) /\
  (forall color_palette lower_trim upper_trim interactive,
     let o := continuous_univariate_summary (H := sample_externals) 0
                no_such_column color_palette lower_trim upper_trim interactive
                (world_of three_rows) in
     fst o = Raise KeyError /\ figures (snd o) = figures (world_of three_rows) /\
     screen (snd o) = screen (world_of three_rows)) /\
  (forall color_palette delta_units lower_trim upper_trim interactive,
     let o := datetime_univariate_summary (H := sample_externals) 0
                no_such_column color_palette delta_units lower_trim upper_trim
                interactive (world_of three_rows) in
     fst o = Raise KeyError /\ figures (snd o) = figures (world_of three_rows) /\
     screen (snd o) = screen (world_of three_rows)).
Proof.
  apply (missing_column_raises_in_builder (H := sample_externals)
           (world_of three_rows) 0%nat three_rows no_such_column).
  - reflexivity.
  - apply (bool_decide_unpack _). vm_compute. exact I.
Defined.

(** ** The tokens that are kept, for every choice of options *)

Lemma List_filter_sublist {A} (f : A -> bool) (l : list A) :
  List.filter f l `sublist_of` l.
Proof.
  induction l as [|x l IH]; simpl; [constructor|].
  destruct (f x); by constructor.
Qed.

Lemma lower_ascii_idemp a : lower_ascii (lower_ascii a) = lower_ascii a.
Proof.
  destruct a as [b0 b1 b2 b3 b4 b5 b6 b7].
  destruct b0, b1, b2, b3, b4, b5, b6, b7; vm_compute; reflexivity.
Qed.

Lemma lower_idemp s : lower (lower s) = lower s.
Proof.
  induction s as [|a s IH]; simpl; [done|]. by rewrite lower_ascii_idemp, IH.
Qed.

Lemma isalnum_not_empty s : isalnum s = true -> s <> EmptyString.
Proof. by destruct s. Qed.

(** The kept tokens are tokens of the document, lower-cased if asked
    for, in their order. *)
Lemma kept_tokens_sublist `{Externals} rp rs lc x :
  kept_tokens rp rs lc x
  `sublist_of` (if lc then lower <$> word_tokenize x else word_tokenize x).
Proof.
  unfold kept_tokens, drop_punct, drop_stop, lower_all. cbv zeta.
  destruct rp, rs; try done;
    repeat (etrans; [apply List_filter_sublist|]); done.
Qed.

(** X12: on a column of strings [tokenize_documents] (lines 544 to 553
    of [text_univariate_summary]) returns for every choice of
    [remove_punct], [remove_stop] and [lower_case], and leaves in the column
    "tokens", for every document, tokens of that document in their
    order, lower-cased if [lower_case] is set.  With [remove_punct] every
    token left is alphanumeric, so none is empty; with [lower_case] every
    token left is in lower case; with neither filter all tokens are
    left. *)
Theorem tokens_kept_by_options `{Externals} w data d column docs
    remove_punct remove_stop lower_case :
  frames w !! data = Some d -> column ∈ col_names d ->
  documents d column = Some docs ->
  exists w' d',
    tokenize_documents data column remove_punct remove_stop lower_case w
    = (Ok tt, w') /\
    frames w' !! data = Some d' /\
    getitem d' "tokens"
    = Ok ((fun x => Some (of_tokens
                            (kept_tokens remove_punct remove_stop lower_case x)))
          <$> docs) /\
    (forall x,
       kept_tokens remove_punct remove_stop lower_case x
       `sublist_of` (if lower_case then lower <$> word_tokenize x
                     else word_tokenize x)) /\
    (remove_punct = true ->
     forall x t, t ∈ kept_tokens remove_punct remove_stop lower_case x ->
                 isalnum t = true /\ t <> EmptyString) /\
    (lower_case = true ->
     forall x t, t ∈ kept_tokens remove_punct remove_stop lower_case x ->
                 lower t = t) /\
    (remove_punct = false -> remove_stop = false ->
     forall x, kept_tokens remove_punct remove_stop lower_case x
               = if lower_case then lower <$> word_tokenize x
                 else word_tokenize x).
Proof.
  intros Hd Hc Hdocs.
  destruct (wp_elim _ _ _ (wp_tokenize_documents _ _ _ _ _ remove_punct
                             remove_stop lower_case Hd Hc Hdocs))
    as ([] & w' & Hrun & d' & Hd' & _ & Htok).
  exists w', d'. split; [done|]. split; [done|]. split; [done|].
  split; [|split; [|split]].
  - intros x. apply kept_tokens_sublist.
  - intros -> x t Ht. unfold kept_tokens in Ht. cbv zeta in Ht.
    unfold drop_punct in Ht. apply list_elem_of_In, filter_In in Ht as [_ Ht].
    split; [done|]. by apply isalnum_not_empty.
  - intros -> x t Ht.
    pose proof (kept_tokens_sublist remove_punct remove_stop true x) as Hsub.
    apply (sublist_subseteq _ _ Hsub), list_elem_of_fmap in Ht
      as (t' & -> & _).
    apply lower_idemp.
  - intros -> -> x. reflexivity.
Qed.

(** [tokens_kept_by_options] at two documents, with [remove_punct] and
    [lower_case]. *)
Lemma tokens_kept_by_options_witness :
  exists w' d',
    tokenize_documents (H := sample_externals) 0 "t" true false true
      (world_of sample_texts) = (Ok tt, w') /\
    frames w' !! 0%nat = Some d' /\
    getitem d' "tokens"
    = Ok ((fun x => Some (of_tokens
                            (kept_tokens (H := sample_externals) true false true x)))
          <$> ["The cat is here"; "a Dog"]) /\
    (forall x,
       kept_tokens (H := sample_externals) true false true x
       `sublist_of` (lower <$> word_tokenize (Externals := sample_externals) x)) /\
    (true = true ->
     forall x t, t ∈ kept_tokens (H := sample_externals) true false true x ->
                 isalnum t = true /\ t <> EmptyString) /\
    (true = true ->
     forall x t, t ∈ kept_tokens (H := sample_externals) true false true x ->
                 lower t = t) /\
    (true = false -> false = false ->
     forall x, kept_tokens (H := sample_externals) true false true x
               = lower <$> word_tokenize (Externals := sample_externals) x).
Proof.
  apply (tokens_kept_by_options (H := sample_externals)
           (world_of sample_texts) 0%nat sample_texts "t").
  - reflexivity.
  - apply list_elem_of_here.
  - reflexivity.
Defined.

(** ** The table of the datetime orchestrator *)

Lemma keeps_lift_eq s0 {A} (r : result A) : keeps s0 (lift r) (fun a => r = Ok a).
Proof. intros w Hw. split; done. Qed.

Lemma keeps_compute_table `{Externals} s0 r c dt lo up :
  keeps s0 (compute_univariate_summary_table r c dt lo up)
    (fun t => exists d, summary_table d c dt = Ok t).
Proof.
  unfold compute_univariate_summary_table.
  eapply keeps_bind; [apply keeps_trim_values|]. intros r' _.
  eapply keeps_bind; [apply keeps_deref|]. intros d _.
  eapply keeps_weaken; [apply keeps_lift_eq|].
  intros t Ht. by exists d.
Qed.

Lemma alist_get_None {A} n (l : list (string * A)) :
  n ∉ fst <$> l -> alist_get n l = None.
Proof.
  induction l as [|[k v] l IH]; simpl; [done|]. intros Hn.
  apply not_elem_of_cons in Hn as [Hk Hn].
  destruct (String.eqb_spec n k); [done|]. by apply IH.
Qed.

Lemma alist_get_elem_of {A} n (l : list (string * A)) v :
  alist_get n l = Some v -> (n, v) ∈ l.
Proof.
  induction l as [|[k v'] l IH]; simpl; [done|].
  destruct (String.eqb_spec n k) as [->|_].
  - intros [= ->]. apply list_elem_of_here.
  - intros Hv. apply list_elem_of_further. by apply IH.
Qed.

Lemma alist_get_fmap {A} n (g : string -> A) (names : list string) :
  n ∈ names -> alist_get n ((fun m => (m, g m)) <$> names) = Some (g n).
Proof.
  induction names as [|k names IH]; simpl; [by intros ?%elem_of_nil|].
  intros Hn. destruct (String.eqb_spec n k) as [->|Hne]; [done|].
  apply elem_of_cons in Hn as [?|Hn]; [done|]. by apply IH.
Qed.

(** The cells of one field in a table of one row. *)
Lemma one_row_cells label t n :
  one_row label t ->
  exists c, default (replicate (length (t_index t)) None)
                    (alist_get n (t_columns t)) = [c].
Proof.
  intros [Hix Hcols]. destruct (alist_get n (t_columns t)) as [cells|] eqn:Hn.
  - apply alist_get_elem_of in Hn.
    rewrite Forall_forall in Hcols. specialize (Hcols _ Hn). simpl in *.
    destruct cells as [|c [|]]; try done. by exists c.
  - rewrite Hix. simpl. by exists None.
Qed.

Lemma datetime_returns_tables `{Externals} r column cp du lo up i :
  keeps ∅ (datetime_univariate_summary r column cp du lo up i)
    (fun v => exists t1 t2 d1 d2 (u : string) f,
       v = RPair (concat_rows
                    [t1; with_index ("Time Deltas (" ++ u ++ ")")%string t2]) f /\
       summary_table d1 column "datetime" = Ok t1 /\
       summary_table d2 "deltas" "continuous" = Ok t2).
Proof.
  unfold datetime_univariate_summary. cbv zeta.
  repeat first [apply keeps_compute_table | keeps_step].
  apply keeps_ret. cbv beta in *.
  repeat match goal with
         | Ht : exists d, summary_table d _ _ = Ok _ |- _ => destruct Ht as [? ?]
         end.
  eexists _, _, _, _, _, _. split; [reflexivity|]. split; eassumption.
Qed.

(** X13: the table that [datetime_univariate_summary] returns has two
    rows, the first labelled with the column and the second "Time Deltas
    (unit)"; its fields are those of the datetime summary followed by
    [mean] and [std], and these two are missing (NaN) in the first row,
    for only the summary of the deltas has them. *)
Theorem datetime_table_has_two_rows `{Externals} (w : world) (r : nat)
    (column : string) (color_palette : option string) (delta_units : string)
    (lower_trim upper_trim : nat) (interactive : bool) (t : Table) (f : nat) :
  fst (datetime_univariate_summary r column color_palette delta_units
         lower_trim upper_trim interactive w) = Ok (RPair t f) ->
  (exists u : string, t_index t = [column; ("Time Deltas (" ++ u ++ ")")%string]) /\
  fst <$> t_columns t = datetime_table_fields /\
  Forall (fun c : string * list cell => length (snd c) = 2%nat) (t_columns t) /\
  exists m s, alist_get "mean" (t_columns t) = Some [None; m] /\
              alist_get "std" (t_columns t) = Some [None; s].
Proof.
  intros Hrun.
  destruct (datetime_returns_tables r column color_palette delta_units
              lower_trim upper_trim interactive w (map_empty_subseteq _))
    as [_ Hret].
  destruct (Hret _ Hrun) as (t1 & t2 & d1 & d2 & u & f' & [= -> <-] & Ht1 & Ht2).
  pose proof (summary_table_one_row _ _ _ _ Ht1) as Hr1.
  pose proof (summary_table_one_row _ _ _ _ Ht2) as Hr2.
  pose proof (summary_table_datetime_columns _ _ _ Ht1) as Hc1.
  pose proof (summary_table_continuous_columns _ _ _ Ht2) as Hc2.
  set (t2' := with_index ("Time Deltas (" ++ u ++ ")")%string t2).
  assert (Hr2' : one_row ("Time Deltas (" ++ u ++ ")")%string t2')
    by (split; [done|apply Hr2]).
  assert (Hnames : dedup String.eqb
                     ([t1; t2'] ≫= fun t => fst <$> t_columns t)
                   = datetime_table_fields).
  { simpl. change (t_columns t2') with (t_columns t2).
    rewrite Hc1, Hc2. vm_compute. reflexivity. }
  assert (Hcells : forall n, exists a b,
             ([t1; t2'] ≫= fun t =>
                default (replicate (length (t_index t)) None)
                        (alist_get n (t_columns t))) = [a; b] /\
             (n ∉ datetime_fields -> a = None)).
  { intros n. destruct (one_row_cells _ _ n Hr1) as [a Ha].
    destruct (one_row_cells _ _ n Hr2') as [b Hb].
    exists a, b. split; [simpl; simpl in Hb; by rewrite Ha, Hb|].
    intros Hn. rewrite <- Hc1 in Hn. rewrite (alist_get_None _ _ Hn) in Ha.
    rewrite (proj1 Hr1) in Ha. by injection Ha as <-. }
  unfold concat_rows. cbv zeta. rewrite Hnames. cbn [t_index t_columns].
  split; [|split; [|split]].
  - exists u. simpl. by rewrite (proj1 Hr1).
  - rewrite <- list_fmap_compose. reflexivity.
  - rewrite Forall_fmap. apply Forall_forall. intros n _. cbn [snd compose].
    destruct (Hcells n) as (a & b & -> & _). done.
  - destruct (Hcells "mean") as (a & m & Hm & Ha).
    destruct (Hcells "std") as (a' & s & Hs & Ha').
    exists m, s. split.
    + rewrite (alist_get_fmap "mean")
        by (apply (bool_decide_unpack _); vm_compute; exact I).
      rewrite Hm, Ha; [done|]. apply (bool_decide_unpack _). vm_compute. exact I.
    + rewrite (alist_get_fmap "std")
        by (apply (bool_decide_unpack _); vm_compute; exact I).
      rewrite Hs, Ha'; [done|]. apply (bool_decide_unpack _). vm_compute. exact I.
Qed.

(** [datetime_table_has_two_rows] at a column of three timestamps and a
    missing one. *)
Lemma datetime_table_has_two_rows_witness :
  (exists u : string,
     t_index sample_datetime_table = ["d"; ("Time Deltas (" ++ u ++ ")")%string]) /\
  fst <$> t_columns sample_datetime_table = datetime_table_fields /\
  Forall (fun c : string * list cell => length (snd c) = 2%nat)
         (t_columns sample_datetime_table) /\
  exists m s, alist_get "mean" (t_columns sample_datetime_table) = Some [None; m] /\
              alist_get "std" (t_columns sample_datetime_table) = Some [None; s].
Proof.
  apply (datetime_table_has_two_rows (H := sample_externals)
           (world_of sample_times) 0%nat "d" None "auto" 0 0 false
           sample_datetime_table 0%nat).
  vm_compute. reflexivity.
Defined.

(** ** When a call returns: partial correctness *)

Lemma wlp_bind {A B} (m : M A) (k : A -> M B) Q w :
  wlp m (fun a w' => wlp (k a) Q w') w -> wlp (m ≫= k) Q w.
Proof. unfold wlp, mbind, M_bind. by destruct (m w) as [[a|e] w']. Qed.

Lemma wlp_wp {A} (m : M A) Q w : wp m Q w -> wlp m Q w.
Proof. unfold wp, wlp. by destruct (m w) as [[a|e] w']. Qed.

Lemma wlp_lift {A} (r : result A) (Q : A -> world -> Prop) w :
  (forall a, r = Ok a -> Q a w) -> wlp (lift r) Q w.
Proof. intros HQ. unfold wlp, lift. destruct r; [by apply HQ|done]. Qed.

(** A step that leaves the frames of [s0] alone. *)
Lemma wlp_keeps {A} s0 (m : M A) (Q0 : A -> Prop) (Q : A -> world -> Prop) w :
  keeps s0 m Q0 -> s0 ⊆ frames w ->
  (forall a w', s0 ⊆ frames w' -> Q0 a -> Q a w') -> wlp m Q w.
Proof.
  intros Hm Hw HQ. destruct (Hm w Hw) as [Hw' Ha]. unfold wlp.
  destruct (m w) as [[a|e] w']; [|done]. apply HQ; [done|]. by apply Ha.
Qed.

(** ** The text orchestrator returns its figure *)

Lemma set_column_rows_other name cells d column :
  name <> column ->
  Forall2 (fun r r' : gmap string value => r' !! column = r !! column)
    (rows d) (rows (set_column name cells d)).
Proof.
  intros Hne. simpl.
  assert (Hlen : (length (rows d)
                  <= length (cells ++ replicate (length (rows d) - length cells) None))%nat)
    by (rewrite length_app, length_replicate; lia).
  revert Hlen. generalize (cells ++ replicate (length (rows d) - length cells) None).
  induction (rows d) as [|row rs IH]; intros [|c cs] Hlen; simpl in *;
    try lia; constructor.
  - by apply set_cell_lookup_ne.
  - apply IH. lia.
Qed.

Lemma lookup_agree (rs rs' : list (gmap string value)) column :
  Forall2 (fun r r' : gmap string value => r' !! column = r !! column) rs rs' ->
  (fun r : gmap string value => r !! column) <$> rs'
  = (fun r : gmap string value => r !! column) <$> rs.
Proof.
  induction 1 as [|r r' rs rs' Hr _ IH]; [done|].
  rewrite !fmap_cons. by rewrite Hr, IH.
Qed.

Lemma documents_agree d d' column :
  Forall2 (fun r r' : gmap string value => r' !! column = r !! column)
    (rows d) (rows d') ->
  documents d' column = documents d column.
Proof.
  unfold documents. generalize (rows d) (rows d').
  induction 1 as [|r r' rs rs' Hr _ IH]; [done|].
  simpl. by rewrite Hr, IH.
Qed.

Lemma documents_set_other name cells d column :
  name <> column ->
  documents (set_column name cells d) column = documents d column.
Proof. intros Hne. by apply documents_agree, set_column_rows_other. Qed.

Lemma getitem_set_other name cells d column :
  name <> column -> column ∈ col_names d ->
  getitem (set_column name cells d) column = getitem d column.
Proof.
  intros Hne Hc. rewrite !getitem_has by (done || by apply set_column_keeps).
  f_equal. by apply lookup_agree, set_column_rows_other.
Qed.

Lemma documents_getitem d column docs :
  column ∈ col_names d -> documents d column = Some docs ->
  getitem d column = Ok ((fun x => Some (VStr x)) <$> docs).
Proof.
  intros Hc Hdocs. rewrite getitem_has by done. f_equal.
  unfold documents in Hdocs. apply mapM_Some_1 in Hdocs.
  induction Hdocs as [|r x rs docs Hr _ IH]; [done|].
  rewrite !fmap_cons, IH. f_equal.
  destruct (r !! column) as [[| | |y|]|]; try done. by injection Hr as ->.
Qed.

Lemma documents_hashable d column docs :
  column ∈ col_names d -> documents d column = Some docs ->
  hashable_column d column.
Proof.
  intros Hc Hdocs. split; [done|].
  unfold documents in Hdocs. apply mapM_Some_1 in Hdocs.
  induction Hdocs as [|r x rs docs Hr _ IH]; constructor; [|done].
  by destruct (r !! column) as [[| | |y|]|].
Qed.

(** After [dropna] every cell of a text column is a string. *)
Lemma text_column_dropna d column :
  text_column d column ->
  exists d1 docs,
    dropna column d = Ok d1 /\ col_names d1 = col_names d /\
    documents d1 column = Some docs.
Proof.
  intros [Hc Hall]. unfold dropna. rewrite decide_True by done.
  assert (exists docs,
            documents (mkFrame (col_names d)
                         (List.filter (fun r : gmap string value =>
                                         negb (isnull (r !! column))) (rows d)))
                      column = Some docs) as [docs Hdocs]; [|by eexists _, _].
  unfold documents. simpl.
  induction Hall as [|row rs Hrow _ [docs IH]]; simpl; [by exists []|].
  destruct (row !! column) as [[| | |x|]|] eqn:Hx; simpl; try done; [|by exists docs].
  exists (x :: docs). rewrite Hx. simpl. by rewrite IH.
Qed.

(** [len] of every string, and of every list of tokens. *)
Lemma apply_len_strings (docs : list string) :
  exists lens,
    series_apply py_len ((fun x => Some (VStr x)) <$> docs) = Ok lens /\
    Forall (cell_kind NKNum) lens.
Proof.
  unfold series_apply. induction docs as [|x docs (lens & IH & Hall)].
  - by exists [].
  - exists (num_cell (String.length x) :: lens). split.
    + rewrite fmap_cons. by apply mapM_cons_Ok.
    + constructor; [by eexists|done].
Qed.

Lemma apply_len_tokens (g : string -> list string) (docs : list string) :
  exists lens,
    series_apply py_len ((fun x => Some (of_tokens (g x))) <$> docs) = Ok lens /\
    Forall (cell_kind NKNum) lens.
Proof.
  unfold series_apply. induction docs as [|x docs (lens & IH & Hall)].
  - by exists [].
  - exists (num_cell (length (VStr <$> g x)) :: lens). split.
    + rewrite fmap_cons. by apply mapM_cons_Ok.
    + constructor; [by eexists|done].
Qed.

Lemma vocab_size_returns (g : string -> list string) (docs : list string) :
  exists n, vocab_size ((fun x => Some (of_tokens (g x))) <$> docs) = Ok n.
Proof.
  unfold vocab_size.
  assert (mapM as_tokens ((fun x => Some (of_tokens (g x))) <$> docs)
          = Ok (g <$> docs)) as ->; [|by eexists].
  induction docs as [|x docs IH]; [done|].
  rewrite !fmap_cons. apply mapM_cons_Ok; [apply as_tokens_of_tokens|done].
Qed.

Lemma value_counts_hashable d column :
  hashable_column d column ->
  exists counts,
    value_counts ((fun r : gmap string value => r !! column) <$> rows d)
    = Ok counts.
Proof. intros _. unfold value_counts. by eexists. Qed.

(** One filter of the tokens, with what else is known of the frame. *)
Lemma wp_token_step_keep (Keep : DataFrame -> Prop)
    (f g : string -> list string) (h : list string -> list string)
    docs data (b : bool) w :
  (forall cells d, Keep d -> Keep (set_column "tokens" cells d)) ->
  (forall x, f x = if b then h (g x) else g x) ->
  (exists d, frames w !! data = Some d /\ Keep d /\
             length (rows d) = length docs /\
             getitem d "tokens" = Ok ((fun x => Some (of_tokens (g x))) <$> docs)) ->
  wp (when b
        (col ← getcol data "tokens";
         tokens ← lift (series_apply (on_tokens h) col);
         setcol data "tokens" tokens))
     (fun _ w' =>
        exists d, frames w' !! data = Some d /\ Keep d /\
                  length (rows d) = length docs /\
                  getitem d "tokens"
                  = Ok ((fun x => Some (of_tokens (f x))) <$> docs)) w.
Proof.
  intros HK Hf (d & Hd & Hkeep & Hlen & Hcol). destruct b; simpl.
  - apply wp_bind. eapply wp_getcol; [done|done|].
    apply wp_bind. eapply wp_lift; [by apply (apply_on_tokens f g h)|].
    eapply wp_setcol; [done|].
    eexists. split; [apply lookup_set_frame|]. split; [by apply HK|].
    split; [by rewrite set_column_rows|].
    apply set_column_getitem. by rewrite length_fmap.
  - apply wp_ret. exists d. repeat split; [done|done|done|].
    rewrite Hcol. f_equal. apply list_fmap_ext. intros _ x _. by rewrite Hf.
Qed.

Lemma wp_tokenize_documents_keep `{Externals} (Keep : DataFrame -> Prop)
    w data d column docs rp rs lc :
  (forall cells d, Keep d -> Keep (set_column "tokens" cells d)) ->
  frames w !! data = Some d -> column ∈ col_names d ->
  documents d column = Some docs -> Keep d ->
  wp (tokenize_documents data column rp rs lc)
     (fun _ w' =>
        exists d', frames w' !! data = Some d' /\ Keep d' /\
                   length (rows d') = length docs /\
                   getitem d' "tokens"
                   = Ok ((fun x => Some (of_tokens (kept_tokens rp rs lc x)))
                         <$> docs)) w.
Proof.
  intros HK Hd Hc Hdocs Hkeep. unfold tokenize_documents.
  assert (Hlen : length (rows d) = length docs)
    by (eapply length_mapM, Hdocs).
  destruct (getitem d column) as [col|] eqn:Hcol;
    [|unfold getitem in Hcol; by rewrite decide_True in Hcol].
  apply wp_bind. eapply wp_getcol; [done|done|].
  apply wp_bind. eapply wp_lift; [by eapply apply_tokenize|].
  apply wp_bind. eapply wp_setcol; [done|].
  apply wp_bind.
  eapply wp_mono;
    [apply (wp_token_step_keep Keep
              (fun x => if lc then lower_all (word_tokenize x)
                        else word_tokenize x)
              word_tokenize lower_all docs data lc); [done|done|]|].
  { eexists. split; [apply lookup_set_frame|]. split; [by apply HK|].
    split; [by rewrite set_column_rows|].
    apply set_column_getitem. by rewrite length_fmap. }
  intros [] w1 H1. cbv beta. apply wp_bind.
  eapply wp_mono;
    [apply (wp_token_step_keep Keep
              (fun x => let ws := if lc then lower_all (word_tokenize x)
                                  else word_tokenize x in
                        if rs then drop_stop ws else ws)
              (fun x => if lc then lower_all (word_tokenize x)
                        else word_tokenize x)
              drop_stop docs data rs); [done|done|exact H1]|].
  intros [] w2 H2. cbv beta.
  eapply wp_mono;
    [apply (wp_token_step_keep Keep (kept_tokens rp rs lc)
              (fun x => let ws := if lc then lower_all (word_tokenize x)
                                  else word_tokenize x in
                        if rs then drop_stop ws else ws)
              drop_punct docs data rp); [done| |exact H2]|].
  - intros x. unfold kept_tokens. cbv zeta. by destruct rp.
  - by intros [] w3 H3.
Qed.

Ltac text_column H :=
  let E := fresh in
  intros E; apply H; rewrite <- E; unfold text_columns;
  repeat first [ apply list_elem_of_here | apply list_elem_of_further ].

Lemma wp_text `{Externals} w r d column cp ng rp rs lc i :
  charts_leave_frames -> frames w !! r = Some d -> text_column d column ->
  column ∉ text_columns ->
  wp (text_univariate_summary r column cp ng rp rs lc i)
     (fun v _ => exists f, v = RFigure f) w.
Proof.
  intros Hch Hr Ht Hfresh. unfold text_univariate_summary.
  destruct (text_column_dropna _ _ Ht) as (d1 & docs & Hdrop & Hn1 & Hdocs).
  assert (Hc : column ∈ col_names d1) by (rewrite Hn1; apply Ht).
  apply wp_bind, wp_neutral; [apply neutral_palette|].
  intros [] w0 H0. rewrite <- H0 in Hr.
  apply wp_bind, (wp_copy _ d); [done|]. intros data0 w1 H1.
  apply wp_bind, (wp_deref _ d); [done|].
  apply wp_bind. eapply wp_lift; [done|].
  apply wp_bind, wp_alloc.
  pose proof (lookup_allocated d1 w1) as H2. revert H2.
  generalize (fresh (dom (frames w1))) (allocated d1 w1). intros data w2 H2.
  clear H0 H1 Hr data0 w0 w1 Hdrop Ht Hn1.
  (* number of characters per document *)
  pose proof (documents_getitem _ _ _ Hc Hdocs) as Hcol.
  destruct (apply_len_strings docs) as (chars & Hchars & Hnum).
  apply wp_bind. eapply wp_getcol; [done|done|].
  apply wp_bind. eapply wp_lift; [done|].
  apply wp_bind. eapply wp_setcol_at; [done|]. intros w3 H3.
  (* the tokens *)
  set (Keep := fun d' : DataFrame =>
         column ∈ col_names d' /\ documents d' column = Some docs /\
         kind_column NKNum d' "# Characters / Document").
  assert (HK : forall cells d', Keep d' -> Keep (set_column "tokens" cells d')).
  { intros cells d' (K1 & K2 & K3). split; [by apply set_column_keeps|].
    split; [rewrite documents_set_other; [done|text_column Hfresh]|].
    by apply kind_column_set_other. }
  assert (Hk2 : Keep (set_column "# Characters / Document" chars d1)).
  { split; [by apply set_column_keeps|].
    split; [rewrite documents_set_other; [done|text_column Hfresh]|].
    by apply kind_column_set_same. }
  apply wp_bind.
  eapply wp_mono;
    [apply (wp_tokenize_documents_keep Keep _ _ _ column docs rp rs lc HK H3);
     [apply Hk2|apply Hk2|done]|].
  intros [] w4 (d3 & H4 & (K1 & K2 & K3) & Hlen & Htok). cbv beta.
  clear H3 Hk2 H2 Hcol Hchars Hc Hdocs w2 w3.
  destruct (apply_len_tokens (kept_tokens rp rs lc) docs)
    as (counts & Hcounts & Hcnum).
  apply wp_bind. eapply wp_getcol; [done|done|].
  apply wp_bind. eapply wp_lift; [done|].
  apply wp_bind. eapply wp_setcol_at; [done|]. intros w5 H5.
  set (d4 := set_column "# Tokens / Document" counts d3) in *.
  assert (Hc4 : column ∈ col_names d4) by (by apply set_column_keeps).
  assert (Hdocs4 : documents d4 column = Some docs)
    by (unfold d4; rewrite documents_set_other; [done|text_column Hfresh]).
  assert (Hchars4 : kind_column NKNum d4 "# Characters / Document")
    by (by apply kind_column_set_other).
  assert (Htoks4 : kind_column NKNum d4 "# Tokens / Document")
    by (by apply kind_column_set_same).
  assert (Htok4 : getitem d4 "tokens"
                  = Ok ((fun x => Some (of_tokens (kept_tokens rp rs lc x)))
                        <$> docs)).
  { unfold d4. rewrite getitem_set_other; [done|done|].
    unfold getitem in Htok. by case_decide. }
  pose proof (documents_hashable _ _ _ Hc4 Hdocs4) as Hh.
  clearbody d4. clear H4 Htok K1 K2 K3 Hcounts Hcnum d3 Hlen w4.
  (* summary tables *)
  destruct (summary_table_discrete_returns _ _ (hashable_column_trim _ _ 0 0 Hh))
    as [t Ht].
  apply wp_bind. eapply wp_compute_at; [done|done|done|].
  intros w6 H6. eapply lookup_weaken in H5; [|exact H6].
  apply wp_bind. eapply wp_getcol; [done|done|].
  destruct (vocab_size_returns (kept_tokens rp rs lc) docs) as [vocab Hvocab].
  apply wp_bind. eapply wp_lift; [done|]. cbv zeta.
  destruct (summary_table_continuous_returns _ _
              (kind_column_trim _ _ _ 0 0 Htoks4)) as [t1 Ht1].
  apply wp_bind. eapply wp_compute_at; [done|apply Htoks4|done|].
  intros w7 H7. eapply lookup_weaken in H5; [|exact H7].
  destruct (summary_table_continuous_returns _ _
              (kind_column_trim _ _ _ 0 0 Hchars4)) as [t2 Ht2].
  apply wp_bind. eapply wp_compute_at; [done|apply Hchars4|done|].
  intros w8 H8. eapply lookup_weaken in H5; [|exact H8].
  apply wp_bind, wp_neutral; [apply neutral_when, neutral_show|].
  intros [] w9 H9. rewrite <- H9 in H5.
  apply wp_bind, wp_neutral; [apply neutral_new_figure|].
  intros fig w10 H10. rewrite <- H10 in H5.
  (* charts *)
  apply wp_bind.
  apply (wp_mono _ (fun _ w' => frames w' !! data = Some d4)).
  { destruct ng; simpl; [|by apply wp_ret].
    apply wp_bind. eapply wp_plot_at; [done|done|]. intros w11 H11.
    apply wp_bind. eapply wp_plot_at; [done|done|]. intros w12 H12.
    eapply wp_plot_at; [done|done|]. done. }
  intros [] w11 H11.
  apply wp_bind. eapply wp_plot_at; [done|done|]. intros w12 H12.
  apply wp_bind. eapply wp_plot_at; [done|done|]. intros w13 H13.
  apply wp_bind. eapply wp_getcol; [done|by apply getitem_has|].
  destruct (value_counts_hashable _ _ Hh) as [vc Hvc].
  apply wp_bind. eapply wp_lift; [done|].
  apply wp_bind. eapply wp_alloc_at; [done|]. intros tmp w14 _ H14.
  apply wp_bind. eapply wp_plot_at; [done|done|]. intros w15 H15.
  apply wp_bind, wp_neutral; [apply neutral_when, neutral_show|].
  intros [] w16 _. apply wp_ret. eauto.
Qed.

(** X15: on a column of strings, missing cells allowed but one string at
    least present, whose name is none of the three columns that the
    orchestrator adds, [text_univariate_summary] returns, for every choice
    of its options, when the chart producers do; what it returns is the
    figure alone, not a pair with the table.  (When every document is
    missing the two columns of lengths are empty and hold no numbers, and
    the selection of line 80 raises.) *)
Theorem text_returns_its_figure `{Externals} (w : world) (r : nat)
    (d : DataFrame) (column : string) (color_palette : option string)
    (compute_ngrams remove_punct remove_stop lower_case interactive : bool) :
  charts_leave_frames -> frames w !! r = Some d -> text_column d column ->
  holds_a_string d column -> column ∉ text_columns ->
  exists f w',
    text_univariate_summary r column color_palette compute_ngrams
      remove_punct remove_stop lower_case interactive w = (Ok (RFigure f), w').
Proof.
  intros Hch Hr Ht _ Hfresh.
  destruct (wp_elim _ _ _ (wp_text w r d column color_palette compute_ngrams
                             remove_punct remove_stop lower_case interactive
                             Hch Hr Ht Hfresh))
    as (v & w' & Hrun & f & ->).
  eauto.
Qed.

(** [text_univariate_summary] on three documents, one of them missing. *)
Lemma text_returns_its_figure_witness :
  exists f w',
    text_univariate_summary (H := sample_externals) 0 "t" None true true true
      false true (world_of sample_documents) = (Ok (RFigure f), w').
Proof.
  apply (text_returns_its_figure (H := sample_externals)
           (world_of sample_documents) 0%nat sample_documents "t").
  - intros producer column d. reflexivity.
  - reflexivity.
  - apply (bool_decide_unpack _). vm_compute. exact I.
  - apply (bool_decide_unpack _). vm_compute. exact I.
  - apply (bool_decide_unpack _). vm_compute. exact I.
Defined.

(** ** The list orchestrator returns on hashable sequences *)

(** A step that returns, and leaves the frames of [s0] alone. *)
Lemma wp_keeps {A} s0 (m : M A) (Q0 : A -> Prop) (Q1 Q : A -> world -> Prop) w :
  wp m Q1 w -> keeps s0 m Q0 -> s0 ⊆ frames w ->
  (forall a w', Q1 a w' -> Q0 a -> s0 ⊆ frames w' -> Q a w') -> wp m Q w.
Proof.
  intros H1 Hm Hw HQ. destruct (Hm w Hw) as [Hw' Ha]. unfold wp in *.
  destruct (m w) as [[a|e] w']; [|done]. apply HQ; [done| |done]. by apply Ha.
Qed.

Lemma sequence_column_dropna d column :
  sequence_column d column ->
  exists d1 vals,
    dropna column d = Ok d1 /\ col_names d1 = col_names d /\
    (fun r : gmap string value => r !! column) <$> rows d1 = Some <$> vals /\
    Forall (fun v => hashable_sequence v = true) vals.
Proof.
  intros [Hc Hall]. unfold dropna. rewrite decide_True by done.
  assert (exists vals,
            (fun r : gmap string value => r !! column)
              <$> List.filter (fun r : gmap string value =>
                                 negb (isnull (r !! column))) (rows d)
            = Some <$> vals /\
            Forall (fun v => hashable_sequence v = true) vals)
    as (vals & Hvals & Hgood); [|by eexists _, _].
  induction Hall as [|row rs Hrow _ (vals & IH & Hgood)]; [by exists []|].
  cbn [List.filter].
  destruct (row !! column) as [v|] eqn:Hv; cbn [isnull negb]; [|by exists vals].
  exists (v :: vals). split; [|by constructor].
  rewrite !fmap_cons. by rewrite Hv, IH.
Qed.

(** [dropna] leaves the rows that hold a value. *)
Lemma dropna_holds_a_value d column d1 (vals : list value) :
  holds_a_value d column -> dropna column d = Ok d1 ->
  (fun r : gmap string value => r !! column) <$> rows d1 = Some <$> vals ->
  vals <> [].
Proof.
  unfold holds_a_value, dropna. rewrite Exists_exists.
  intros (row & Hrow & Hsome). case_decide; [|done]. intros [= <-].
  simpl. intros Hvals ->.
  apply fmap_nil_inv in Hvals.
  assert (Hin : row ∈ List.filter (fun r : gmap string value =>
                                     negb (isnull (r !! column))) (rows d)).
  { apply list_elem_of_In, filter_In. split; [by apply list_elem_of_In|].
    by destruct Hsome as [v ->]. }
  rewrite Hvals in Hin. by apply elem_of_nil in Hin.
Qed.

Lemma hashable_sequence_hashable v :
  hashable_sequence v = true -> hashable v = true.
Proof. by destruct v. Qed.

(** The entries of a hashable sequence can be hashed. *)
Lemma hashable_sequence_iter v :
  hashable_sequence v = true ->
  exists l, py_iter (Some v) = Ok l /\ Forall (fun x => hashable x = true) l.
Proof.
  destruct v as [| | |s|k l]; try done; intros Hv; simpl.
  - eexists. split; [done|]. apply Forall_fmap, Forall_true. done.
  - exists l. split; [done|]. destruct k; [done|].
    simpl in Hv. apply Forall_forall. intros x Hx.
    rewrite forallb_forall in Hv. by apply Hv, list_elem_of_In.
Qed.

Lemma iter_sequences vals :
  Forall (fun v => hashable_sequence v = true) vals ->
  exists ls, mapM py_iter (Some <$> vals) = Ok ls /\
             Forall (Forall (fun x => hashable x = true)) ls.
Proof.
  induction 1 as [|v vals Hv _ (ls & IH & Hls)]; [by exists []|].
  destruct (hashable_sequence_iter _ Hv) as (l & Hl & Hh).
  exists (l :: ls). split; [|by constructor].
  rewrite fmap_cons. by apply mapM_cons_Ok.
Qed.

Lemma flat_entries_sequences vals :
  Forall (fun v => hashable_sequence v = true) vals ->
  exists entries, flat_entries (Some <$> vals) = Ok entries /\
                  Forall (fun x => hashable x = true) entries.
Proof.
  intros (ls & Hls & Hh)%iter_sequences. unfold flat_entries. rewrite Hls.
  exists (List.concat ls). split; [done|]. clear Hls.
  induction Hh as [|l ls Hl _ IH]; simpl; [done|]. by apply Forall_app.
Qed.

Lemma combinations2_Forall {A} (P : A -> Prop) (l : list A) :
  Forall P l -> Forall (fun p => P (fst p) /\ P (snd p)) (combinations2 l).
Proof.
  induction 1 as [|x l Hx Hl IH]; simpl; [done|].
  apply Forall_app. split; [|done]. apply Forall_fmap.
  eapply Forall_impl; [exact Hl|]. by intros y Hy.
Qed.

Lemma pair_entries_sequences vals :
  Forall (fun v => hashable_sequence v = true) vals ->
  exists pairs, pair_entries (Some <$> vals) = Ok pairs /\
                Forall (fun x => hashable x = true) pairs.
Proof.
  intros (ls & Hls & Hh)%iter_sequences. unfold pair_entries. rewrite Hls.
  eexists. split; [done|]. clear Hls. cbv beta.
  induction Hh as [|l ls Hl _ IH]; [done|].
  rewrite bind_cons. apply Forall_app. split; [|done].
  apply Forall_fmap.
  eapply Forall_impl; [apply (combinations2_Forall _ _ Hl)|].
  intros [a b] [Ha Hb]. simpl in *. by rewrite Ha, Hb.
Qed.

Lemma observed_Some (vals : list value) : observed (Some <$> vals) = vals.
Proof.
  unfold observed. induction vals as [|v vals IH]; [done|].
  rewrite fmap_cons. change (v :: omap id (Some <$> vals) = v :: vals).
  by rewrite IH.
Qed.

Lemma value_counts_values vals :
  Forall (fun x => hashable x = true) vals ->
  exists counts, value_counts (Some <$> vals) = Ok counts.
Proof. intros _. unfold value_counts. by eexists. Qed.

Lemma getitem_frame_of_column name values :
  getitem (frame_of_column name values) name = Ok (Some <$> values).
Proof.
  unfold getitem, frame_of_column. simpl.
  rewrite decide_True by apply list_elem_of_here. f_equal.
  induction values as [|v values IH]; [done|].
  rewrite !fmap_cons, IH. f_equal. apply lookup_singleton_eq.
Qed.

(** Lines 653 to 658, and 672 to 677: the frame of the most common
    values. *)
Lemma wp_top_frame name values top w :
  Forall (fun x => hashable x = true) values ->
  wp (frame ← alloc (frame_of_column name values);
      col ← getcol frame name;
      counts ← lift (value_counts col);
      _ ← setcol frame name (categorical (top_order top counts) col);
      dropna_frame name frame)
     (fun r w' => exists dd, frames w' !! r = Some dd) w.
Proof.
  intros Hall. destruct (value_counts_values _ Hall) as [counts Hcounts].
  apply wp_bind, wp_alloc.
  pose proof (lookup_allocated (frame_of_column name values) w) as H1.
  revert H1. generalize (fresh (dom (frames w)))
    (allocated (frame_of_column name values) w). intros frame w1 H1.
  apply wp_bind. eapply wp_getcol; [done|apply getitem_frame_of_column|].
  apply wp_bind. eapply wp_lift; [done|].
  apply wp_bind. eapply wp_setcol_at; [done|]. intros w2 H2.
  unfold dropna_frame. apply wp_bind. eapply wp_deref; [done|].
  apply wp_bind. eapply wp_lift.
  { unfold dropna. rewrite decide_True by apply set_column_has. done. }
  apply wp_alloc. eexists. apply lookup_allocated.
Qed.

Lemma wp_common_entries data column top d vals w :
  frames w !! data = Some d -> column ∈ col_names d ->
  (fun r : gmap string value => r !! column) <$> rows d = Some <$> vals ->
  Forall (fun v => hashable_sequence v = true) vals ->
  wp (common_entries data column top)
     (fun r w' => exists dd, frames w' !! r = Some dd) w.
Proof.
  intros Hd Hc Hvals Hgood. unfold common_entries.
  destruct (flat_entries_sequences _ Hgood) as (entries & He & Hh).
  apply wp_bind. eapply wp_getcol; [done|by apply getitem_has|].
  rewrite Hvals. apply wp_bind. eapply wp_lift; [done|].
  by apply wp_top_frame.
Qed.

Lemma wp_common_pairs data column top d vals w :
  frames w !! data = Some d -> column ∈ col_names d ->
  (fun r : gmap string value => r !! column) <$> rows d = Some <$> vals ->
  Forall (fun v => hashable_sequence v = true) vals ->
  wp (common_pairs data column top)
     (fun r w' => exists dd, frames w' !! r = Some dd) w.
Proof.
  intros Hd Hc Hvals Hgood. unfold common_pairs.
  destruct (pair_entries_sequences _ Hgood) as (pairs & Hp & Hh).
  apply wp_bind. eapply wp_getcol; [done|by apply getitem_has|].
  rewrite Hvals. apply wp_bind. eapply wp_lift; [done|].
  by apply wp_top_frame.
Qed.

Lemma apply_len_sequences vals :
  Forall (fun v => hashable_sequence v = true) vals ->
  exists lens,
    series_apply py_len (Some <$> vals) = Ok lens /\
    Forall (cell_kind NKNum) lens /\ length lens = length vals /\
    Forall is_Some lens.
Proof.
  unfold series_apply.
  induction 1 as [|v vals Hv _ (lens & IH & Hall & Hlen & Hsome)];
    [by exists []|].
  assert (exists n, py_len (Some v) = Ok (num_cell n)) as [n Hn]
    by (destruct v; try done; by eexists).
  exists (num_cell n :: lens). split; [|split; [|split]].
  - rewrite fmap_cons. by apply mapM_cons_Ok.
  - constructor; [by eexists|done].
  - simpl. by rewrite Hlen.
  - constructor; [by eexists|done].
Qed.

(** The largest of numbers of which there is one at least. *)
Lemma series_max_numbers lens :
  Forall (cell_kind NKNum) lens -> Forall is_Some lens -> lens <> [] ->
  exists q, series_max lens = Ok (Some (VNum q)).
Proof.
  intros (k & xs & Hxs & Hlen & Hk & _)%kind_numeric_values Hsome Hne.
  assert (Hxne : xs <> []).
  { intros ->. simpl in Hlen. destruct Hsome as [|c lens [v ->] _]; [done|].
    discriminate Hlen. }
  rewrite (Hk Hxne) in Hxs.
  unfold series_max, reduce. rewrite Hxs. simpl.
  destruct xs as [|x xs]; [done|]. simpl. by eexists.
Qed.

(** The ticks of the histogram, computed twice. *)
Lemma wp_ticks {B} data d lens (k : list value -> M B) Q w :
  frames w !! data = Some d -> getitem d "num_entries" = Ok lens ->
  Forall (cell_kind NKNum) lens -> Forall is_Some lens -> lens <> [] ->
  (forall ticks, wp (k ticks) Q w) ->
  wp (getcol data "num_entries" ≫= fun col =>
      lift (series_max col) ≫= fun most =>
      lift (arange_upto most) ≫= k) Q w.
Proof.
  intros Hd Hcol Hnum Hsome Hne HQ.
  destruct (series_max_numbers _ Hnum Hsome Hne) as [q Hq].
  apply wp_bind. eapply wp_getcol; [done|done|].
  apply wp_bind. eapply wp_lift; [done|].
  apply wp_bind. eapply wp_lift; [done|]. apply HQ.
Qed.

Lemma wp_list `{Externals} w r d column top :
  charts_leave_frames -> frames w !! r = Some d ->
  sequence_column d column -> holds_a_value d column ->
  column <> "num_entries" ->
  wp (list_univariate_eda r column top) (fun v _ => v = RNone) w.
Proof.
  intros Hch Hr Hs Hval Hne. unfold list_univariate_eda. cbv zeta.
  destruct (sequence_column_dropna _ _ Hs) as (d1 & vals & Hdrop & Hn1 & Hvals & Hgood).
  assert (Hc : column ∈ col_names d1) by (rewrite Hn1; apply Hs).
  pose proof (dropna_holds_a_value _ _ _ _ Hval Hdrop Hvals) as Hvne.
  apply wp_bind, (wp_copy _ d); [done|]. intros data w1 H1.
  apply wp_bind. eapply wp_getcol; [done|apply getitem_has, Hs|].
  apply wp_bind, (wp_deref _ d); [done|].
  apply wp_bind. eapply wp_lift; [done|].
  apply wp_bind, wp_store.
  pose proof (lookup_set_frame data d1 w1) as H2. revert H2.
  generalize (set_frame data d1 w1). intros w2 H2.
  clear H1 Hr w1 Hdrop Hn1 Hs Hval.
  apply wp_bind, wp_neutral; [apply neutral_new_figure|].
  intros fig w3 H3. rewrite <- H3 in H2.
  apply wp_bind. eapply wp_plot_at; [done|done|]. intros w4 H4.
  (* most common entries and pairs *)
  apply wp_bind.
  eapply (wp_keeps {[data := d1]});
    [by eapply wp_common_entries|apply keeps_common_entries
    |by apply map_singleton_subseteq_l|].
  intros singletons w5 [ds H5] Hs1 Hd5. cbv beta.
  apply wp_bind.
  eapply (wp_keeps {[data := d1]}
            _ _ (fun _ w' => frames w' !! singletons = Some ds));
    [by eapply wp_plot_at|by apply keeps_plot|done|].
  intros [] w6 _ _ Hd6. cbv beta.
  apply wp_bind.
  eapply (wp_keeps {[data := d1]});
    [eapply wp_common_pairs;
     [by apply map_singleton_subseteq_l in Hd6|done|done|done]
    |apply keeps_common_pairs|done|].
  intros pairs w7 [dp H7] Hp1 Hd7. cbv beta.
  apply wp_bind.
  eapply (wp_keeps {[data := d1]}
            _ _ (fun _ w' => frames w' !! pairs = Some dp));
    [by eapply wp_plot_at|by apply keeps_plot|done|].
  intros [] w8 _ _ Hd8. cbv beta. apply map_singleton_subseteq_l in Hd8.
  clear H2 H3 H4 H5 Hd5 Hd6 H7 Hd7 w2 w3 w4 w5 w6 w7.
  (* number of entries per observation *)
  destruct (apply_len_sequences _ Hgood) as (lens & Hlens & Hnum & Hlen & Hsome).
  assert (Hlne : lens <> [])
    by (intros ->; destruct vals; [done|discriminate Hlen]).
  apply wp_bind. eapply wp_getcol; [done|by apply getitem_has|].
  rewrite Hvals. apply wp_bind. eapply wp_lift; [done|].
  apply wp_bind. eapply wp_setcol_at; [done|]. intros w9 H9.
  assert (Hrows : length lens = length (rows d1)).
  { rewrite Hlen. rewrite <- (length_fmap Some vals), <- Hvals.
    by rewrite length_fmap. }
  apply wp_bind. eapply wp_getcol; [done|by apply set_column_getitem|].
  destruct (series_max_numbers _ Hnum Hsome Hlne) as [mx Hmx].
  apply wp_bind. eapply wp_lift; [done|].
  apply wp_bind. eapply wp_plot_at; [done|done|]. intros w10 H10.
  eapply wp_ticks; [done|by apply set_column_getitem|done|done|done|].
  intros ticks.
  eapply wp_ticks; [done|by apply set_column_getitem|done|done|done|].
  intros labels.
  (* observations per unique list *)
  apply wp_bind. eapply wp_getcol; [done| |].
  { rewrite getitem_set_other by done. by apply getitem_has. }
  rewrite Hvals.
  assert (Hhash : Forall (fun x => hashable x = true) vals).
  { eapply Forall_impl; [exact Hgood|]. apply hashable_sequence_hashable. }
  destruct (value_counts_values _ Hhash) as [counts Hcounts].
  apply wp_bind. eapply wp_lift; [done|].
  apply wp_bind. eapply wp_alloc_at; [done|]. intros tmp w11 _ H11.
  apply wp_bind. eapply wp_plot_at; [done|done|]. intros w12 H12.
  apply wp_bind, wp_neutral; [apply neutral_show|].
  intros [] w13 _. by apply wp_ret.
Qed.

(** X16: on a column whose cells are tuples that can be hashed, strings
    or missing, one cell at least not being missing, and whose name is not
    "num_entries", [list_univariate_eda] returns when the chart producers
    do; it returns nothing ([None]).  (When every cell is missing there is
    no largest number of entries, and the ticks of lines 698 and 699 raise
    [ValueError].) *)
Theorem list_eda_returns_on_tuples `{Externals} (w : world) (r : nat)
    (d : DataFrame) (column : string) (top_entries : nat) :
  charts_leave_frames -> frames w !! r = Some d ->
  sequence_column d column -> holds_a_value d column ->
  column <> "num_entries" ->
  exists w', list_univariate_eda r column top_entries w = (Ok RNone, w').
Proof.
  intros Hch Hr Hs Hval Hne.
  destruct (wp_elim _ _ _ (wp_list w r d column top_entries Hch Hr Hs Hval Hne))
    as (v & w' & Hrun & ->).
  eauto.
Qed.

(** [list_univariate_eda] on two tuples and a missing cell. *)
Lemma list_eda_returns_on_tuples_witness :
  exists w',
    list_univariate_eda (H := sample_externals) 0 "l" 10
      (world_of tuple_frame) = (Ok RNone, w').
Proof.
  apply (list_eda_returns_on_tuples (H := sample_externals)
           (world_of tuple_frame) 0%nat tuple_frame "l" 10).
  - intros producer column d. reflexivity.
  - reflexivity.
  - apply (bool_decide_unpack _). vm_compute. exact I.
  - apply (bool_decide_unpack _). vm_compute. exact I.
  - discriminate.
Defined.

(** ** Timestamps in a column named as a calendar column *)

Lemma raises_bind_wp {A B} e (m : M A) (k : A -> M B) w :
  wp m (fun a w' => raises e (k a) w') w -> raises e (m ≫= k) w.
Proof.
  intros (a & w' & Hrun & w'' & Hk)%wp_elim. exists w''.
  by rewrite (bind_run _ _ _ _ _ Hrun).
Qed.

Lemma raises_bind_here {A B} e (m : M A) (k : A -> M B) w :
  raises e m w -> raises e (m ≫= k) w.
Proof. intros [w' Hrun]. exists w'. by apply bind_raise. Qed.

Lemma mapM_raise {A B} (f : A -> result B) e l :
  (forall x, f x = Raise e \/ exists y, f x = Ok y) ->
  Exists (fun x => f x = Raise e) l -> mapM f l = Raise e.
Proof.
  intros Hf. induction 1 as [x l Hx|x l _ IH].
  - change (mapM f (x :: l))
      with (f x ≫= fun y => mapM f l ≫= fun k => mret (y :: k)).
    by rewrite Hx.
  - change (mapM f (x :: l))
      with (f x ≫= fun y => mapM f l ≫= fun k => mret (y :: k)).
    rewrite IH. by destruct (Hf x) as [->|[y ->]].
Qed.

(** What a calendar accessor leaves in the place of each timestamp. *)
Lemma dt_apply_times (f : Z -> value) col :
  Forall (cell_kind NKTime) col ->
  dt_apply f col
  = Ok ((fun c : cell => match c with
                         | Some (VTime t) => Some (f t)
                         | _ => None
                         end) <$> col).
Proof.
  unfold dt_apply. induction 1 as [|c col Hc _ IH]; [done|].
  rewrite fmap_cons. apply mapM_cons_Ok; [|done].
  destruct c as [v|]; [|done]. destruct Hc as [q Hq].
  apply as_kind_number in Hq. by destruct v.
Qed.

(** The accessor fails on what another accessor has left. *)
Lemma dt_apply_raises (g : Z -> value) (out : list cell) :
  Exists (fun c : cell => match c with
                          | Some (VTime _) | None => False
                          | Some _ => True
                          end) out ->
  dt_apply g out = Raise AttributeError.
Proof.
  intros Hex. unfold dt_apply. apply mapM_raise.
  - intros [[]|]; eauto.
  - eapply Exists_impl; [exact Hex|]. by intros [[]|].
Qed.

Lemma holds_a_time_set_other d column name cells :
  name <> column -> holds_a_time d column ->
  holds_a_time (set_column name cells d) column.
Proof.
  intros Hne. unfold holds_a_time.
  pose proof (set_column_rows_other name cells d column Hne) as Hrows.
  revert Hrows. generalize (rows d) (rows (set_column name cells d)).
  intros rs rs' Hrows Hex. revert rs' Hrows.
  induction Hex as [row rs Hrow|row rs _ IH]; intros rs' Hrows;
    inversion Hrows as [|? row' ? rs'' Hr Hrest]; subst.
  - apply Exists_cons_hd. by rewrite Hr.
  - apply Exists_cons_tl. by apply IH.
Qed.

(** A calendar field of the timestamps becomes a column, another one. *)
Lemma raises_dt_step {B} e data column name f d (k : unit -> M B) w :
  frames w !! data = Some d -> kind_column NKTime d column ->
  (forall out w', frames w' !! data = Some (set_column name out d) ->
                  raises e (k tt) w') ->
  raises e (getcol data column ≫= fun col =>
            lift (dt_apply f col) ≫= fun out =>
            setcol data name out ≫= k) w.
Proof.
  intros Hd Hk HQ.
  destruct (kind_column_getitem _ _ _ Hk) as (col & Hcol & Hall).
  destruct (dt_apply_returns f col Hall) as [out Hout].
  apply raises_bind_wp. eapply wp_getcol; [done|done|].
  apply raises_bind_wp. eapply wp_lift; [done|].
  apply raises_bind_wp. eapply wp_setcol_at; [done|]. apply HQ.
Qed.

(** The field takes the place of the timestamps, and the next accessor
    fails. *)
Lemma raises_dt_clobber {B} data column (f g : Z -> value) d
    (k : list cell -> M B) w :
  frames w !! data = Some d -> kind_column NKTime d column ->
  holds_a_time d column ->
  (forall t, match f t with VTime _ => False | _ => True end) ->
  raises AttributeError
    (getcol data column ≫= fun col =>
     lift (dt_apply f col) ≫= fun out =>
     setcol data column out ≫= fun _ =>
     getcol data column ≫= fun col =>
     lift (dt_apply g col) ≫= k) w.
Proof.
  intros Hd Hk Ht Hf.
  destruct (kind_column_getitem _ _ _ Hk) as (col & Hcol & Hall).
  pose proof (dt_apply_times f col Hall) as Hout.
  rewrite getitem_has in Hcol by apply Hk. injection Hcol as <-.
  apply raises_bind_wp. eapply wp_getcol; [done|by apply getitem_has, Hk|].
  apply raises_bind_wp. eapply wp_lift; [done|].
  apply raises_bind_wp. eapply wp_setcol_at; [done|]. intros w1 H1.
  apply raises_bind_wp.
  eapply wp_getcol; [done|apply set_column_getitem; by rewrite !length_fmap|].
  apply raises_bind_here. exists w1. unfold lift. f_equal.
  apply dt_apply_raises. rewrite <- list_fmap_compose.
  apply Exists_fmap. eapply Exists_impl; [exact Ht|].
  intros row Hrow. simpl in *.
  destruct (row !! column) as [[q|t|dl|s|sk l]|]; try done.
  specialize (Hf t). by destruct (f t).
Qed.

(** X17: when the column of timestamps is itself named "Month", "Day of
    Month", "Year" or "Hour" and a timestamp is left after trimming,
    [datetime_univariate_summary] raises [AttributeError]: it overwrites
    the column with the calendar field of that name (lines 367 to 370),
    and the next [.dt] accessor finds no timestamps. *)
Theorem datetime_raises_on_calendar_name `{Externals} (w : world) (r : nat)
    (d : DataFrame) (column : string) (color_palette : option string)
    (delta_units : string) (lower_trim upper_trim : nat) (interactive : bool) :
  frames w !! r = Some d -> kind_column NKTime d column ->
  holds_a_time (trim_frame column lower_trim upper_trim d) column ->
  column ∈ calendar_columns ->
  exists w',
    datetime_univariate_summary r column color_palette delta_units
      lower_trim upper_trim interactive w = (Raise AttributeError, w').
Proof.
  intros Hr Hk Ht Hin.
  change (raises AttributeError
            (datetime_univariate_summary r column color_palette delta_units
               lower_trim upper_trim interactive) w).
  unfold datetime_univariate_summary.
  apply raises_bind_wp, (wp_copy _ d); [done|]. intros data0 w0 H0.
  apply raises_bind_wp. eapply wp_trim_at; [done|apply Hk|]. intros data w1 H1.
  apply (kind_column_trim _ _ _ lower_trim upper_trim) in Hk.
  revert Hk Ht H1. generalize (trim_frame column lower_trim upper_trim d).
  intros d0 Hk Ht H1. clear H0 data0 w0 Hr.
  apply raises_bind_wp, wp_neutral; [apply neutral_palette|].
  intros [] w2 H2. rewrite <- H2 in H1. clear H2.
  unfold calendar_columns in Hin.
  repeat (apply elem_of_cons in Hin as [->|Hin]);
    [| | | |by apply elem_of_nil in Hin].
  - by eapply raises_dt_clobber.
  - eapply raises_dt_step; [done|done|]. intros month w3 H3.
    apply (kind_column_set_other _ _ _ "Month" month) in Hk; [|done].
    apply (holds_a_time_set_other _ _ "Month" month) in Ht; [|done].
    by eapply raises_dt_clobber.
  - eapply raises_dt_step; [done|done|]. intros month w3 H3.
    apply (kind_column_set_other _ _ _ "Month" month) in Hk; [|done].
    apply (holds_a_time_set_other _ _ "Month" month) in Ht; [|done].
    eapply raises_dt_step; [done|done|]. intros day w4 H4.
    apply (kind_column_set_other _ _ _ "Day of Month" day) in Hk; [|done].
    apply (holds_a_time_set_other _ _ "Day of Month" day) in Ht; [|done].
    by eapply raises_dt_clobber.
  - eapply raises_dt_step; [done|done|]. intros month w3 H3.
    apply (kind_column_set_other _ _ _ "Month" month) in Hk; [|done].
    apply (holds_a_time_set_other _ _ "Month" month) in Ht; [|done].
    eapply raises_dt_step; [done|done|]. intros day w4 H4.
    apply (kind_column_set_other _ _ _ "Day of Month" day) in Hk; [|done].
    apply (holds_a_time_set_other _ _ "Day of Month" day) in Ht; [|done].
    eapply raises_dt_step; [done|done|]. intros year w5 H5.
    apply (kind_column_set_other _ _ _ "Year" year) in Hk; [|done].
    apply (holds_a_time_set_other _ _ "Year" year) in Ht; [|done].
    by eapply raises_dt_clobber.
Qed.

(** [datetime_univariate_summary] on timestamps in a column named
    "Year". *)
Lemma datetime_raises_on_calendar_name_witness :
  exists w',
    datetime_univariate_summary (H := sample_externals) 0 "Year" None "auto"
      0 0 false (world_of year_times) = (Raise AttributeError, w').
Proof.
  apply (datetime_raises_on_calendar_name (H := sample_externals)
           (world_of year_times) 0%nat year_times "Year").
  - reflexivity.
  - apply (bool_decide_unpack _). vm_compute. exact I.
  - apply (bool_decide_unpack _). vm_compute. exact I.
  - apply (bool_decide_unpack _). vm_compute. exact I.
Defined.

(** ** A column that cannot be hashed *)

Lemma nunique_list d column :
  holds_a_list d column ->
  nunique ((fun r : gmap string value => r !! column) <$> rows d)
  = Raise TypeError.
Proof.
  unfold holds_a_list. rewrite Exists_exists. intros (row & Hrow & l & Hl).
  unfold nunique.
  destruct (forallb hashable _) eqn:Hall; [|done].
  rewrite forallb_forall in Hall.
  specialize (Hall (VSeq KList l)). simpl in Hall.
  discriminate Hall. apply list_elem_of_In. unfold observed.
  apply list_elem_of_omap. exists (Some (VSeq KList l)). split; [|done].
  apply list_elem_of_fmap. by exists row.
Qed.

(** X19: with [flip_axis=None], [discrete_univariate_summary] counts the
    levels of the column first (line 152); on a column in which some row
    holds a Python list it raises [TypeError] there, before the palette is
    set or a figure created, and without displaying anything. *)
Theorem discrete_raises_on_python_lists `{Externals} (w : world) (r : nat)
    (d : DataFrame) (column : string) (color_palette : option string)
    (interactive : bool) :
  frames w !! r = Some d -> column ∈ col_names d -> holds_a_list d column ->
  let o := discrete_univariate_summary r column color_palette None
             interactive w in
  fst o = Raise TypeError /\ figures (snd o) = figures w /\
  screen (snd o) = screen w /\ palette (snd o) = palette w.
Proof.
  intros Hr Hc Hl o.
  assert (o = (Raise TypeError, allocated d w)) as ->; [|done].
  subst o. unfold discrete_univariate_summary.
  rewrite (bind_run _ _ _ _ _ (copy_run _ _ _ Hr)).
  apply bind_raise.
  assert (Hcol : getcol (fresh (dom (frames w))) column (allocated d w)
                 = (Ok ((fun r : gmap string value => r !! column) <$> rows d),
                    allocated d w))
    by (by rewrite getcol_allocated, (getitem_has _ _ Hc)).
  rewrite (bind_run _ _ _ _ _ Hcol).
  apply bind_raise. unfold lift. by rewrite nunique_list.
Qed.

(** [discrete_univariate_summary] on the column [[1, 2], [2, 3]] of
    lists. *)
Lemma discrete_raises_on_python_lists_witness :
  let o := discrete_univariate_summary (H := sample_externals) 0 "l" None None
             false (world_of list_frame) in
  fst o = Raise TypeError /\ figures (snd o) = figures (world_of list_frame) /\
  screen (snd o) = screen (world_of list_frame) /\
  palette (snd o) = palette (world_of list_frame).
Proof.
  apply (discrete_raises_on_python_lists (H := sample_externals)
           (world_of list_frame) 0%nat list_frame "l" None false).
  - reflexivity.
  - apply list_elem_of_here.
  - apply Exists_cons_hd. eexists. reflexivity.
Defined.

(** ** The table of an orchestrator is the table of the builder *)

Lemma wlp_any {A} (m : M A) (Q : A -> world -> Prop) w :
  (forall a w', Q a w') -> wlp m Q w.
Proof. intros HQ. unfold wlp. by destruct (m w) as [[a|e] w']. Qed.

Lemma wlp_ret {A} (a : A) (Q : A -> world -> Prop) w : Q a w -> wlp (mret a) Q w.
Proof. done. Qed.

Lemma wlp_elim {A} (m : M A) (Q : A -> world -> Prop) w a :
  wlp m Q w -> fst (m w) = Ok a -> Q a (snd (m w)).
Proof. unfold wlp. destruct (m w) as [[a'|e] w']; simpl; [by intros ? [= <-]|done]. Qed.

(** The builder, on the frame behind the reference. *)
Lemma wlp_compute `{Externals} data c dt lo up d (Q : Table -> world -> Prop) w :
  frames w !! data = Some d ->
  (forall t w', summary_table (trim_frame c lo up d) c dt = Ok t -> Q t w') ->
  wlp (compute_univariate_summary_table data c dt lo up) Q w.
Proof.
  intros Hd HQ. unfold wlp.
  destruct (compute_univariate_summary_table data c dt lo up w)
    as [[t|e] w'] eqn:Hrun; [|done].
  apply HQ. eapply (compute_returns_inv w data d). { done. } by rewrite Hrun.
Qed.

Lemma builder_table `{Externals} w r d column data_type lo up t :
  frames w !! r = Some d ->
  summary_table (trim_frame column lo up d) column data_type = Ok t ->
  fst (compute_univariate_summary_table r column data_type lo up w) = Ok t.
Proof.
  intros Hr Ht.
  assert (Hc : column ∈ col_names d).
  { destruct (decide (column ∈ col_names d)) as [|Hc]; [done|].
    unfold summary_table in Ht.
    rewrite (getitem_missing (trim_frame column lo up d) column) in Ht by done.
    discriminate Ht. }
  by rewrite (compute_run _ _ _ _ _ _ _ Hr Hc).
Qed.

(** X20: the table that [discrete_univariate_summary] returns is the
    table that the builder gives for the caller's frame and the data type
    "discrete" without trimming, and the table that
    [continuous_univariate_summary] returns is the one of the builder for
    "continuous" and the same trimming: the copy, the palette and the
    charts change nothing of it. *)
Theorem orchestrator_table_is_the_builders `{Externals} (w : world) (r : nat)
    (d : DataFrame) (column : string) (color_palette : option string) :
  frames w !! r = Some d ->
  (forall flip_axis interactive t f,
     fst (discrete_univariate_summary r column color_palette flip_axis
            interactive w) = Ok (RPair t f) ->
     fst (compute_univariate_summary_table r column "discrete" 0 0 w) = Ok t) /\
  (forall lower_trim upper_trim interactive t f,
     fst (continuous_univariate_summary r column color_palette lower_trim
            upper_trim interactive w) = Ok (RPair t f) ->
     fst (compute_univariate_summary_table r column "continuous" lower_trim
            upper_trim w) = Ok t).
Proof.
  intros Hr. split.
  - intros fa i t f Hrun. apply (builder_table _ _ d); [done|].
    assert (Hwlp : wlp (discrete_univariate_summary r column color_palette fa i)
                     (fun v _ => forall t f, v = RPair t f ->
                        summary_table (trim_frame column 0 0 d) column "discrete"
                        = Ok t) w).
    { unfold discrete_univariate_summary.
      apply wlp_bind, wlp_wp, (wp_copy _ d); [done|]. intros data w1 H1.
      apply wlp_bind.
      eapply (wlp_keeps {[data := d]} _ (fun _ => True));
        [|by apply map_singleton_subseteq_l|].
      { destruct fa; keeps_all. }
      intros flip w2 H2 _. apply map_singleton_subseteq_l in H2.
      apply wlp_bind, wlp_wp, wp_neutral; [apply neutral_palette|].
      intros [] w3 H3. rewrite <- H3 in H2.
      apply wlp_bind. eapply wlp_compute; [done|]. intros t0 w4 Ht0.
      apply wlp_bind, wlp_any. intros fig w5.
      apply wlp_bind, wlp_any. intros [] w6.
      apply wlp_bind, wlp_any. intros [] w7.
      apply wlp_ret. by intros ? ? [= <- _]. }
    by apply (wlp_elim _ _ _ _ Hwlp Hrun t f).
  - intros lo up i t f Hrun. apply (builder_table _ _ d); [done|].
    assert (Hwlp : wlp (continuous_univariate_summary r column color_palette
                          lo up i)
                     (fun v _ => forall t f, v = RPair t f ->
                        summary_table (trim_frame column lo up d) column
                          "continuous" = Ok t) w).
    { unfold continuous_univariate_summary.
      apply wlp_bind, wlp_wp, (wp_copy _ d); [done|]. intros data w1 H1.
      apply wlp_bind, wlp_wp, wp_neutral; [apply neutral_palette|].
      intros [] w3 H3. rewrite <- H3 in H1.
      apply wlp_bind. eapply wlp_compute; [done|]. intros t0 w4 Ht0.
      apply wlp_bind, wlp_any. intros fig w5.
      apply wlp_bind, wlp_any. intros [] w6.
      apply wlp_bind, wlp_any. intros [] w7.
      apply wlp_bind, wlp_any. intros [] w8.
      apply wlp_ret. by intros ? ? [= <- _]. }
    by apply (wlp_elim _ _ _ _ Hwlp Hrun t f).
Qed.

(** [orchestrator_table_is_the_builders] at the column [1, 2, 3]. *)
Lemma orchestrator_table_is_the_builders_witness :
  (forall flip_axis interactive t f,
     fst (discrete_univariate_summary (H := sample_externals) 0 "x" None
            flip_axis interactive (world_of three_rows)) = Ok (RPair t f) ->
     fst (compute_univariate_summary_table (H := sample_externals) 0 "x"
            "discrete" 0 0 (world_of three_rows)) = Ok t) /\
  (forall lower_trim upper_trim interactive t f,
     fst (continuous_univariate_summary (H := sample_externals) 0 "x" None
            lower_trim upper_trim interactive (world_of three_rows))
     = Ok (RPair t f) ->
     fst (compute_univariate_summary_table (H := sample_externals) 0 "x"
            "continuous" lower_trim upper_trim (world_of three_rows)) = Ok t).
Proof.
  apply (orchestrator_table_is_the_builders (H := sample_externals)
           (world_of three_rows) 0%nat three_rows "x" None).
  reflexivity.
Defined.

(** ** The row of the time deltas *)

Lemma wlp_getcol r c d (Q : list cell -> world -> Prop) w :
  frames w !! r = Some d -> (forall col, getitem d c = Ok col -> Q col w) ->
  wlp (getcol r c) Q w.
Proof.
  intros Hr HQ. unfold getcol. apply wlp_bind, wlp_wp, (wp_deref _ d); [done|].
  by apply wlp_lift.
Qed.

Lemma wlp_trim r c lo up d (Q : nat -> world -> Prop) w :
  frames w !! r = Some d ->
  (forall data w', frames w' !! data = Some (trim_frame c lo up d) -> Q data w') ->
  wlp (trim_values r c lo up) Q w.
Proof.
  intros Hr HQ. destruct (decide (c ∈ col_names d)) as [Hc|Hc].
  - by apply wlp_wp, (wp_trim_at _ _ _ _ d).
  - unfold wlp. by rewrite (trim_values_missing _ _ d).
Qed.

Lemma wlp_compute_at `{Externals} data c dt lo up d (Q : Table -> world -> Prop) w :
  frames w !! data = Some d ->
  (forall t w', frames w ⊆ frames w' ->
                summary_table (trim_frame c lo up d) c dt = Ok t -> Q t w') ->
  wlp (compute_univariate_summary_table data c dt lo up) Q w.
Proof.
  intros Hd HQ. destruct (decide (c ∈ col_names d)) as [Hc|Hc].
  - unfold wlp. rewrite (compute_run _ _ _ _ _ _ _ Hd Hc).
    destruct (summary_table _ _ _) as [t|e] eqn:Ht; [|done].
    apply HQ; [|done]. apply insert_subseteq, not_elem_of_dom, is_fresh.
  - unfold wlp. by rewrite (compute_missing _ _ d).
Qed.

(** A column is computed from another and set; the rows stay as many. *)
Lemma wlp_column_step {A B} data column name (f : list cell -> result A)
    (g : A -> list cell) d (k : unit -> M B) Q w :
  frames w !! data = Some d ->
  (forall d' w', frames w' !! data = Some d' ->
                 length (rows d') = length (rows d) -> wlp (k tt) Q w') ->
  wlp (getcol data column ≫= fun col =>
       lift (f col) ≫= fun out =>
       setcol data name (g out) ≫= k) Q w.
Proof.
  intros Hd HQ.
  apply wlp_bind. eapply wlp_getcol; [done|]. intros col _.
  apply wlp_bind, wlp_lift. intros out _.
  apply wlp_bind, wlp_wp. eapply wp_setcol_at; [done|]. intros w' Hw'.
  eapply HQ; [done|]. apply set_column_rows.
Qed.

(** The count fields of a summary, and the rows of the frame. *)
Lemma summary_table_rows `{Externals} d column data_type t :
  summary_table d column data_type = Ok t ->
  exists o m : Z,
    field t "count_observed" = Some (int_cell o) /\
    field t "count_missing" = Some (int_cell m) /\
    (o + m = shape0 d)%Z.
Proof.
  intros (col & u & _ & _ & Ho & _ & Hm & _)%summary_table_counts.
  eexists _, _. split; [done|]. split; [done|]. lia.
Qed.

(** A field of two summaries put one above the other. *)
Lemma concat_rows_field l1 l2 t1 t2 n c1 c2 :
  one_row l1 t1 -> one_row l2 t2 ->
  field t1 n = Some c1 -> field t2 n = Some c2 ->
  alist_get n (t_columns (concat_rows [t1; t2])) = Some [c1; c2].
Proof.
  intros Hr1 Hr2 Hf1 Hf2. unfold concat_rows. cbv zeta. cbn [t_columns].
  assert (Hcell : forall l t c, one_row l t -> field t n = Some c ->
            default (replicate (length (t_index t)) None)
                    (alist_get n (t_columns t)) = [c] /\
            n ∈ fst <$> t_columns t).
  { intros l t c Hr Hf. unfold field in Hf.
    destruct (alist_get n (t_columns t)) as [cells|] eqn:Hn; [|done].
    simpl in Hf. pose proof (alist_get_elem_of _ _ _ Hn) as Hin.
    destruct Hr as [_ Hcols]. rewrite Forall_forall in Hcols.
    specialize (Hcols _ Hin). simpl in Hcols.
    destruct cells as [|c' [|]]; try done. injection Hf as ->.
    split; [done|]. apply list_elem_of_fmap. by exists (n, [c]). }
  destruct (Hcell _ _ _ Hr1 Hf1) as [H1 Hin]. destruct (Hcell _ _ _ Hr2 Hf2) as [H2 _].
  rewrite alist_get_fmap.
  - simpl. by rewrite H1, H2.
  - assert (Hd : forall (x : string) l, x ∈ l -> x ∈ dedup String.eqb l).
    { intros x l. induction l as [|y l IH]; [done|].
      intros [->|Hx]%elem_of_cons; simpl; [apply list_elem_of_here|].
      destruct (String.eqb_spec y x) as [->|Hne]; [apply list_elem_of_here|].
      apply list_elem_of_further, list_elem_of_In, filter_In.
      split; [by apply list_elem_of_In, IH|].
      apply negb_true_iff, String.eqb_neq. done. }
    apply Hd. simpl. apply elem_of_app. by left.
Qed.

Lemma datetime_returns_counted `{Externals} w r d column cp du lo up i :
  frames w !! r = Some d ->
  wlp (datetime_univariate_summary r column cp du lo up i)
    (fun v _ => exists t1 t2 d1 d2 (u : string) f,
       v = RPair (concat_rows
                    [t1; with_index ("Time Deltas (" ++ u ++ ")")%string t2]) f /\
       summary_table d1 column "datetime" = Ok t1 /\
       summary_table d2 "deltas" "continuous" = Ok t2 /\
       length (rows d2) = (length (rows d1) - 1)%nat) w.
Proof.
  intros Hr. unfold datetime_univariate_summary.
  apply wlp_bind, wlp_wp, (wp_copy _ d); [done|]. intros data0 w0 H0.
  apply wlp_bind. eapply wlp_trim; [done|]. intros data w1 H1.
  generalize dependent (trim_frame column lo up d). intros d0 H1.
  clear H0 Hr data0 w0.
  apply wlp_bind, wlp_wp, wp_neutral; [apply neutral_palette|].
  intros [] w2 H2. rewrite <- H2 in H1. clear H2.
  eapply (wlp_column_step _ _ _ _ id); [done|]. intros d1 w3 H3 L1.
  eapply (wlp_column_step _ _ _ _ id); [done|]. intros d2 w4 H4 L2.
  eapply (wlp_column_step _ _ _ _ id); [done|]. intros d3 w5 H5 L3.
  eapply (wlp_column_step _ _ _ _ id); [done|]. intros d4 w6 H6 L4.
  eapply (wlp_column_step _ _ _ _ id); [done|]. intros d5 w7 H7 L5.
  apply wlp_bind. eapply wlp_getcol; [done|]. intros col _.
  apply wlp_bind, wlp_lift. intros [deltas units] _.
  apply wlp_bind, wlp_wp. eapply wp_setcol_at; [done|]. intros w8 H8.
  set (d6 := set_column "deltas" deltas d5) in *.
  apply wlp_bind. eapply wlp_compute_at; [done|]. intros t1 w9 H9 Ht1.
  eapply lookup_weaken in H8; [|exact H9].
  apply wlp_bind, wlp_wp, (wp_deref _ d6); [done|].
  apply wlp_bind, wlp_wp. eapply wp_alloc_at; [done|]. intros tail w10 _ Htail.
  apply wlp_bind. eapply wlp_compute_at; [done|]. intros t2 w11 _ Ht2.
  cbv zeta.
  assert (Hfinal : forall fig : nat,
            exists t1' t2' d1' d2' (u : string) f,
              RPair (concat_rows
                       [t1; with_index ("Time Deltas (" ++ units ++ ")")%string t2])
                    fig
              = RPair (concat_rows
                         [t1'; with_index ("Time Deltas (" ++ u ++ ")")%string t2'])
                      f /\
              summary_table d1' column "datetime" = Ok t1' /\
              summary_table d2' "deltas" "continuous" = Ok t2' /\
              length (rows d2') = (length (rows d1') - 1)%nat).
  { intros fig. eexists _, _, _, _, _, _. split; [reflexivity|].
    split; [exact Ht1|]. split; [exact Ht2|].
    simpl. rewrite !trim_rows_length, length_drop. lia. }
  clear -Hfinal.
  apply wlp_bind, wlp_any. intros [] w12.
  apply wlp_bind, wlp_any. intros fig w13.
  repeat (apply wlp_bind, wlp_any; intros ? ?).
  apply wlp_ret, Hfinal.
Qed.

(** X21: in the table that [datetime_univariate_summary] returns, the
    row of the time deltas summarises one row fewer than the row of the
    column (none when there is none): the deltas are taken from
    [data.iloc[1:, :]] (line 379), the first observation having no delta. *)
Theorem deltas_row_counts_one_row_fewer `{Externals} (w : world) (r : nat)
    (d : DataFrame) (column : string) (color_palette : option string)
    (delta_units : string) (lower_trim upper_trim : nat) (interactive : bool)
    (t : Table) (f : nat) :
  frames w !! r = Some d ->
  fst (datetime_univariate_summary r column color_palette delta_units
         lower_trim upper_trim interactive w) = Ok (RPair t f) ->
  exists o1 m1 o2 m2 : Z,
    alist_get "count_observed" (t_columns t) = Some [int_cell o1; int_cell o2] /\
    alist_get "count_missing" (t_columns t) = Some [int_cell m1; int_cell m2] /\
    (o2 + m2 = Z.max 0 (o1 + m1 - 1))%Z.
Proof.
  intros Hr Hrun.
  pose proof (wlp_elim _ _ _ _
                (datetime_returns_counted w r d column color_palette delta_units
                   lower_trim upper_trim interactive Hr) Hrun)
    as (t1 & t2 & d1 & d2 & u & f' & [= -> <-] & Ht1 & Ht2 & Hlen).
  destruct (summary_table_rows _ _ _ _ Ht1) as (o1 & m1 & Ho1 & Hm1 & Hs1).
  destruct (summary_table_rows _ _ _ _ Ht2) as (o2 & m2 & Ho2 & Hm2 & Hs2).
  pose proof (summary_table_one_row _ _ _ _ Ht1) as Hr1.
  assert (Hr2 : one_row ("Time Deltas (" ++ u ++ ")")%string
                  (with_index ("Time Deltas (" ++ u ++ ")")%string t2))
    by (split; [done|apply (summary_table_one_row _ _ _ _ Ht2)]).
  exists o1, m1, o2, m2.
  split; [by eapply concat_rows_field|]. split; [by eapply concat_rows_field|].
  unfold shape0 in *. lia.
Qed.

(** [deltas_row_counts_one_row_fewer] at a column of three timestamps and
    a missing one. *)
Lemma deltas_row_counts_one_row_fewer_witness :
  exists o1 m1 o2 m2 : Z,
    alist_get "count_observed" (t_columns sample_datetime_table)
    = Some [int_cell o1; int_cell o2] /\
    alist_get "count_missing" (t_columns sample_datetime_table)
    = Some [int_cell m1; int_cell m2] /\
    (o2 + m2 = Z.max 0 (o1 + m1 - 1))%Z.
Proof.
  apply (deltas_row_counts_one_row_fewer (H := sample_externals)
           (world_of sample_times) 0%nat sample_times "d" None "auto" 0 0 false
           sample_datetime_table 0%nat).
  - reflexivity.
  - vm_compute. reflexivity.
Defined.

(** ** The table of the text orchestrator *)

Lemma no_missing_dropna d column d1 :
  dropna column d = Ok d1 -> no_missing d1 column.
Proof.
  unfold dropna. case_decide; [|done]. intros [= <-].
  unfold no_missing. simpl. apply Forall_forall.
  intros row [_ Hrow]%list_elem_of_In%filter_In.
  by destruct (row !! column).
Qed.

Lemma no_missing_set_other d column name cells :
  name <> column -> no_missing d column ->
  no_missing (set_column name cells d) column.
Proof.
  intros Hne. unfold no_missing.
  pose proof (set_column_rows_other name cells d column Hne) as Hrows.
  revert Hrows. generalize (rows d) (rows (set_column name cells d)).
  intros rs rs' Hrows Hall. revert rs' Hrows.
  induction Hall as [|row rs Hrow _ IH]; intros rs' Hrows;
    inversion Hrows as [|? row' ? rs'' Hr Hrest]; subst; constructor.
  - by rewrite Hr.
  - by apply IH.
Qed.

Lemma no_missing_set_same d name cells :
  length cells = length (rows d) -> Forall is_Some cells ->
  no_missing (set_column name cells d) name.
Proof.
  intros Hlen Hall. unfold no_missing.
  assert (Hcol : getitem (set_column name cells d) name = Ok cells)
    by (by apply set_column_getitem).
  rewrite getitem_has in Hcol by apply set_column_has.
  injection Hcol as Hcol. rewrite <- Hcol in Hall.
  rewrite Forall_fmap in Hall. exact Hall.
Qed.

Lemma no_missing_trim d column lo up :
  no_missing d column -> no_missing (trim_frame column lo up d) column.
Proof.
  unfold no_missing. simpl. rewrite !Forall_forall.
  intros Hall row Hrow. eapply Hall, trim_rows_elem_of, Hrow.
Qed.

Lemma no_missing_count d column :
  no_missing d column ->
  isnull_sum ((fun r : gmap string value => r !! column) <$> rows d) = 0%Z.
Proof.
  unfold no_missing, isnull_sum. induction 1 as [|row rs [v Hv] _ IH]; [done|].
  rewrite fmap_cons, Hv. exact IH.
Qed.

(** [len] gives a number for every cell, or raises. *)
Lemma apply_len_cells col out :
  series_apply py_len col = Ok out ->
  length out = length col /\ Forall is_Some out.
Proof.
  intros Hall%mapM_Ok_inv.
  induction Hall as [|c y col out Hy _ [IH1 IH2]]; [done|].
  split; [simpl; by rewrite IH1|]. constructor; [|done].
  destruct c as [[]|]; try done; injection Hy as <-; by eexists.
Qed.

(** The summary of a column without missing cells. *)
Lemma summary_no_missing `{Externals} d column data_type lo up t :
  no_missing d column ->
  summary_table (trim_frame column lo up d) column data_type = Ok t ->
  field t "count_missing" = Some (int_cell 0) /\ one_row column t.
Proof.
  intros Hno Ht. split; [|by eapply summary_table_one_row].
  destruct (summary_table_counts _ _ _ _ Ht) as (col & u & Hcol & _ & _ & _ & Hm & _).
  rewrite Hm. do 2 f_equal.
  assert (Hc : column ∈ col_names (trim_frame column lo up d)).
  { unfold getitem in Hcol. by case_decide. }
  rewrite getitem_has in Hcol by done. injection Hcol as <-.
  by apply (no_missing_count (trim_frame column lo up d)), no_missing_trim.
Qed.

Lemma table_set_one_row label t name c :
  one_row label t -> one_row label (table_set t name c).
Proof.
  intros [Hix Hcols]. split; [done|]. unfold table_set. cbn [t_columns].
  rewrite Hix. simpl.
  induction Hcols as [|[n cells] cols Hn Hcols IH]; simpl;
    [by repeat constructor|].
  destruct (String.eqb name n); constructor; done.
Qed.

Lemma table_set_field_other t name c n :
  name <> n -> field (table_set t name c) n = field t n.
Proof.
  intros Hne. unfold field, table_set. cbn [t_columns].
  rewrite alist_get_set_other; [done|]. done.
Qed.

(** A field of three summaries put one above the other. *)
Lemma concat_rows_field3 l1 l2 l3 t1 t2 t3 n c1 c2 c3 :
  one_row l1 t1 -> one_row l2 t2 -> one_row l3 t3 ->
  field t1 n = Some c1 -> field t2 n = Some c2 -> field t3 n = Some c3 ->
  t_index (concat_rows [t1; t2; t3]) = [l1; l2; l3] /\
  alist_get n (t_columns (concat_rows [t1; t2; t3])) = Some [c1; c2; c3].
Proof.
  intros Hr1 Hr2 Hr3 Hf1 Hf2 Hf3. unfold concat_rows. cbv zeta.
  cbn [t_columns t_index]. split.
  { simpl. by rewrite (proj1 Hr1), (proj1 Hr2), (proj1 Hr3). }
  assert (Hcell : forall l t c, one_row l t -> field t n = Some c ->
            default (replicate (length (t_index t)) None)
                    (alist_get n (t_columns t)) = [c] /\
            n ∈ fst <$> t_columns t).
  { intros l t c Hr Hf. unfold field in Hf.
    destruct (alist_get n (t_columns t)) as [cells|] eqn:Hn; [|done].
    simpl in Hf. pose proof (alist_get_elem_of _ _ _ Hn) as Hin.
    destruct Hr as [_ Hcols]. rewrite Forall_forall in Hcols.
    specialize (Hcols _ Hin). simpl in Hcols.
    destruct cells as [|c' [|]]; try done. injection Hf as ->.
    split; [done|]. apply list_elem_of_fmap. by exists (n, [c]). }
  destruct (Hcell _ _ _ Hr1 Hf1) as [H1 Hin].
  destruct (Hcell _ _ _ Hr2 Hf2) as [H2 _].
  destruct (Hcell _ _ _ Hr3 Hf3) as [H3 _].
  rewrite alist_get_fmap.
  - simpl. by rewrite H1, H2, H3.
  - assert (Hd : forall (x : string) l, x ∈ l -> x ∈ dedup String.eqb l).
    { intros x l. induction l as [|y l IH]; [done|].
      intros [->|Hx]%elem_of_cons; simpl; [apply list_elem_of_here|].
      destruct (String.eqb_spec y x) as [->|Hne]; [apply list_elem_of_here|].
      apply list_elem_of_further, list_elem_of_In, filter_In.
      split; [by apply list_elem_of_In, IH|].
      apply negb_true_iff, String.eqb_neq. done. }
    apply Hd. simpl. apply elem_of_app. by left.
Qed.

Lemma wlp_bind_silent {A B} (m : M A) (k : A -> M B) Q w :
  silent m ->
  wlp m (fun a w' => screen w' = screen w -> wlp (k a) Q w') w ->
  wlp (m ≫= k) Q w.
Proof.
  intros Hs Hm. unfold wlp, mbind, M_bind in *. specialize (Hs w).
  destruct (m w) as [[a|e] w']; simpl in *; [by apply Hm|done].
Qed.

Lemma wlp_mono {A} (m : M A) (P Q : A -> world -> Prop) w :
  wlp m P w -> (forall a w', P a w' -> Q a w') -> wlp m Q w.
Proof. unfold wlp. destruct (m w) as [[a|e] w']; [auto|done]. Qed.

Lemma wlp_displays {A} (m : M A) Q0 (Q : A -> world -> Prop) w :
  displays m Q0 ->
  (forall a w' l, screen w' = l ++ screen w -> Q0 (Ok a) l -> Q a w') ->
  wlp m Q w.
Proof.
  intros Hm HQ. destruct (Hm w) as (l & Hl & H0). unfold wlp.
  destruct (m w) as [[a|e] w']; [|done]. by apply (HQ a w' l).
Qed.

Lemma wlp_show {B} s (k : unit -> M B) Q w :
  wlp (k tt) Q (mkWorld (frames w) (figures w) (palette w) (s :: screen w)) ->
  wlp (show s ≫= k) Q w.
Proof. done. Qed.

Ltac sil := apply wlp_bind_silent; [solve [silent_all]|].

Ltac scr Hs :=
  let H := fresh "Hs" in intros H; rewrite Hs in H; clear Hs; rename H into Hs.

(** One filter of the tokens: what is known of the other columns
    stays. *)
Lemma wlp_retoken (Keep : DataFrame -> Prop) (f : list cell -> result (list cell))
    data (b : bool) d w :
  (forall cells d, Keep d -> Keep (set_column "tokens" cells d)) ->
  frames w !! data = Some d -> Keep d ->
  wlp (when b
        (col ← getcol data "tokens";
         tokens ← lift (f col);
         setcol data "tokens" tokens))
     (fun _ w' => screen w' = screen w /\
                  exists d', frames w' !! data = Some d' /\ Keep d') w.
Proof.
  intros HK Hd Hkeep. destruct b; simpl; [|apply wlp_ret; eauto].
  apply wlp_bind. eapply wlp_getcol; [done|]. intros col _.
  apply wlp_bind, wlp_lift. intros tokens _.
  apply wlp_wp. eapply wp_setcol; [done|]. split; [done|].
  eexists. split; [apply lookup_set_frame|]. by apply HK.
Qed.

Lemma wlp_tokenize_keep `{Externals} (Keep : DataFrame -> Prop)
    w data d column rp rs lc :
  (forall cells d, Keep d -> Keep (set_column "tokens" cells d)) ->
  frames w !! data = Some d -> Keep d ->
  wlp (tokenize_documents data column rp rs lc)
     (fun _ w' => screen w' = screen w /\
                  exists d', frames w' !! data = Some d' /\ Keep d') w.
Proof.
  intros HK Hd Hkeep. unfold tokenize_documents.
  apply wlp_bind. eapply wlp_getcol; [done|]. intros col _.
  apply wlp_bind, wlp_lift. intros tokens _.
  apply wlp_bind, wlp_wp. eapply wp_setcol; [done|].
  pose proof (lookup_set_frame data (set_column "tokens" tokens d) w) as H1.
  assert (Hs1 : screen (set_frame data (set_column "tokens" tokens d) w)
                = screen w) by done.
  apply (HK tokens) in Hkeep.
  revert H1 Hs1 Hkeep.
  generalize (set_column "tokens" tokens d). intros d1.
  generalize (set_frame data d1 w). intros w1 H1 Hs1 K1.
  apply wlp_bind.
  unfold wlp at 1.
  pose proof (wlp_retoken Keep (series_apply (on_tokens lower_all)) data lc
                d1 w1 HK H1 K1) as Hstep.
  unfold wlp in Hstep.
  destruct (when lc _ w1) as [[[]|e] w2]; [|done].
  destruct Hstep as (Hs2 & d2 & H2 & K2). rewrite Hs1 in Hs2.
  apply wlp_bind. unfold wlp at 1.
  pose proof (wlp_retoken Keep (series_apply (on_tokens drop_stop)) data rs
                d2 w2 HK H2 K2) as Hstep.
  unfold wlp in Hstep.
  destruct (when rs _ w2) as [[[]|e] w3]; [|done].
  destruct Hstep as (Hs3 & d3 & H3 & K3). rewrite Hs2 in Hs3.
  unfold wlp.
  pose proof (wlp_retoken Keep (series_apply (on_tokens drop_punct)) data rp
                d3 w3 HK H3 K3) as Hstep.
  unfold wlp in Hstep.
  destruct (when rp _ w3) as [[[]|e] w4]; [|done].
  destruct Hstep as (Hs4 & d4 & H4 & K4). rewrite Hs3 in Hs4. eauto.
Qed.

Lemma text_displays_counted `{Externals} w r d column cp ng rp rs lc :
  frames w !! r = Some d -> column ∉ text_columns ->
  wlp (text_univariate_summary r column cp ng rp rs lc true)
    (fun _ w' =>
       exists t, screen w' = PltShow :: Displayed t :: screen w /\
                 t_index t = text_table_rows column /\
                 alist_get "count_missing" (t_columns t)
                 = Some [int_cell 0; int_cell 0; int_cell 0]) w.
Proof.
  intros Hr Hfresh. unfold text_univariate_summary.
  sil. apply wlp_wp, wp_neutral; [apply neutral_palette|].
  intros [] w0 H0 Hs. rewrite <- H0 in Hr. clear H0.
  sil. apply wlp_wp, (wp_copy _ d); [done|]. intros data0 w1 H1. scr Hs.
  sil. apply wlp_wp, (wp_deref _ d); [done|]. intros _.
  sil. apply wlp_lift. intros d1 Hdrop _.
  sil. apply wlp_wp, wp_alloc.
  pose proof (lookup_allocated d1 w1) as H2.
  assert (Hs2 : screen (allocated d1 w1) = screen w) by (by rewrite <- Hs).
  revert H2 Hs2. generalize (fresh (dom (frames w1))) (allocated d1 w1).
  intros data w2 H2 Hs2 _. clear Hs H1 Hr data0 w0 w1. rename Hs2 into Hs.
  pose proof (no_missing_dropna _ _ _ Hdrop) as Hno. clear Hdrop.
  (* number of characters per document *)
  sil. eapply wlp_getcol; [done|]. intros col Hcol _.
  sil. apply wlp_lift. intros chars Hchars _.
  sil. apply wlp_wp. eapply wp_setcol_at; [done|]. intros w3 H3. scr Hs.
  apply apply_len_cells in Hchars as [Hlen Hsome].
  rewrite (getitem_length _ _ _ Hcol) in Hlen.
  set (Keep := fun d' : DataFrame =>
         no_missing d' column /\ no_missing d' "# Characters / Document").
  assert (HK : forall cells d', Keep d' -> Keep (set_column "tokens" cells d')).
  { intros cells d' [K1 K2]. split; apply no_missing_set_other; try done.
    text_column Hfresh. }
  assert (Hk2 : Keep (set_column "# Characters / Document" chars d1)).
  { split; [apply no_missing_set_other; [text_column Hfresh|done]|].
    by apply no_missing_set_same. }
  clear Hcol Hlen Hsome Hno H2 w2.
  (* the tokens *)
  apply wlp_bind.
  eapply wlp_mono;
    [apply (wlp_tokenize_keep Keep w3 data _ column rp rs lc HK H3 Hk2)|].
  intros [] w4 (Hs4 & d3 & H4 & K1 & K2). cbv beta. rewrite Hs in Hs4.
  clear Hs H3 Hk2 w3 chars col d1. rename Hs4 into Hs.
  sil. eapply wlp_getcol; [done|]. intros col Hcol _.
  sil. apply wlp_lift. intros counts Hcounts _.
  sil. apply wlp_wp. eapply wp_setcol_at; [done|]. intros w5 H5. scr Hs.
  apply apply_len_cells in Hcounts as [Hlen Hsome].
  rewrite (getitem_length _ _ _ Hcol) in Hlen.
  assert (N1 : no_missing (set_column "# Tokens / Document" counts d3) column)
    by (apply no_missing_set_other; [text_column Hfresh|done]).
  assert (N2 : no_missing (set_column "# Tokens / Document" counts d3)
                 "# Characters / Document")
    by (by apply no_missing_set_other).
  assert (N3 : no_missing (set_column "# Tokens / Document" counts d3)
                 "# Tokens / Document")
    by (by apply no_missing_set_same).
  revert H5 N1 N2 N3. generalize (set_column "# Tokens / Document" counts d3).
  intros d4 H5 N1 N2 N3. clear Hcol Hlen Hsome K1 K2 H4 col counts d3 w4 HK Keep.
  (* summary tables *)
  sil. eapply wlp_compute_at; [done|]. intros t1 w6 H6 Ht1. scr Hs.
  eapply lookup_weaken in H5; [|exact H6]. clear H6.
  sil. eapply wlp_getcol; [done|]. intros col _ _.
  sil. apply wlp_lift. intros vocab _ _. cbv zeta.
  sil. eapply wlp_compute_at; [done|]. intros t2 w7 H7 Ht2. scr Hs.
  eapply lookup_weaken in H5; [|exact H7]. clear H7.
  sil. eapply wlp_compute_at; [done|]. intros t3 w8 H8 Ht3. scr Hs.
  destruct (summary_no_missing _ _ _ _ _ _ N1 Ht1) as [F1 R1].
  destruct (summary_no_missing _ _ _ _ _ _ N3 Ht2) as [F2 R2].
  destruct (summary_no_missing _ _ _ _ _ _ N2 Ht3) as [F3 R3].
  apply (table_set_one_row _ _ "vocab_size" vocab) in R1.
  rewrite <- (table_set_field_other t1 "vocab_size" vocab) in F1 by done.
  destruct (concat_rows_field3 _ _ _ _ _ _ _ _ _ _ R1 R2 R3 F1 F2 F3)
    as [Hix Hmiss].
  revert Hix Hmiss.
  generalize (concat_rows [table_set t1 "vocab_size" vocab; t2; t3]).
  intros table Hix Hmiss.
  clear -Hs Hix Hmiss.
  change (when true (show (Displayed table))) with (show (Displayed table)).
  apply wlp_show.
  eapply (wlp_displays _ figure_only).
  { displays_all. reflexivity. }
  intros a w' l Hl ->. exists table. split; [|done].
  rewrite Hl. simpl. by rewrite Hs.
Qed.

(** X22: on a column that holds a string at least, the table that an
    interactive [text_univariate_summary] displays when it returns has
    three rows, for the column, the tokens per document and the characters
    per document, and reports no missing value in any of them, however
    many documents are missing: they are dropped (line 538) before
    anything is counted. *)
Theorem text_table_reports_no_missing `{Externals} (w : world) (r : nat)
    (d : DataFrame) (column : string) (color_palette : option string)
    (compute_ngrams remove_punct remove_stop lower_case : bool) (v : retval) :
  frames w !! r = Some d -> holds_a_string d column ->
  column ∉ text_columns ->
  fst (text_univariate_summary r column color_palette compute_ngrams
         remove_punct remove_stop lower_case true w) = Ok v ->
  exists t,
    screen (snd (text_univariate_summary r column color_palette compute_ngrams
                   remove_punct remove_stop lower_case true w))
    = PltShow :: Displayed t :: screen w /\
    t_index t = text_table_rows column /\
    alist_get "count_missing" (t_columns t)
    = Some [int_cell 0; int_cell 0; int_cell 0].
Proof.
  intros Hr _ Hfresh Hrun.
  exact (wlp_elim _ _ _ _
           (text_displays_counted w r d column color_palette compute_ngrams
              remove_punct remove_stop lower_case Hr Hfresh) Hrun).
Qed.

(** [text_table_reports_no_missing] at three documents of which one is
    missing. *)
Lemma text_table_reports_no_missing_witness :
  exists t,
    screen sample_text_world
    = PltShow :: Displayed t :: screen (world_of sample_documents) /\
    t_index t = text_table_rows "t" /\
    alist_get "count_missing" (t_columns t)
    = Some [int_cell 0; int_cell 0; int_cell 0].
Proof.
  apply (text_table_reports_no_missing (H := sample_externals)
           (world_of sample_documents) 0%nat sample_documents "t" None
           true true true false (RFigure 0)).
  - reflexivity.
  - apply (bool_decide_unpack _). vm_compute. exact I.
  - apply (bool_decide_unpack _). vm_compute. exact I.
  - vm_compute. reflexivity.
Defined.
